(** * moltbot-supermemory: container-tag resolution and query sanitization

    A shallow embedding of the plugin's two core components
    ([resolveContainerTag] of types.ts and [sanitizeQuery] /
    [needsSanitization] of sanitize-query.ts), of the result flattening of
    [SupermemoryClient.search], and of the hook and tool handlers that call
    them, followed by the properties the specification states about them. *)

From Stdlib Require Import String Ascii NArith Arith Bool Lia PrimFloat List.
Import ListNotations.
Local Open Scope list_scope.


(** ** JavaScript strings

    A JavaScript string is a sequence of UTF-16 code units; a regular
    expression without the [u] flag works on code units.  A code unit is
    modelled as a number in [N], a string as a list of them. *)

Definition codeunit := N.
Definition jsstring := list codeunit.

(** A string literal of the source (ASCII only). *)
Definition js (s : string) : jsstring :=
  map N_of_ascii (list_ascii_of_string s).

Definition jsstring_eqb (a b : jsstring) : bool :=
  if list_eq_dec N.eq_dec a b then true else false.

(** [\s] of a regular expression and the set [trim] strips: WhiteSpace and
    LineTerminator of ECMAScript. *)
Definition isSpace (c : codeunit) : bool :=
  ((9 <=? c) && (c <=? 13) || (c =? 32) || (c =? 160) || (c =? 5760)
   || (8192 <=? c) && (c <=? 8202) || (c =? 8232) || (c =? 8233)
   || (c =? 8239) || (c =? 8287) || (c =? 12288) || (c =? 65279))%N.

(** [\d]. *)
Definition isDigit (c : codeunit) : bool := ((48 <=? c) && (c <=? 57))%N.

Definition isUpper (c : codeunit) : bool := ((65 <=? c) && (c <=? 90))%N.
Definition isLower (c : codeunit) : bool := ((97 <=? c) && (c <=? 122))%N.

(** [\w]: ASCII letters, digits and underscore (also under the [i] flag when
    the [u] flag is absent). *)
Definition isWord (c : codeunit) : bool :=
  isUpper c || isLower c || isDigit c || (c =? 95)%N.

(** Canonicalize of a code unit under the [i] flag without [u], as far as a
    comparison with an ASCII pattern character goes: a code unit above 127
    never canonicalizes to an ASCII one, so only ASCII letters fold. *)
Definition canonicalize (c : codeunit) : codeunit :=
  if isLower c then (c - 32)%N else c.

Definition SPACE : jsstring := [32%N].

(** ** Regular expressions: a backtracking matcher *)

Module RegExp.

(** The constructs the program's patterns use.  A class is a predicate on one
    code unit.  Quantifiers are greedy. *)
Inductive regex : Type :=
| Empty
| Class (p : codeunit -> bool)
| Seq (a b : regex)
| Alt (a b : regex)
| Star (a : regex)
| Start          (* ^ without the m flag *)
| WordBoundary.  (* \b *)

(** A position in the input: the code unit just before it ([None] at index 0)
    and the rest of the input. *)
Definition cont := option codeunit -> jsstring -> option jsstring.

Definition isWordBefore (prev : option codeunit) : bool :=
  match prev with Some c => isWord c | None => false end.

Definition isWordAt (s : jsstring) : bool :=
  match s with c :: _ => isWord c | [] => false end.

(** Greedy iteration of a body matcher [m]: one more iteration is tried
    first, and an iteration that consumes nothing is rejected (RepeatMatcher
    of ECMAScript with min = 0); every accepted iteration consumes at least
    one code unit, so [length s] iterations are enough. *)
Fixpoint star_iter (m : option codeunit -> jsstring -> cont -> option jsstring)
    (k : cont) (fuel : nat) (prev : option codeunit) (s : jsstring)
    : option jsstring :=
  match fuel with
  | O => k prev s
  | S fuel' =>
      match m prev s (fun prev' s' =>
                        if length s' <? length s
                        then star_iter m k fuel' prev' s'
                        else None) with
      | Some x => Some x
      | None => k prev s
      end
  end.

(** [matcher r prev s k]: match [r] at the position [(prev, s)] and continue
    with [k]; alternatives are tried in priority order and the first complete
    success is returned. *)
Fixpoint matcher (r : regex) (prev : option codeunit) (s : jsstring) (k : cont)
    : option jsstring :=
  match r with
  | Empty => k prev s
  | Class p =>
      match s with
      | c :: t => if p c then k (Some c) t else None
      | [] => None
      end
  | Seq a b => matcher a prev s (fun prev' s' => matcher b prev' s' k)
  | Alt a b =>
      match matcher a prev s k with
      | Some x => Some x
      | None => matcher b prev s k
      end
  | Star a => star_iter (matcher a) k (length s) prev s
  | Start => match prev with None => k prev s | Some _ => None end
  | WordBoundary =>
      if xorb (isWordBefore prev) (isWordAt s) then k prev s else None
  end.

(** Length of the match of [r] that starts exactly at the position. *)
Definition match_at (r : regex) (prev : option codeunit) (s : jsstring)
    : option nat :=
  match matcher r prev s (fun _ s' => Some s') with
  | Some s' => Some (length s - length s')
  | None => None
  end.

(** The leftmost match at or after the position: its offset and length. *)
Fixpoint search (r : regex) (prev : option codeunit) (s : jsstring)
    : option (nat * nat) :=
  match match_at r prev s with
  | Some len => Some (O, len)
  | None =>
      match s with
      | [] => None
      | c :: t =>
          match search r (Some c) t with
          | Some (off, len) => Some (S off, len)
          | None => None
          end
      end
  end.

(** [String.prototype.replace] with a global pattern and a constant
    replacement: scan from the left, replace each match, resume after it
    (one code unit further after an empty match).  [skip] counts the code
    units of the current match still to be dropped. *)
Fixpoint replace_from (r : regex) (repl : jsstring) (prev : option codeunit)
    (s : jsstring) (skip : nat) : jsstring :=
  match skip with
  | S n =>
      match s with
      | [] => []
      | c :: t => replace_from r repl (Some c) t n
      end
  | O =>
      match match_at r prev s with
      | Some (S n) =>
          repl ++ match s with
                  | [] => []
                  | c :: t => replace_from r repl (Some c) t n
                  end
      | Some O =>
          repl ++ match s with
                  | [] => []
                  | c :: t => c :: replace_from r repl (Some c) t O
                  end
      | None =>
          match s with
          | [] => []
          | c :: t => c :: replace_from r repl (Some c) t O
          end
      end
  end.

Definition replace_all (r : regex) (repl s : jsstring) : jsstring :=
  replace_from r repl None s O.

(** [replace] with a pattern that is not global: the first match only. *)
Definition replace_first (r : regex) (repl s : jsstring) : jsstring :=
  match search r None s with
  | Some (off, len) => firstn off s ++ repl ++ skipn (off + len) s
  | None => s
  end.

(** *** Derived forms *)

Definition Plus (a : regex) : regex := Seq a (Star a).
Definition Opt (a : regex) : regex := Alt a Empty.

Fixpoint Rep (n : nat) (a : regex) : regex :=
  match n with
  | O => Empty
  | S n' => Seq a (Rep n' a)
  end.

(** [a{lo,lo+extra}]: [lo] mandatory iterations, then up to [extra] more,
    the longer count first. *)
Fixpoint UpTo (extra : nat) (a : regex) : regex :=
  match extra with
  | O => Empty
  | S n => Opt (Seq a (UpTo n a))
  end.

Definition RepRange (lo hi : nat) (a : regex) : regex :=
  Seq (Rep lo a) (UpTo (hi - lo) a).

Fixpoint seqs (l : list regex) : regex :=
  match l with
  | [] => Empty
  | [a] => a
  | a :: l' => Seq a (seqs l')
  end.

Fixpoint alts (a : regex) (l : list regex) : regex :=
  match l with
  | [] => a
  | b :: l' => Alt a (alts b l')
  end.

Definition chr (c : codeunit) : regex := Class (N.eqb c).
Definition chr_i (c : codeunit) : regex :=
  Class (fun x => N.eqb (canonicalize x) (canonicalize c)).
Definition oneOf (l : jsstring) : regex :=
  Class (fun x => existsb (N.eqb x) l).
Definition noneOf (l : jsstring) : regex :=
  Class (fun x => negb (existsb (N.eqb x) l)).

(** A literal, case-sensitive and under the [i] flag. *)
Definition lit (s : string) : regex := seqs (map chr (js s)).
Definition lit_i (s : string) : regex := seqs (map chr_i (js s)).

Definition digit : regex := Class isDigit.
Definition space : regex := Class isSpace.

(** *** RegExp objects

    A pattern object carries its [lastIndex], which [test] reads and writes
    when the pattern is global. *)
Record RegExpObj : Type := mkRegExp {
  source : regex;
  global : bool;
  lastIndex : nat
}.

Definition set_lastIndex (R : RegExpObj) (i : nat) : RegExpObj :=
  mkRegExp (source R) (global R) i.

Definition prev_at (s : jsstring) (i : nat) : option codeunit :=
  match i with
  | O => None
  | S j => nth_error s j
  end.

(** [RegExp.prototype.test] (RegExpBuiltinExec): a global pattern starts at
    its [lastIndex], leaves it at the end of the match, and at 0 on failure;
    a pattern that is not global starts at 0 and leaves [lastIndex] alone. *)
Definition test (R : RegExpObj) (s : jsstring) : bool * RegExpObj :=
  let start := if global R then lastIndex R else O in
  if length s <? start then (false, set_lastIndex R O)
  else
    match search (source R) (prev_at s start) (skipn start s) with
    | Some (off, len) =>
        (true, if global R then set_lastIndex R (start + off + len) else R)
    | None => (false, if global R then set_lastIndex R O else R)
    end.

(** [String.prototype.replace] with a pattern object and a constant
    replacement.  With a global pattern the scan sets [lastIndex] to 0 before
    it starts and leaves it at 0; a pattern that is not global is matched
    once from index 0 and its [lastIndex] is left alone. *)
Definition replace (R : RegExpObj) (repl s : jsstring) : jsstring * RegExpObj :=
  if global R then (replace_all (source R) repl s, set_lastIndex R O)
  else (replace_first (source R) repl s, R).

End RegExp.

Import RegExp.

(** ** Values

    [sanitizeQuery] and [needsSanitization] guard against arguments that are
    not strings, so their argument is a JavaScript value.  Only what the
    guards look at is kept: the type tag and the truthiness. *)

Inductive jsvalue : Type :=
| VUndefined
| VNull
| VBoolean (b : bool)
| VNumber (nonzero : bool)  (* false for 0, -0 and NaN *)
| VString (s : jsstring)
| VObject.                  (* objects, arrays, functions, symbols *)

Definition truthy (v : jsvalue) : bool :=
  match v with
  | VUndefined | VNull => false
  | VBoolean b => b
  | VNumber t => t
  | VString s => match s with [] => false | _ :: _ => true end
  | VObject => true
  end.

Definition isString (v : jsvalue) : bool :=
  match v with VString _ => true | _ => false end.

(** The result of a call that may throw; an exception is kept as the text
    [String(err)] gives for it. *)
Inductive outcome (A : Type) : Type :=
| Returned (a : A)
| Threw (err : jsstring).

Arguments Returned {A} a.
Arguments Threw {A} err.

(** ** sanitize-query.ts *)

Module Sanitize.

(** *** The patterns *)

(** [/^\s*\[(?:Telegram|Discord|Slack|Signal|WhatsApp|iMessage|SMS|Matrix|Teams|Zalo|Web|WebChat|Google Chat|BlueBubbles|Zalo Personal)[^\]]*\]\s*/i] *)
Definition CHANNEL_METADATA_PATTERN : RegExpObj :=
  mkRegExp
    (seqs [ Start; Star space; lit_i "[";
            alts (lit_i "Telegram")
                 [ lit_i "Discord"; lit_i "Slack"; lit_i "Signal";
                   lit_i "WhatsApp"; lit_i "iMessage"; lit_i "SMS";
                   lit_i "Matrix"; lit_i "Teams"; lit_i "Zalo"; lit_i "Web";
                   lit_i "WebChat"; lit_i "Google Chat"; lit_i "BlueBubbles";
                   lit_i "Zalo Personal" ];
            Star (noneOf (js "]")); lit_i "]"; Star space ])
    false 0.

(** [/\d{4}-\d{2}-\d{2}[T ]\d{2}:\d{2}(?::\d{2})?(?:\.\d+)?(?:Z|[+-]\d{2}:?\d{2})?\s*(?:UTC)?/g] *)
Definition ISO_TIMESTAMP : regex :=
  seqs [ Rep 4 digit; lit "-"; Rep 2 digit; lit "-"; Rep 2 digit;
         oneOf (js "T "); Rep 2 digit; lit ":"; Rep 2 digit;
         Opt (Seq (lit ":") (Rep 2 digit));
         Opt (Seq (lit ".") (Plus digit));
         Opt (Alt (lit "Z")
                  (seqs [ oneOf (js "+-"); Rep 2 digit; Opt (lit ":");
                          Rep 2 digit ]));
         Star space; Opt (lit "UTC") ].

(** [/\b\d{10,13}\b/g] *)
Definition UNIX_TIMESTAMP : regex :=
  seqs [ WordBoundary; RepRange 10 13 digit; WordBoundary ].

(** [/\+\d+[smhd]\b/g] *)
Definition RELATIVE_TIME : regex :=
  seqs [ lit "+"; Plus digit; oneOf (js "smhd"); WordBoundary ].

Definition TIMESTAMP_SOURCES : list regex :=
  [ ISO_TIMESTAMP; UNIX_TIMESTAMP; RELATIVE_TIME ].

(** [/\bid:\s*\d+\b/gi] *)
Definition ID_KEY : regex :=
  seqs [ WordBoundary; lit_i "id:"; Star space; Plus digit; WordBoundary ].

(** [/\buser_?id:\s*["']?[\w-]+["']?\b/gi] *)
Definition USER_ID_KEY : regex :=
  seqs [ WordBoundary; lit_i "user"; Opt (lit_i "_"); lit_i "id:"; Star space;
         Opt (oneOf [34%N; 39%N]);
         Plus (Class (fun c => isWord c || (c =? 45)%N));
         Opt (oneOf [34%N; 39%N]); WordBoundary ].

(** [/\bchat_?id:\s*\d+\b/gi] *)
Definition CHAT_ID_KEY : regex :=
  seqs [ WordBoundary; lit_i "chat"; Opt (lit_i "_"); lit_i "id:"; Star space;
         Plus digit; WordBoundary ].

Definition USER_ID_SOURCES : list regex :=
  [ ID_KEY; USER_ID_KEY; CHAT_ID_KEY ].

(** [/\{[^{}]*"(?:id|user|chat|message)"[^{}]*\}/g] *)
Definition JSON_OBJECT : regex :=
  seqs [ lit "{"; Star (noneOf (js "{}")); chr 34%N;
         alts (lit "id") [ lit "user"; lit "chat"; lit "message" ];
         chr 34%N; Star (noneOf (js "{}")); lit "}" ].

(** [/\[\s*\{[^[\]]*\}\s*\]/g] *)
Definition JSON_ARRAY : regex :=
  seqs [ lit "["; Star space; lit "{"; Star (noneOf (js "[]")); lit "}";
         Star space; lit "]" ].

Definition JSON_ARTIFACT_SOURCES : list regex := [ JSON_OBJECT; JSON_ARRAY ].

(** [/\s+/g] *)
Definition WHITESPACE_RUN : RegExpObj := mkRegExp (Plus space) true 0.

(** *** Module state

    The module keeps the lazily loaded [stripEnvelope] implementation and the
    pattern objects of the three lists, whose [lastIndex] the calls below
    write. *)

Definition stripper := jsstring -> outcome jsstring.

(** What [require("clawdbot/plugin-sdk")] gives in the host process. *)
Inductive pluginSdk : Type :=
| RequireThrows
| SdkWithoutStripEnvelope
| SdkWithStripEnvelope (f : stripper).

(** [stripEnvelopeImpl]: [undefined] before the first use, then the function
    or [null]. *)
Inductive implSlot : Type :=
| ImplUndefined
| ImplNull
| ImplFunction (f : stripper).

Record ModuleState : Type := mkState {
  stripEnvelopeImpl : implSlot;
  TIMESTAMP_PATTERNS : list RegExpObj;
  USER_ID_PATTERNS : list RegExpObj;
  JSON_ARTIFACT_PATTERNS : list RegExpObj
}.

Definition set_impl (st : ModuleState) (i : implSlot) : ModuleState :=
  mkState i (TIMESTAMP_PATTERNS st) (USER_ID_PATTERNS st)
          (JSON_ARTIFACT_PATTERNS st).

Definition fresh (r : regex) : RegExpObj := mkRegExp r true 0.

(** The state when the module has just been loaded. *)
Definition initial_state : ModuleState :=
  mkState ImplUndefined (map fresh TIMESTAMP_SOURCES)
          (map fresh USER_ID_SOURCES) (map fresh JSON_ARTIFACT_SOURCES).

(** *** The functions *)

Definition getStripEnvelope (sdk : pluginSdk) (st : ModuleState)
    : option stripper * ModuleState :=
  match stripEnvelopeImpl st with
  | ImplFunction f => (Some f, st)
  | ImplNull => (None, st)
  | ImplUndefined =>
      match sdk with
      | SdkWithStripEnvelope f => (Some f, set_impl st (ImplFunction f))
      | RequireThrows | SdkWithoutStripEnvelope => (None, set_impl st ImplNull)
      end
  end.

Definition stripChannelEnvelope (sdk : pluginSdk) (st : ModuleState)
    (text : jsstring) : outcome jsstring * ModuleState :=
  let (impl, st') := getStripEnvelope sdk st in
  match impl with
  | Some f => (f text, st')
  | None => (Returned (fst (replace CHANNEL_METADATA_PATTERN [] text)), st')
  end.

(** [for (const pattern of ps) sanitized = sanitized.replace(pattern, " ")] *)
Fixpoint replace_each (ps : list RegExpObj) (sanitized : jsstring)
    : jsstring * list RegExpObj :=
  match ps with
  | [] => (sanitized, [])
  | pattern :: rest =>
      let (sanitized', pattern') := replace pattern SPACE sanitized in
      let (result, rest') := replace_each rest sanitized' in
      (result, pattern' :: rest')
  end.

Definition trimStart : jsstring -> jsstring :=
  fix go (s : jsstring) : jsstring :=
    match s with
    | c :: t => if isSpace c then go t else s
    | [] => []
    end.

Fixpoint trimEnd (s : jsstring) : jsstring :=
  match s with
  | [] => []
  | c :: t =>
      match trimEnd t with
      | [] => if isSpace c then [] else [c]
      | t' => c :: t'
      end
  end.

Definition trim (s : jsstring) : jsstring := trimEnd (trimStart s).

Definition sanitizeQuery (sdk : pluginSdk) (st : ModuleState) (query : jsvalue)
    : outcome jsstring * ModuleState :=
  if negb (truthy query) || negb (isString query) then (Returned [], st)
  else
    match query with
    | VString sanitized =>
        match stripChannelEnvelope sdk st sanitized with
        | (Threw err, st1) => (Threw err, st1)
        | (Returned sanitized1, st1) =>
            let (sanitized2, ts) :=
              replace_each (TIMESTAMP_PATTERNS st1) sanitized1 in
            let (sanitized3, us) :=
              replace_each (USER_ID_PATTERNS st1) sanitized2 in
            let (sanitized4, js) :=
              replace_each (JSON_ARTIFACT_PATTERNS st1) sanitized3 in
            (Returned (trim (fst (replace WHITESPACE_RUN SPACE sanitized4))),
             mkState (stripEnvelopeImpl st1) ts us js)
        end
    | _ => (Returned [], st)   (* excluded by the guard *)
    end.

(** [for (const pattern of ps) { pattern.lastIndex = 0;
      if (pattern.test(query)) return true; }] *)
Fixpoint test_each (ps : list RegExpObj) (query : jsstring)
    : bool * list RegExpObj :=
  match ps with
  | [] => (false, [])
  | pattern :: rest =>
      let (hit, pattern') := test (set_lastIndex pattern 0) query in
      if hit then (true, pattern' :: rest)
      else
        let (found, rest') := test_each rest query in
        (found, pattern' :: rest')
  end.

Definition needsSanitization (st : ModuleState) (query : jsvalue)
    : bool * ModuleState :=
  if negb (truthy query) || negb (isString query) then (false, st)
  else
    match query with
    | VString q =>
        if fst (test CHANNEL_METADATA_PATTERN q) then (true, st)
        else
          let (hit1, ts) := test_each (TIMESTAMP_PATTERNS st) q in
          let st1 := mkState (stripEnvelopeImpl st) ts (USER_ID_PATTERNS st)
                             (JSON_ARTIFACT_PATTERNS st) in
          if hit1 then (true, st1)
          else
            let (hit2, us) := test_each (USER_ID_PATTERNS st1) q in
            let st2 := mkState (stripEnvelopeImpl st1) (TIMESTAMP_PATTERNS st1)
                               us (JSON_ARTIFACT_PATTERNS st1) in
            if hit2 then (true, st2)
            else
              let (hit3, js) := test_each (JSON_ARTIFACT_PATTERNS st2) q in
              (hit3, mkState (stripEnvelopeImpl st2) (TIMESTAMP_PATTERNS st2)
                             (USER_ID_PATTERNS st2) js)
    | _ => (false, st)   (* excluded by the guard *)
    end.

End Sanitize.

Import Sanitize.

(** ** types.ts *)

Module Types.

(** The configuration as the handlers receive it.  [parseConfig] casts the
    host's value without validating it, so [mode] and [containerScope] hold
    whatever string the host gave, and the optional fields may be absent.
    A JavaScript number is an IEEE 754 double. *)
Record SupermemoryConfig : Type := mkConfig {
  apiKey : jsstring;
  mode : option jsstring;
  containerTag : option jsstring;
  containerScope : option jsstring;
  autoRecall : option bool;
  threshold : option float;
  baseUrl : option jsstring
}.

(** The host's raw plugin configuration, every field optional. *)
Record RawConfig : Type := mkRaw {
  raw_apiKey : option jsstring;
  raw_mode : option jsstring;
  raw_containerTag : option jsstring;
  raw_containerScope : option jsstring;
  raw_autoRecall : option bool;
  raw_threshold : option float;
  raw_baseUrl : option jsstring
}.

(** [a ?? b] *)
Definition orElse {A : Type} (a : option A) (b : A) : A :=
  match a with Some x => x | None => b end.

Definition parseConfig (raw : RawConfig) : SupermemoryConfig :=
  {| apiKey := orElse (raw_apiKey raw) [];
     mode := Some (orElse (raw_mode raw) (js "tandem"));
     containerTag := raw_containerTag raw;
     containerScope := Some (orElse (raw_containerScope raw) (js "agent"));
     autoRecall := Some (orElse (raw_autoRecall raw) true);
     threshold := Some (orElse (raw_threshold raw) 0.5%float);
     baseUrl := Some (orElse (raw_baseUrl raw) (js "https://api.supermemory.ai")) |}.

(** Truthiness of an optional string: present and not empty. *)
Definition present (s : option jsstring) : bool :=
  match s with
  | Some (_ :: _) => true
  | _ => false
  end.

(** The value of an optional string inside a template literal that is only
    evaluated when the string is present. *)
Definition text (s : option jsstring) : jsstring := orElse s [].

(** [config.containerTag ? `${config.containerTag}:` : ""] *)
Definition prefix (config : SupermemoryConfig) : jsstring :=
  if present (containerTag config) then text (containerTag config) ++ js ":"
  else [].

(** [config.containerScope === "session"] *)
Definition isSessionScope (config : SupermemoryConfig) : bool :=
  match containerScope config with
  | Some scope => jsstring_eqb scope (js "session")
  | None => false
  end.

Definition resolveContainerTag (config : SupermemoryConfig)
    (agentId sessionKey : option jsstring) : option jsstring :=
  let prefix := prefix config in
  if isSessionScope config then
    (* case "session" *)
    if present sessionKey then Some (prefix ++ text sessionKey)
    else if present agentId then Some (prefix ++ text agentId)
    else containerTag config
  else
    (* case "agent", default *)
    if present agentId then Some (prefix ++ text agentId)
    else containerTag config.

End Types.

Import Types.

(** ** supermemory-client.ts *)

Module Client.

Definition Metadata := list (jsstring * jsvalue).

Record SupermemoryChunk : Type := mkChunk {
  chunk_content : jsstring;
  chunk_score : float
}.

Record SupermemoryDocumentResult : Type := mkDocument {
  documentId : jsstring;
  chunks : option (list SupermemoryChunk);
  doc_metadata : option Metadata
}.

Record SupermemorySearchResponse : Type := mkResponse {
  results : option (list SupermemoryDocumentResult)
}.

Record SupermemorySearchResult : Type := mkResult {
  id : jsstring;
  content : jsstring;
  score : float;
  metadata : option Metadata
}.

Record SearchParams : Type := mkSearchParams {
  q : jsstring;
  search_containerTag : option jsstring;
  limit : option float;
  chunkThreshold : option float;
  rewriteQuery : option bool
}.

(** The JSON body of POST /v3/search. *)
Record SearchBody : Type := mkSearchBody {
  body_q : jsstring;
  body_containerTags : option (list jsstring);
  body_limit : option float;
  body_chunkThreshold : option float;
  body_rewriteQuery : option bool
}.

Definition searchBody (params : SearchParams) : SearchBody :=
  {| body_q := q params;
     body_containerTags :=
       if present (search_containerTag params)
       then Some [text (search_containerTag params)] else None;
     body_limit := limit params;
     body_chunkThreshold := chunkThreshold params;
     body_rewriteQuery := rewriteQuery params |}.

Record HttpResponse : Type := mkHttp {
  ok : bool;
  status : nat;
  response_text : jsstring;
  response_json : SupermemorySearchResponse
}.

Fixpoint digits (d : Decimal.uint) : jsstring :=
  match d with
  | Decimal.Nil => []
  | Decimal.D0 d' => 48%N :: digits d'
  | Decimal.D1 d' => 49%N :: digits d'
  | Decimal.D2 d' => 50%N :: digits d'
  | Decimal.D3 d' => 51%N :: digits d'
  | Decimal.D4 d' => 52%N :: digits d'
  | Decimal.D5 d' => 53%N :: digits d'
  | Decimal.D6 d' => 54%N :: digits d'
  | Decimal.D7 d' => 55%N :: digits d'
  | Decimal.D8 d' => 56%N :: digits d'
  | Decimal.D9 d' => 57%N :: digits d'
  end.

(** A natural number inside a template literal. *)
Definition decimal (n : nat) : jsstring := digits (Nat.to_uint n).

(** The two loops of [search] that flatten the chunks of all documents:
    [results.push] appends at the end. *)
Definition flattenChunks (data : SupermemorySearchResponse)
    : list SupermemorySearchResult :=
  fold_left
    (fun results doc =>
       fold_left
         (fun results chunk =>
            results ++ [ {| id := documentId doc;
                            content := chunk_content chunk;
                            score := chunk_score chunk;
                            metadata := doc_metadata doc |} ])
         (orElse (chunks doc) []) results)
    (orElse (Client.results data) []) [].

(** [SupermemoryClient.search], given the remote service as the function
    that answers the request. *)
Definition SupermemoryClient_search (fetch : SearchBody -> outcome HttpResponse)
    (params : SearchParams) : outcome (list SupermemorySearchResult) :=
  match fetch (searchBody params) with
  | Threw err => Threw err
  | Returned response =>
      if negb (ok response) then
        Threw (js "Error: Supermemory search failed: "
                 ++ decimal (status response) ++ js " "
                 ++ response_text response)
      else Returned (flattenChunks (response_json response))
  end.

End Client.

Import Client.

(** ** Handlers: what a handler does after its synchronous prefix

    A handler logs, awaits [ctx.client.search] and returns.  The awaited call
    is a node whose continuation receives what the call gave: a list of
    results or the exception it threw. *)

Inductive logLevel : Type := LevelInfo | LevelWarn.

Inductive Prog (A : Type) : Type :=
| Return (a : A)
| Throw (err : jsstring)
| Log (level : logLevel) (msg : jsstring) (next : Prog A)
| ClientSearch (params : SearchParams)
    (k : outcome (list SupermemorySearchResult) -> Prog A).

Arguments Return {A} a.
Arguments Throw {A} err.
Arguments Log {A} level msg next.
Arguments ClientSearch {A} params k.

(** The request a handler sends to the remote search, if it sends one. *)
Fixpoint dispatched {A : Type} (p : Prog A) : option SearchParams :=
  match p with
  | Return _ | Throw _ => None
  | Log _ _ next => dispatched next
  | ClientSearch params _ => Some params
  end.

(** [parts.join(sep)] *)
Fixpoint join (sep : jsstring) (parts : list jsstring) : jsstring :=
  match parts with
  | [] => []
  | [a] => a
  | a :: rest => a ++ sep ++ join sep rest
  end.

(** [mode === "off"] *)
Definition modeIsOff (config : SupermemoryConfig) : bool :=
  match mode config with
  | Some m => jsstring_eqb m (js "off")
  | None => false
  end.

Definition NEWLINE : jsstring := [10%N].

(** ** hooks.ts *)

Module Hooks.

Record HookContext : Type := mkHookContext {
  client_configured : bool;   (* ctx.client is not null *)
  config : SupermemoryConfig
}.

Record AgentStartEvent : Type := mkEvent { prompt : jsstring }.

Record HookCtx : Type := mkHookCtx {
  agentId : option jsstring;
  sessionKey : option jsstring
}.

(** [{ prependContext }], or nothing. *)
Definition HookResult := option jsstring.

Definition createBeforeAgentStartHandler (ctx : HookContext) (sdk : pluginSdk)
    (st : ModuleState) (event : AgentStartEvent) (hookCtx : HookCtx)
    : Prog HookResult * ModuleState :=
  if negb (client_configured ctx) then (Return None, st)
  else if negb (orElse (autoRecall (config ctx)) false)
          || modeIsOff (config ctx) then (Return None, st)
  else if negb (truthy (VString (prompt event)))
          || (length (prompt event) <? 5) then (Return None, st)
  else
    match sanitizeQuery sdk st (VString (prompt event)) with
    | (Threw err, st') => (Throw err, st')
    | (Returned sanitizedQuery, st') =>
        if negb (truthy (VString sanitizedQuery))
           || (length sanitizedQuery <? 3) then (Return None, st')
        else
          let containerTag :=
            resolveContainerTag (config ctx) (agentId hookCtx)
                                (sessionKey hookCtx) in
          (ClientSearch
             {| q := sanitizedQuery;
                search_containerTag := containerTag;
                limit := Some 5%float;
                chunkThreshold := threshold (config ctx);
                rewriteQuery := None |}
             (fun answer =>
                match answer with
                | Returned results =>
                    if length results =? 0 then Return None
                    else
                      let memoryContext :=
                        join NEWLINE
                             (map (fun r => js "- " ++ content r)
                                  (firstn 5 results)) in
                      Log LevelInfo
                          (js "supermemory: injecting "
                             ++ decimal (length results)
                             ++ js " memories into context")
                          (Return
                             (Some (js "<supermemory-context>" ++ NEWLINE
                                      ++ js "The following memories from Supermemory may be relevant:"
                                      ++ NEWLINE ++ memoryContext ++ NEWLINE
                                      ++ js "</supermemory-context>")))
                | Threw err =>
                    Log LevelWarn (js "supermemory: auto-recall failed: " ++ err)
                        (Return None)
                end),
           st')
    end.

End Hooks.

(** ** tools.ts *)

(** What both revisions of tools.ts share: the value a tool returns. *)
Record Memory : Type := mkMemory {
  memory_id : jsstring;
  memory_content : jsstring;
  memory_score : float
}.

Record ToolDetails : Type := mkDetails {
  details_error : option jsstring;
  details_source : option jsstring;
  details_originalQuery : option jsstring;
  details_count : option nat;
  details_memories : option (list Memory)
}.

Record ToolResult : Type := mkToolResult {
  result_text : jsstring;      (* content: [{ type: "text", text }] *)
  details : ToolDetails
}.

Record ToolParams : Type := mkToolParams {
  query : jsstring;
  param_limit : option float
}.

Definition noDetails : ToolDetails := mkDetails None None None None None.

Section ToolHandlers.

(** [x.toFixed(0)], the decimal rendering of a double rounded to an
    integer, is taken as given. *)
Variable toFixed0 : float -> jsstring.

(** [`${i + 1}. ${r.content} (relevance: ${(r.score * 100).toFixed(0)}%)`]
    for the results from index [i] on. *)
Fixpoint resultLines (i : nat) (rs : list SupermemorySearchResult)
    : list jsstring :=
  match rs with
  | [] => []
  | r :: rest =>
      (decimal (i + 1) ++ js ". " ++ content r ++ js " (relevance: "
         ++ toFixed0 (score r * 100)%float ++ js "%)")
        :: resultLines (S i) rest
  end.

Definition memories (rs : list SupermemorySearchResult) : list Memory :=
  map (fun r => mkMemory (id r) (content r) (score r)) rs.

Definition foundText (rs : list SupermemorySearchResult) : jsstring :=
  js "Found " ++ decimal (length rs) ++ js " memories:" ++ NEWLINE ++ NEWLINE
     ++ join NEWLINE (resultLines 0 rs).

(** The revision of tools.ts that imports [resolveContainerTag] and
    [sanitizeQuery]. *)
Record ToolContext : Type := mkToolContext {
  tool_config : SupermemoryConfig;
  tool_agentId : jsstring      (* captured at registration *)
}.

(** [execute] of [createSupermemorySearchTool]. *)
Definition createSupermemorySearchTool (ctx : ToolContext) (sdk : pluginSdk)
    (st : ModuleState) (params : ToolParams) : Prog ToolResult * ModuleState :=
  match sanitizeQuery sdk st (VString (query params)) with
  | (Threw err, st') => (Throw err, st')
  | (Returned sanitizedQuery, st') =>
      if negb (truthy (VString sanitizedQuery))
         || (length sanitizedQuery <? 2) then
        (Return
           (mkToolResult (js "Query too short after sanitization.")
              (mkDetails (Some (js "query_too_short")) None
                         (Some (query params)) None None)),
         st')
      else
        let containerTag :=
          resolveContainerTag (tool_config ctx) (Some (tool_agentId ctx))
                              None in
        (ClientSearch
           {| q := sanitizedQuery;
              search_containerTag := containerTag;
              limit := Some (orElse (param_limit params) 5%float);
              chunkThreshold := threshold (tool_config ctx);
              rewriteQuery := None |}
           (fun answer =>
              match answer with
              | Returned results =>
                  if length results =? 0 then
                    Return
                      (mkToolResult
                         (js "No relevant memories found in Supermemory.")
                         (mkDetails None None None (Some 0) None))
                  else
                    Return
                      (mkToolResult (foundText results)
                         (mkDetails None None None (Some (length results))
                                    (Some (memories results))))
              | Threw err =>
                  Return
                    (mkToolResult (js "Supermemory search failed: " ++ err)
                       (mkDetails (Some err) None None None None))
              end),
         st')
  end.

(** [execute] of [createMemorySearchTool]. *)
Definition createMemorySearchTool (ctx : ToolContext) (sdk : pluginSdk)
    (st : ModuleState) (params : ToolParams) : Prog ToolResult * ModuleState :=
  match sanitizeQuery sdk st (VString (query params)) with
  | (Threw err, st') => (Throw err, st')
  | (Returned sanitizedQuery, st') =>
      if negb (truthy (VString sanitizedQuery))
         || (length sanitizedQuery <? 2) then
        (Return
           (mkToolResult (js "Query too short after sanitization.")
              (mkDetails (Some (js "query_too_short"))
                         (Some (js "supermemory"))
                         (Some (query params)) None None)),
         st')
      else
        let containerTag :=
          resolveContainerTag (tool_config ctx) (Some (tool_agentId ctx))
                              None in
        (ClientSearch
           {| q := sanitizedQuery;
              search_containerTag := containerTag;
              limit := Some (orElse (param_limit params) 5%float);
              chunkThreshold := threshold (tool_config ctx);
              rewriteQuery := None |}
           (fun answer =>
              match answer with
              | Returned results =>
                  if length results =? 0 then
                    Return
                      (mkToolResult (js "No relevant memories found.")
                         (mkDetails None (Some (js "supermemory")) None
                                    (Some 0) None))
                  else
                    Return
                      (mkToolResult (foundText results)
                         (mkDetails None (Some (js "supermemory")) None
                                    (Some (length results))
                                    (Some (memories results))))
              | Threw err =>
                  Return
                    (mkToolResult (js "Memory search failed: " ++ err)
                       (mkDetails (Some err) (Some (js "supermemory")) None
                                  None None))
              end),
         st')
  end.

(** The revision of tools.ts without sanitization (src/tools.ts): the tool
    context has no [agentId], the query and [config.containerTag] go to the
    remote search as they are. *)
Definition legacy_createSupermemorySearchTool (config : SupermemoryConfig)
    (params : ToolParams) : Prog ToolResult :=
  ClientSearch
    {| q := query params;
       search_containerTag := containerTag config;
       limit := Some (orElse (param_limit params) 5%float);
       chunkThreshold := threshold config;
       rewriteQuery := None |}
    (fun answer =>
       match answer with
       | Returned results =>
           if length results =? 0 then
             Return
               (mkToolResult (js "No relevant memories found in Supermemory.")
                  (mkDetails None None None (Some 0) None))
           else
             Return
               (mkToolResult (foundText results)
                  (mkDetails None None None (Some (length results))
                             (Some (memories results))))
       | Threw err =>
           Return
             (mkToolResult (js "Supermemory search failed: " ++ err)
                (mkDetails (Some err) None None None None))
       end).

Definition legacy_createMemorySearchTool (config : SupermemoryConfig)
    (params : ToolParams) : Prog ToolResult :=
  ClientSearch
    {| q := query params;
       search_containerTag := containerTag config;
       limit := Some (orElse (param_limit params) 5%float);
       chunkThreshold := threshold config;
       rewriteQuery := None |}
    (fun answer =>
       match answer with
       | Returned results =>
           if length results =? 0 then
             Return
               (mkToolResult (js "No relevant memories found.")
                  (mkDetails None (Some (js "supermemory")) None (Some 0)
                             None))
           else
             Return
               (mkToolResult (foundText results)
                  (mkDetails None (Some (js "supermemory")) None
                             (Some (length results))
                             (Some (memories results))))
       | Threw err =>
           Return
             (mkToolResult (js "Memory search failed: " ++ err)
                (mkDetails (Some err) (Some (js "supermemory")) None None
                           None))
       end).

End ToolHandlers.

(** ** Notions used to state the properties *)

(** The least number of code units a match of [r] consumes. *)
Fixpoint minlen (r : regex) : nat :=
  match r with
  | Empty | Star _ | Start | WordBoundary => 0
  | Class _ => 1
  | Seq a b => minlen a + minlen b
  | Alt a b => Nat.min (minlen a) (minlen b)
  end.

(** A matcher consults its continuation only on what is left of its own
    input. *)
Definition local (m : option codeunit -> jsstring -> cont -> option jsstring)
    : Prop :=
  forall prev s k1 k2,
    (forall prev' s', length s' <= length s -> k1 prev' s' = k2 prev' s') ->
    m prev s k1 = m prev s k2.

(** [s] contains a match of [r]: what [r.test(s)] answers from index 0. *)
Definition found (r : regex) (s : jsstring) : bool :=
  match search r None s with
  | Some _ => true
  | None => false
  end.

(** Length of the run of white space at the head of [s]. *)
Fixpoint wsrun (s : jsstring) : nat :=
  match s with
  | c :: t => if isSpace c then S (wsrun t) else 0
  | [] => 0
  end.

(** Every run of white space becomes one space; [inws] tells that the code
    unit before [s] was white space. *)
Fixpoint collapse (inws : bool) (s : jsstring) : jsstring :=
  match s with
  | [] => []
  | c :: t =>
      if isSpace c then
        if inws then collapse true t else 32%N :: collapse true t
      else c :: collapse false t
  end.

(** White space occurs only as single spaces; [inws] as above. *)
Fixpoint single_spaced (inws : bool) (s : jsstring) : Prop :=
  match s with
  | [] => True
  | c :: t =>
      if isSpace c then inws = false /\ c = 32%N /\ single_spaced true t
      else single_spaced false t
  end.

(** The last step of [sanitizeQuery]. *)
Definition normalize (s : jsstring) : jsstring :=
  trim (fst (replace WHITESPACE_RUN SPACE s)).

(** The pattern objects of a list are those created from [srcs], whatever
    their [lastIndex]. *)
Definition objects_of (srcs : list regex) (ps : list RegExpObj) : Prop :=
  map (fun p => set_lastIndex p 0) ps = map fresh srcs.

(** A state the module can be in: the three lists hold the module's
    patterns. *)
Definition loaded (st : ModuleState) : Prop :=
  objects_of TIMESTAMP_SOURCES (TIMESTAMP_PATTERNS st)
  /\ objects_of USER_ID_SOURCES (USER_ID_PATTERNS st)
  /\ objects_of JSON_ARTIFACT_SOURCES (JSON_ARTIFACT_PATTERNS st).

(** The host's [stripEnvelope] is not in use: the fallback pattern strips
    the envelope. *)
Definition fallback (sdk : pluginSdk) (st : ModuleState) : Prop :=
  fst (getStripEnvelope sdk st) = None.

(** One pattern after the other, each replacing all its matches by a
    space. *)
Definition strip_all (srcs : list regex) (s : jsstring) : jsstring :=
  fold_left (fun acc r => replace_all r SPACE acc) srcs s.

(** [sanitizeQuery] on a string when the fallback is in use. *)
Definition sanitized (q : jsstring) : jsstring :=
  normalize
    (strip_all JSON_ARTIFACT_SOURCES
       (strip_all USER_ID_SOURCES
          (strip_all TIMESTAMP_SOURCES
             (replace_first (source CHANNEL_METADATA_PATTERN) [] q)))).

(** Some pattern of the four families matches [q]. *)
Definition anyPatternMatches (q : jsstring) : bool :=
  found (source CHANNEL_METADATA_PATTERN) q
  || existsb (fun r => found r q) TIMESTAMP_SOURCES
  || existsb (fun r => found r q) USER_ID_SOURCES
  || existsb (fun r => found r q) JSON_ARTIFACT_SOURCES.

(** Applying one of the four pattern families to [q] would alter it. *)
Definition family_alters (st : ModuleState) (q : jsstring) : Prop :=
  fst (replace CHANNEL_METADATA_PATTERN [] q) <> q
  \/ fst (replace_each (TIMESTAMP_PATTERNS st) q) <> q
  \/ fst (replace_each (USER_ID_PATTERNS st) q) <> q
  \/ fst (replace_each (JSON_ARTIFACT_PATTERNS st) q) <> q.

(** [sanitizeQuery(sanitizeQuery(q))], the second call in the state the
    first one left. *)
Definition sanitizeTwice (sdk : pluginSdk) (st : ModuleState) (q : jsstring)
    : outcome jsstring :=
  match sanitizeQuery sdk st (VString q) with
  | (Returned s1, st1) => fst (sanitizeQuery sdk st1 (VString s1))
  | (Threw err, _) => Threw err
  end.

(** The container tag in the words of the specification. *)
Definition spec_prefix (tag : option jsstring) : jsstring :=
  match tag with
  | Some (c :: t) => (c :: t) ++ js ":"
  | _ => []
  end.

Definition spec_agent_tag (tag agentId : option jsstring) : option jsstring :=
  match agentId with
  | Some (c :: a) => Some (spec_prefix tag ++ c :: a)
  | _ => tag
  end.

Definition spec_session_tag (tag agentId sessionKey : option jsstring)
    : option jsstring :=
  match sessionKey with
  | Some (c :: k) => Some (spec_prefix tag ++ c :: k)
  | _ => spec_agent_tag tag agentId
  end.

Definition withScope (config : SupermemoryConfig) (scope : option jsstring)
    : SupermemoryConfig :=
  mkConfig (apiKey config) (mode config) (containerTag config) scope
           (autoRecall config) (threshold config) (baseUrl config).

(** The flat list in the words of the specification: documents in response
    order, the chunks of each in their order. *)
Definition entry (doc : SupermemoryDocumentResult) (chunk : SupermemoryChunk)
    : SupermemorySearchResult :=
  mkResult (documentId doc) (chunk_content chunk) (chunk_score chunk)
           (doc_metadata doc).

Definition spec_flatten (docs : list SupermemoryDocumentResult)
    : list SupermemorySearchResult :=
  flat_map (fun doc => map (entry doc) (orElse (chunks doc) [])) docs.

(** What a tool of the current tools.ts sends: decided by the sanitized
    query alone. *)
Definition tool_request (ctx : ToolContext) (params : ToolParams)
    (sanitizedQuery : jsstring) : option SearchParams :=
  if 2 <=? length sanitizedQuery then
    Some {| q := sanitizedQuery;
            search_containerTag :=
              resolveContainerTag (tool_config ctx) (Some (tool_agentId ctx))
                                  None;
            limit := Some (orElse (param_limit params) 5%float);
            chunkThreshold := threshold (tool_config ctx);
            rewriteQuery := None |}
  else None.

(** What the before_agent_start handler sends for a sanitized prompt. *)
Definition hook_request (ctx : Hooks.HookContext) (hookCtx : Hooks.HookCtx)
    (sanitizedQuery : jsstring) : SearchParams :=
  {| q := sanitizedQuery;
     search_containerTag :=
       resolveContainerTag (Hooks.config ctx) (Hooks.agentId hookCtx)
                           (Hooks.sessionKey hookCtx);
     limit := Some 5%float;
     chunkThreshold := threshold (Hooks.config ctx);
     rewriteQuery := None |}.

(** A configuration used in the examples: the session scope with a
    namespace. *)
Definition sample_config : SupermemoryConfig :=
  parseConfig (mkRaw (Some (js "key")) None (Some (js "myns"))
                     (Some (js "session")) None None None).

Definition sample_request (limit : float) (tag : jsstring) : SearchParams :=
  {| q := js "what do I like";
     search_containerTag := Some tag;
     limit := Some limit;
     chunkThreshold := Some 0.5%float;
     rewriteQuery := None |}.

(** ** Further code of the repository *)

(** *** Running a handler against a remote service

    [run remote p] plays the handler [p]: each awaited search is answered by
    [remote]; the result is what the handler returns or throws, with the
    requests it sent and the lines it logged, in order. *)

Inductive event : Type :=
| Requested (params : SearchParams)
| Logged (level : logLevel) (msg : jsstring).

Fixpoint run {A : Type}
    (remote : SearchParams -> outcome (list SupermemorySearchResult))
    (p : Prog A) : outcome A * list event :=
  match p with
  | Return a => (Returned a, [])
  | Throw err => (Threw err, [])
  | Log level msg next =>
      let (r, t) := run remote next in (r, Logged level msg :: t)
  | ClientSearch params k =>
      let (r, t) := run remote (k (remote params)) in
      (r, Requested params :: t)
  end.

Definition requests (t : list event) : list SearchParams :=
  flat_map (fun e => match e with Requested p => [p] | Logged _ _ => [] end) t.

Definition warnings (t : list event) : list jsstring :=
  flat_map (fun e => match e with
                     | Logged LevelWarn msg => [msg]
                     | _ => []
                     end) t.

(** *** types.ts: a configuration read back as a raw value *)

Definition asRaw (config : SupermemoryConfig) : RawConfig :=
  {| raw_apiKey := Some (apiKey config);
     raw_mode := mode config;
     raw_containerTag := containerTag config;
     raw_containerScope := containerScope config;
     raw_autoRecall := autoRecall config;
     raw_threshold := threshold config;
     raw_baseUrl := baseUrl config |}.

(** *** supermemory-client.ts: [add] *)

Inductive metaValue : Type :=
| MString (s : jsstring)
| MNumber (n : float)
| MUndefined.

Definition AddMetadata := list (jsstring * metaValue).

Record AddParams : Type := mkAddParams {
  add_content : jsstring;
  add_containerTag : option jsstring;
  add_metadata : option AddMetadata;
  add_customId : option jsstring
}.

(** The JSON body of POST /v3/documents. *)
Record AddBody : Type := mkAddBody {
  addbody_content : jsstring;
  addbody_containerTags : option (list jsstring);
  addbody_metadata : option AddMetadata;
  addbody_customId : option jsstring
}.

Definition addBody (params : AddParams) : AddBody :=
  {| addbody_content := add_content params;
     addbody_containerTags :=
       if present (add_containerTag params)
       then Some [text (add_containerTag params)] else None;
     addbody_metadata := add_metadata params;
     addbody_customId :=
       if present (add_customId params) then add_customId params else None |}.

Record SupermemoryAddResponse : Type := mkAdded {
  added_id : jsstring;
  added_status : jsstring
}.

Record AddHttpResponse : Type := mkAddHttp {
  add_ok : bool;
  add_status : nat;
  add_response_text : jsstring;
  add_response_json : SupermemoryAddResponse
}.

Definition SupermemoryClient_add (fetch : AddBody -> outcome AddHttpResponse)
    (params : AddParams) : outcome SupermemoryAddResponse :=
  match fetch (addBody params) with
  | Threw err => Threw err
  | Returned response =>
      if negb (add_ok response) then
        Threw (js "Error: Supermemory add failed: "
                 ++ decimal (add_status response) ++ js " "
                 ++ add_response_text response)
      else Returned (add_response_json response)
  end.

(** *** hooks.ts: the after_compaction handler *)

Inductive severity : Type := SevInfo | SevWarn | SevError.

(** What the handler does: it logs, awaits [ctx.client.add] and ends; every
    exception of the awaited call is caught. *)
Inductive StoreProg : Type :=
| StoreDone
| StoreLog (level : severity) (msg : jsstring) (next : StoreProg)
| ClientAdd (params : AddParams)
    (k : outcome SupermemoryAddResponse -> StoreProg).

Record CompactionEvent : Type := mkCompaction {
  messageCount : float;
  tokenCount : option float;
  compactedCount : float;
  summary : option jsstring;
  sessionId : option jsstring;
  event_sessionKey : option jsstring
}.

(** A boolean and an optional string inside a template literal. *)
Definition boolText (b : bool) : jsstring :=
  if b then js "true" else js "false".

Definition optText (s : option jsstring) : jsstring :=
  orElse s (js "undefined").

Definition optMeta (s : option jsstring) : metaValue :=
  match s with Some x => MString x | None => MUndefined end.

(** [a ?? b] on optional values. *)
Definition coalesce {A : Type} (a b : option A) : option A :=
  match a with Some _ => a | None => b end.

Section Compaction.

(** The decimal rendering of a number inside a template literal and the
    reading of the clock, [new Date().toISOString()], are taken as given. *)
Variable numberText : float -> jsstring.
Variable now : jsstring.

Definition createAfterCompactionHandler (ctx : Hooks.HookContext)
    (event : CompactionEvent) (hookCtx : Hooks.HookCtx) : StoreProg :=
  StoreLog SevInfo
    (js "supermemory: after_compaction fired (client: "
       ++ boolText (Hooks.client_configured ctx)
       ++ js ", mode: " ++ optText (mode (Hooks.config ctx))
       ++ js ", summaryLen: "
       ++ decimal (match summary event with Some s => length s | None => 0 end)
       ++ js ", compacted: " ++ numberText (compactedCount event) ++ js ")")
    (if negb (Hooks.client_configured ctx) then
       StoreLog SevWarn
         (js "supermemory: after_compaction skipped " ++ [8212%N]
             ++ js " no client")
         StoreDone
     else if modeIsOff (Hooks.config ctx) then StoreDone
     else if negb (present (summary event))
             || (length (trim (text (summary event))) =? 0) then
       StoreLog SevWarn
         (js "supermemory: after_compaction called without summary, skipping storage")
         StoreDone
     else
       let containerTag :=
         resolveContainerTag (Hooks.config ctx) (Hooks.agentId hookCtx)
           (coalesce (event_sessionKey event) (Hooks.sessionKey hookCtx)) in
       ClientAdd
         {| add_content := text (summary event);
            add_containerTag := containerTag;
            add_metadata :=
              Some [ (js "source", MString (js "clawdbot-compaction"));
                     (js "sessionId", optMeta (sessionId event));
                     (js "sessionKey", optMeta (event_sessionKey event));
                     (js "compactedCount", MNumber (compactedCount event));
                     (js "timestamp", MString now) ];
            add_customId := None |}
         (fun answer =>
            match answer with
            | Returned result =>
                StoreLog SevInfo
                  (js "supermemory: stored compaction summary ("
                     ++ numberText (compactedCount event)
                     ++ js " messages compacted, id: " ++ added_id result
                     ++ js ", status: " ++ added_status result ++ js ")")
                  StoreDone
            | Threw err =>
                StoreLog SevError
                  (js "supermemory: failed to store compaction summary: "
                     ++ err)
                  StoreDone
            end)).

End Compaction.

(** The documents a handler stores and the lines it logs when [remote]
    answers each [add]. *)
Fixpoint stored (remote : AddParams -> outcome SupermemoryAddResponse)
    (p : StoreProg) : list AddParams :=
  match p with
  | StoreDone => []
  | StoreLog _ _ next => stored remote next
  | ClientAdd params k => params :: stored remote (k (remote params))
  end.

Fixpoint storeLog (remote : AddParams -> outcome SupermemoryAddResponse)
    (p : StoreProg) : list (severity * jsstring) :=
  match p with
  | StoreDone => []
  | StoreLog level msg next => (level, msg) :: storeLog remote next
  | ClientAdd params k => storeLog remote (k (remote params))
  end.

(** *** index.ts: what [register] asks of the host, in order *)

Inductive toolKind : Type := SupermemorySearchTool | MemorySearchTool.
Inductive hookKind : Type := BeforeAgentStart | AfterCompaction.

Inductive registration : Type :=
| ApiLog (level : logLevel) (msg : jsstring)
| RegisterTool (tool : toolKind) (name : jsstring)
| OnHook (hookName : jsstring) (handler : hookKind)
| RegisterService (id : jsstring) (startLog stopLog : jsstring).

Definition optBoolText (b : option bool) : jsstring :=
  match b with Some x => boolText x | None => js "undefined" end.

(** [config.mode === m] *)
Definition modeIs (config : SupermemoryConfig) (m : string) : bool :=
  match mode config with
  | Some x => jsstring_eqb x (js m)
  | None => false
  end.

Definition register (pluginConfig : RawConfig) : list registration :=
  let config := parseConfig pluginConfig in
  if modeIs config "off" then
    [ ApiLog LevelInfo (js "supermemory: plugin disabled (mode: off)") ]
  else
    let configured := present (Some (apiKey config)) in
    (if configured then []
     else [ ApiLog LevelWarn
              (js "supermemory: apiKey not configured. Plugin enabled but inactive. "
                 ++ js "Set apiKey with: clawdbot config set plugins.supermemory.apiKey <your-key>") ])
    ++ [ ApiLog LevelInfo
           (js "supermemory: plugin registered (mode: "
              ++ optText (mode config) ++ js ", autoRecall: "
              ++ optBoolText (autoRecall config) ++ js ", "
              ++ js "configured: " ++ boolText configured ++ js ")") ]
    ++ (if configured then
          if modeIs config "tandem" then
            [ RegisterTool SupermemorySearchTool (js "supermemory_search");
              ApiLog LevelInfo
                (js "supermemory: registered supermemory_search tool (tandem mode)") ]
          else if modeIs config "primary" then
            [ RegisterTool MemorySearchTool (js "memory_search");
              ApiLog LevelInfo
                (js "supermemory: registered memory_search replacement tool (primary mode)") ]
          else []
        else [])
    ++ (if orElse (autoRecall config) false then
          [ OnHook (js "before_agent_start") BeforeAgentStart;
            ApiLog LevelInfo
              (js "supermemory: registered before_agent_start hook (auto-recall)") ]
        else [])
    ++ [ OnHook (js "after_compaction") AfterCompaction;
         ApiLog LevelInfo
           (js "supermemory: registered after_compaction hook (memory storage)");
         RegisterService (js "supermemory")
           (js "supermemory: service started (mode: "
              ++ optText (mode config) ++ js ", containerTag: "
              ++ orElse (containerTag config) (js "default") ++ js ", "
              ++ js "configured: " ++ boolText configured ++ js ")")
           (js "supermemory: service stopped") ].

Definition registeredTools (rs : list registration) : list (toolKind * jsstring) :=
  flat_map (fun r => match r with RegisterTool t n => [(t, n)] | _ => [] end) rs.

Definition registeredHooks (rs : list registration) : list hookKind :=
  flat_map (fun r => match r with OnHook _ h => [h] | _ => [] end) rs.

Definition registeredServices (rs : list registration) : list jsstring :=
  flat_map (fun r => match r with RegisterService i _ _ => [i] | _ => [] end) rs.

(** *** Notions for the further properties *)

(** The platform names of [CHANNEL_METADATA_PATTERN], as spelled there. *)
Definition PLATFORM_NAMES : list jsstring :=
  map js [ "Telegram"; "Discord"; "Slack"; "Signal"; "WhatsApp"; "iMessage";
           "SMS"; "Matrix"; "Teams"; "Zalo"; "Web"; "WebChat"; "Google Chat";
           "BlueBubbles"; "Zalo Personal" ]%string.

(** A code unit that is no digit, no opening bracket or brace and no
    colon. *)
Definition plain (c : codeunit) : bool :=
  negb (isDigit c || (c =? 91)%N || (c =? 123)%N || (c =? 58)%N).

(** [r] cannot match inside a string whose code units all satisfy [ok]:
    every match of [r] consumes a code unit that does not. *)
Inductive dead (ok : codeunit -> bool) : regex -> Prop :=
| dead_class p : (forall c, ok c = true -> p c = false) -> dead ok (Class p)
| dead_seq_l a b : dead ok a -> dead ok (Seq a b)
| dead_seq_r a b : dead ok b -> dead ok (Seq a b)
| dead_alt a b : dead ok a -> dead ok b -> dead ok (Alt a b).

(** [s'] is what is left of [s] after some code units. *)
Definition suffix (s' s : jsstring) : Prop := exists p, s = p ++ s'.

(** Every code unit of [out] is a space or occurs in [inp]. *)
Definition drawn_from (inp out : jsstring) : Prop :=
  forall c, In c out -> c = 32%N \/ In c inp.

(** No white space at either end. *)
Definition trimmed (s : jsstring) : Prop :=
  wsrun s = 0 /\ wsrun (rev s) = 0.

(** The context the before_agent_start handler builds from the results. *)
Definition recallContext (rs : list SupermemorySearchResult) : jsstring :=
  js "<supermemory-context>" ++ NEWLINE
     ++ js "The following memories from Supermemory may be relevant:"
     ++ NEWLINE
     ++ join NEWLINE (map (fun r => js "- " ++ content r) (firstn 5 rs))
     ++ NEWLINE ++ js "</supermemory-context>".

(** A summary the after_compaction handler stores: present and not blank. *)
Definition storable (s : option jsstring) : bool :=
  present s && negb (length (trim (text s)) =? 0).

(** What a tool reports apart from its wording. *)
Definition report (r : ToolResult)
    : option jsstring * option jsstring * option nat * option (list Memory) :=
  (details_error (details r), details_originalQuery (details r),
   details_count (details r), details_memories (details r)).

(** A compaction event and the document stored for it, used in the
    examples. *)
Definition sample_compaction (key : option jsstring) : CompactionEvent :=
  mkCompaction 40%float None 12%float (Some (js " The user likes tea. "))
               (Some (js "s-1")) key.

Definition sample_stored (tag : jsstring) (key : option jsstring)
    : AddParams :=
  mkAddParams (js " The user likes tea. ") (Some tag)
    (Some [ (js "source", MString (js "clawdbot-compaction"));
            (js "sessionId", MString (js "s-1"));
            (js "sessionKey", optMeta key);
            (js "compactedCount", MNumber 12%float);
            (js "timestamp", MString (js "2026-01-27T04:03:00.000Z")) ])
    None.

Definition sample_added : AddParams -> outcome SupermemoryAddResponse :=
  fun _ => Returned (mkAdded (js "doc-1") (js "queued")).

(** The mode [parseConfig] gives: the raw one, or ["tandem"]. *)
Definition parsedMode (raw : RawConfig) : jsstring :=
  orElse (raw_mode raw) (js "tandem").

(** * Properties *)

(** ** The matcher consumes input *)

Section MatcherFacts.

(** Two matches with the same branches are equal when what they inspect
    is. *)
Ltac same_scrutinee :=
  match goal with
  | |- match ?a with _ => _ end = match ?b with _ => _ end =>
      let E := fresh "E" in
      assert (E : a = b); [|rewrite E; reflexivity]
  end.

Lemma star_iter_progress (m : option codeunit -> jsstring -> cont -> option jsstring) :
  (forall prev s k x, m prev s k = Some x ->
     exists prev' s', k prev' s' = Some x /\ length s' <= length s) ->
  forall k fuel prev s x,
    star_iter m k fuel prev s = Some x ->
    exists prev' s', k prev' s' = Some x /\ length s' <= length s.
Proof.
  intros Hm k fuel; induction fuel as [|fuel IH]; intros prev s x H; simpl in H.
  - exists prev, s; auto.
  - destruct (m prev s _) as [y|] eqn:E.
    + inversion H; subst y; clear H.
      apply Hm in E. destruct E as (p1 & s1 & E & Hlen).
      destruct (length s1 <? length s) eqn:Hlt; [|discriminate].
      apply IH in E. destruct E as (p2 & s2 & E & Hlen2).
      exists p2, s2; split; [assumption|lia].
    + exists prev, s; auto.
Qed.

Lemma matcher_progress (r : regex) :
  forall prev s k x,
    matcher r prev s k = Some x ->
    exists prev' s', k prev' s' = Some x /\ minlen r + length s' <= length s.
Proof.
  induction r as [|p|a IHa b IHb|a IHa b IHb|a IHa| |]; intros prev s k x H;
    simpl in H.
  - exists prev, s; auto.
  - destruct s as [|c t]; [discriminate|].
    destruct (p c); [|discriminate].
    exists (Some c), t; split; [assumption|simpl; lia].
  - apply IHa in H. destruct H as (p1 & s1 & H & L1).
    apply IHb in H. destruct H as (p2 & s2 & H & L2).
    exists p2, s2; split; [assumption|simpl; lia].
  - destruct (matcher a prev s k) as [y|] eqn:E.
    + inversion H; subst y. apply IHa in E. destruct E as (p1 & s1 & E & L).
      exists p1, s1; split; [assumption|simpl; lia].
    + apply IHb in H. destruct H as (p1 & s1 & H & L).
      exists p1, s1; split; [assumption|simpl; lia].
  - apply star_iter_progress in H; [exact H|].
    intros prev0 s0 k0 x0 H0. apply IHa in H0.
    destruct H0 as (p1 & s1 & H0 & L). exists p1, s1; split; [assumption|lia].
  - destruct prev; [discriminate|]. exists None, s; auto.
  - destruct (xorb _ _); [|discriminate]. exists prev, s; auto.
Qed.

Lemma matcher_none r prev s k :
  (forall prev' s', k prev' s' = None) -> matcher r prev s k = None.
Proof.
  intros Hk. destruct (matcher r prev s k) as [x|] eqn:E; [|reflexivity].
  apply matcher_progress in E. destruct E as (p1 & s1 & E & _).
  rewrite Hk in E. discriminate.
Qed.

Lemma star_iter_local m : local m -> forall fuel prev s k1 k2,
  (forall prev' s', length s' <= length s -> k1 prev' s' = k2 prev' s') ->
  star_iter m k1 fuel prev s = star_iter m k2 fuel prev s.
Proof.
  intros Hm. induction fuel as [|fuel IH]; intros prev s k1 k2 Hk; simpl.
  - apply Hk. lia.
  - rewrite (Hk prev s) by lia.
    same_scrutinee. apply Hm.
    intros p' s' Hlen. destruct (length s' <? length s) eqn:L; [|reflexivity].
    apply IH. intros p2 s2 H2. apply Hk. lia.
Qed.

Lemma matcher_local r : local (matcher r).
Proof.
  induction r as [|p|a IHa b IHb|a IHa b IHb|a IHa| |];
    intros prev s k1 k2 Hk; simpl.
  - apply Hk. lia.
  - destruct s as [|c t]; [reflexivity|].
    destruct (p c); [|reflexivity]. apply Hk. simpl. lia.
  - apply IHa. intros p' s' Hlen. apply IHb.
    intros p2 s2 H2. apply Hk. lia.
  - rewrite (IHa prev s k1 k2 Hk), (IHb prev s k1 k2 Hk). reflexivity.
  - apply star_iter_local; assumption.
  - destruct prev; [reflexivity|]. apply Hk. lia.
  - destruct (xorb _ _); [|reflexivity]. apply Hk. lia.
Qed.

(** The iteration count given to [star_iter] is enough: any larger one
    gives the same result. *)
Lemma star_fuel_irrelevant a k : forall fuel prev s,
  length s <= fuel ->
  star_iter (matcher a) k fuel prev s = matcher (Star a) prev s k.
Proof.
  cbn [matcher].
  assert (H : forall fuel1 fuel2 prev s,
             length s <= fuel1 -> length s <= fuel2 ->
             star_iter (matcher a) k fuel1 prev s
             = star_iter (matcher a) k fuel2 prev s).
  { induction fuel1 as [|fuel1 IH]; intros fuel2 prev s H1 H2.
    - destruct s; [|simpl in H1; lia].
      destruct fuel2 as [|fuel2]; [reflexivity|]. simpl.
      rewrite matcher_none; [reflexivity|].
      intros p' s'. reflexivity.
    - destruct fuel2 as [|fuel2].
      + destruct s; [|simpl in H2; lia]. simpl.
        rewrite matcher_none; [reflexivity|].
        intros p' s'. reflexivity.
      + simpl.
        same_scrutinee. apply matcher_local.
        intros p' s' Hlen.
        destruct (Nat.ltb_spec (length s') (length s)); [|reflexivity].
        apply IH; lia. }
  intros fuel prev s Hlen. apply H; lia.
Qed.

Lemma match_at_bounds r prev s n :
  match_at r prev s = Some n -> minlen r <= n /\ n <= length s.
Proof.
  unfold match_at. destruct (matcher r prev s _) as [s'|] eqn:E; [|discriminate].
  intros H; inversion H; subst n; clear H.
  apply matcher_progress in E. destruct E as (p1 & s1 & E & L).
  inversion E; subst s1. lia.
Qed.

Lemma search_bounds r : forall s prev off len,
  search r prev s = Some (off, len) ->
  minlen r <= len /\ off + len <= length s.
Proof.
  induction s as [|c t IH]; intros prev off len H; simpl in H.
  - destruct (match_at r prev []) as [n|] eqn:E; [|discriminate].
    inversion H; subst. apply match_at_bounds in E. simpl in *. lia.
  - destruct (match_at r prev (c :: t)) as [n|] eqn:E.
    + inversion H; subst. apply match_at_bounds in E. simpl in *. lia.
    + destruct (search r (Some c) t) as [[o l]|] eqn:E2; [|discriminate].
      inversion H; subst. apply IH in E2. simpl. lia.
Qed.

(** The scan on small inputs: an empty match is replaced and the scan moves
    one code unit on; a greedy match takes the longest run; a word boundary
    needs a word character on one side only. *)
Example replace_empty_matches :
  replace_all (Star (lit "x")) (js "-") (js "abc") = js "-a-b-c-".
Proof. reflexivity. Qed.

Example replace_greedy_run :
  replace_all (Star (lit "a")) (js "-") (js "aab") = js "--b-".
Proof. reflexivity. Qed.

Example unix_timestamp_boundaries :
  found Sanitize.UNIX_TIMESTAMP (js "at 1234567890 sharp") = true
  /\ found Sanitize.UNIX_TIMESTAMP (js "a1234567890") = false
  /\ found Sanitize.UNIX_TIMESTAMP (js "12345678901234") = false.
Proof. repeat split; vm_compute; reflexivity. Qed.

(** Nothing found, nothing replaced. *)
Lemma replace_from_none r repl : forall s prev,
  search r prev s = None -> replace_from r repl prev s 0 = s.
Proof.
  induction s as [|c t IH]; intros prev H; simpl in *.
  - destruct (match_at r prev []); [discriminate|reflexivity].
  - destruct (match_at r prev (c :: t)); [discriminate|].
    destruct (search r (Some c) t) as [[o l]|] eqn:E; [discriminate|].
    f_equal. apply IH. assumption.
Qed.

(** A scan never lengthens its input when the replacement is no longer than
    the shortest match. *)
Lemma replace_from_length r repl :
  length repl <= minlen r ->
  forall s prev skip, skip <= length s ->
    length (replace_from r repl prev s skip) + skip <= length s.
Proof.
  intros HL. induction s as [|c t IH]; intros prev skip Hs.
  - simpl in Hs. assert (skip = 0) by lia. subst skip. simpl.
    destruct (match_at r prev []) as [[|n]|] eqn:E; simpl; try lia.
    + apply match_at_bounds in E. rewrite app_nil_r. simpl in *. lia.
    + apply match_at_bounds in E. simpl in E. lia.
  - destruct skip as [|n].
    + simpl. destruct (match_at r prev (c :: t)) as [[|n]|] eqn:E.
      * apply match_at_bounds in E. rewrite length_app. simpl.
        specialize (IH (Some c) 0 (Nat.le_0_l _)). lia.
      * apply match_at_bounds in E. rewrite length_app. simpl in *.
        specialize (IH (Some c) n). lia.
      * simpl. specialize (IH (Some c) 0 (Nat.le_0_l _)). lia.
    + simpl in *. specialize (IH (Some c) n). lia.
Qed.

(** A scan that finds a match shortens its input when the replacement is
    shorter than the shortest match. *)
Lemma replace_from_shorter r repl :
  length repl < minlen r ->
  forall s prev, search r prev s <> None ->
    length (replace_from r repl prev s 0) < length s.
Proof.
  intros HL.
  assert (HL' : length repl <= minlen r) by lia.
  induction s as [|c t IH]; intros prev H; simpl in *.
  - destruct (match_at r prev []) as [n|] eqn:E; [|congruence].
    apply match_at_bounds in E. simpl in E. lia.
  - destruct (match_at r prev (c :: t)) as [[|n]|] eqn:E.
    + apply match_at_bounds in E. lia.
    + apply match_at_bounds in E. rewrite length_app. simpl in E.
      pose proof (replace_from_length r repl HL' t (Some c) n). lia.
    + simpl. destruct (search r (Some c) t) as [[o l]|] eqn:E2; [|congruence].
      assert (Hne : search r (Some c) t <> None) by congruence.
      specialize (IH (Some c) Hne). lia.
Qed.

Lemma replace_all_none r repl s :
  found r s = false -> replace_all r repl s = s.
Proof.
  unfold found, replace_all. destruct (search r None s) eqn:E; [discriminate|].
  intros _. apply replace_from_none. assumption.
Qed.

Lemma replace_all_length r repl s :
  length repl <= minlen r -> length (replace_all r repl s) <= length s.
Proof.
  intros HL. unfold replace_all.
  pose proof (replace_from_length r repl HL s None 0 (Nat.le_0_l _)). lia.
Qed.

Lemma replace_all_shorter r repl s :
  length repl < minlen r -> found r s = true ->
  length (replace_all r repl s) < length s.
Proof.
  intros HL H. unfold replace_all. apply replace_from_shorter; [assumption|].
  unfold found in H. destruct (search r None s); [congruence|discriminate].
Qed.

Lemma replace_first_none r repl s :
  found r s = false -> replace_first r repl s = s.
Proof.
  unfold found, replace_first. destruct (search r None s) as [[o l]|]; [discriminate|reflexivity].
Qed.

Lemma replace_first_length r repl s :
  length repl <= minlen r -> length (replace_first r repl s) <= length s.
Proof.
  intros HL. unfold replace_first.
  destruct (search r None s) as [[o l]|] eqn:E; [|lia].
  apply search_bounds in E.
  rewrite !length_app, length_firstn, length_skipn. lia.
Qed.

Lemma replace_first_shorter r repl s :
  length repl < minlen r -> found r s = true ->
  length (replace_first r repl s) < length s.
Proof.
  intros HL. unfold found, replace_first.
  destruct (search r None s) as [[o l]|] eqn:E; [|discriminate].
  intros _. apply search_bounds in E.
  rewrite !length_app, length_firstn, length_skipn. lia.
Qed.

(** [test] from [lastIndex] 0 answers whether the pattern occurs. *)
Lemma test_from_zero R s :
  fst (test (set_lastIndex R 0) s) = found (source R) s.
Proof.
  unfold test, found. simpl.
  replace (if global R then 0 else 0) with 0 by (destruct (global R); reflexivity).
  simpl. destruct (search (source R) None s) as [[o l]|]; reflexivity.
Qed.

Lemma test_not_global R s :
  global R = false -> fst (test R s) = found (source R) s.
Proof.
  intros G. unfold test, found. rewrite G. simpl.
  destruct (search (source R) None s) as [[o l]|]; reflexivity.
Qed.

Lemma test_keeps_pattern R s :
  set_lastIndex (snd (test R s)) 0 = set_lastIndex R 0.
Proof.
  unfold test. destruct (length s <? _); [reflexivity|].
  destruct (search _ _ _) as [[o l]|]; destruct (global R); reflexivity.
Qed.

End MatcherFacts.

(** ** White-space normalization *)

Section Whitespace.

Lemma wsrun_le s : wsrun s <= length s.
Proof.
  induction s as [|c t IH]; simpl; [lia|]. destruct (isSpace c); simpl; lia.
Qed.

Lemma star_space : forall fuel prev s,
  length s <= fuel ->
  star_iter (matcher space) (fun _ s' => Some s') fuel prev s
  = Some (skipn (wsrun s) s).
Proof.
  induction fuel as [|fuel IH]; intros prev s Hlen.
  - destruct s; [reflexivity|simpl in Hlen; lia].
  - destruct s as [|c t]; [reflexivity|].
    cbn [star_iter matcher space wsrun].
    destruct (isSpace c) eqn:Hc; [|reflexivity].
    replace (length t <? length (c :: t)) with true
      by (symmetry; apply Nat.ltb_lt; simpl; lia).
    rewrite IH by (simpl in Hlen; lia). reflexivity.
Qed.

Lemma match_at_whitespace prev s :
  match_at (Plus space) prev s
  = match s with
    | c :: t => if isSpace c then Some (S (wsrun t)) else None
    | [] => None
    end.
Proof.
  unfold match_at, Plus. cbn [matcher space].
  destruct s as [|c t]; [reflexivity|].
  destruct (isSpace c); [|reflexivity].
  rewrite star_space by lia.
  f_equal. rewrite length_skipn. pose proof (wsrun_le t). cbn [length]. lia.
Qed.

Lemma collapse_at_word s : wsrun s = 0 -> collapse true s = collapse false s.
Proof.
  destruct s as [|c t]; [reflexivity|]. simpl.
  destruct (isSpace c); [discriminate|reflexivity].
Qed.

Lemma replace_whitespace : forall s prev,
  replace_from (Plus space) SPACE prev s 0 = collapse false s
  /\ replace_from (Plus space) SPACE prev s (wsrun s) = collapse true s.
Proof.
  induction s as [|c t IH]; intros prev.
  - split; reflexivity.
  - assert (H0 : replace_from (Plus space) SPACE prev (c :: t) 0
                 = collapse false (c :: t)).
    { cbn [replace_from]. rewrite match_at_whitespace. cbn [collapse].
      destruct (isSpace c).
      - simpl. f_equal. apply IH.
      - f_equal. apply IH. }
    split; [exact H0|].
    cbn [wsrun]. destruct (isSpace c) eqn:Hc.
    + cbn [replace_from collapse]. rewrite Hc. apply IH.
    + rewrite H0. symmetry. apply collapse_at_word. simpl. rewrite Hc. reflexivity.
Qed.

Lemma normalize_collapse s : normalize s = trim (collapse false s).
Proof.
  unfold normalize, replace, WHITESPACE_RUN. simpl. unfold replace_all.
  f_equal. apply replace_whitespace.
Qed.

Lemma collapse_single_spaced : forall s b, single_spaced b (collapse b s).
Proof.
  induction s as [|c t IH]; intros b; simpl; [exact I|].
  destruct (isSpace c) eqn:Hc.
  - destruct b.
    + apply IH.
    + simpl. replace (isSpace 32%N) with true by reflexivity.
      repeat split. apply IH.
  - simpl. rewrite Hc. apply IH.
Qed.

Lemma single_spaced_collapse : forall s b,
  single_spaced b s -> collapse b s = s.
Proof.
  induction s as [|c t IH]; intros b H; simpl in *; [reflexivity|].
  destruct (isSpace c).
  - destruct H as (Hb & Hc & Ht). subst b c. f_equal. apply IH. assumption.
  - f_equal. apply IH. assumption.
Qed.

Lemma trimStart_single_spaced : forall s b,
  single_spaced b s -> single_spaced false (trimStart s).
Proof.
  induction s as [|c t IH]; intros b H; simpl in *; [exact I|].
  destruct (isSpace c) eqn:Hc.
  - destruct H as (_ & _ & Ht). apply (IH true). assumption.
  - simpl. rewrite Hc. assumption.
Qed.

Lemma trimEnd_single_spaced : forall s b,
  single_spaced b s -> single_spaced b (trimEnd s).
Proof.
  induction s as [|c t IH]; intros b H; simpl in *; [exact I|].
  destruct (isSpace c) eqn:Hc.
  - destruct H as (Hb & Hc' & Ht). apply IH in Ht.
    destruct (trimEnd t) as [|d t']; [exact I|].
    cbn [single_spaced]. rewrite Hc. auto.
  - apply IH in H.
    destruct (trimEnd t) as [|d t']; cbn [single_spaced]; rewrite Hc; auto.
Qed.

Lemma trimEnd_idempotent : forall s, trimEnd (trimEnd s) = trimEnd s.
Proof.
  induction s as [|c t IH]; [reflexivity|]. simpl.
  destruct (trimEnd t) as [|d t'] eqn:E.
  - destruct (isSpace c) eqn:Hc; [reflexivity|]. simpl. rewrite Hc. reflexivity.
  - change (trimEnd (c :: d :: t'))
      with (match trimEnd (d :: t') with
            | [] => if isSpace c then [] else [c]
            | x :: l => c :: x :: l
            end).
    rewrite IH. reflexivity.
Qed.

Lemma wsrun_trimStart : forall s, wsrun (trimStart s) = 0.
Proof.
  induction s as [|c t IH]; [reflexivity|]. simpl.
  destruct (isSpace c) eqn:Hc; [exact IH|]. simpl. rewrite Hc. reflexivity.
Qed.

Lemma trimStart_at_word s : wsrun s = 0 -> trimStart s = s.
Proof.
  destruct s as [|c t]; [reflexivity|]. simpl.
  destruct (isSpace c); [discriminate|reflexivity].
Qed.

Lemma wsrun_trimEnd s : wsrun s = 0 -> wsrun (trimEnd s) = 0.
Proof.
  destruct s as [|c t]; [reflexivity|]. simpl.
  destruct (isSpace c) eqn:Hc; [discriminate|]. intros _.
  destruct (trimEnd t); simpl; rewrite Hc; reflexivity.
Qed.

Lemma trim_idempotent s : trim (trim s) = trim s.
Proof.
  unfold trim.
  rewrite (trimStart_at_word (trimEnd (trimStart s)))
    by (apply wsrun_trimEnd, wsrun_trimStart).
  apply trimEnd_idempotent.
Qed.

Lemma normalize_idempotent s : normalize (normalize s) = normalize s.
Proof.
  rewrite !normalize_collapse.
  rewrite (single_spaced_collapse (trim (collapse false s)) false).
  - apply trim_idempotent.
  - unfold trim. apply trimEnd_single_spaced.
    apply (trimStart_single_spaced _ false). apply collapse_single_spaced.
Qed.

Lemma trimStart_length s : length (trimStart s) <= length s.
Proof.
  induction s as [|c t IH]; simpl; [lia|]. destruct (isSpace c); simpl; lia.
Qed.

Lemma trimEnd_length s : length (trimEnd s) <= length s.
Proof.
  induction s as [|c t IH]; simpl; [lia|].
  destruct (trimEnd t); [destruct (isSpace c)|]; simpl in *; lia.
Qed.

Lemma collapse_length : forall s b, length (collapse b s) <= length s.
Proof.
  induction s as [|c t IH]; intros b; simpl; [lia|].
  pose proof (IH true). pose proof (IH false).
  destruct (isSpace c); [destruct b|]; simpl; lia.
Qed.

Lemma normalize_length s : length (normalize s) <= length s.
Proof.
  rewrite normalize_collapse. unfold trim.
  pose proof (trimEnd_length (trimStart (collapse false s))).
  pose proof (trimStart_length (collapse false s)).
  pose proof (collapse_length s false). lia.
Qed.

End Whitespace.

(** ** The sanitizer as a pipeline *)

Section Pipeline.

Lemma objects_of_cons srcs p ps :
  objects_of srcs (p :: ps) ->
  exists srcs', srcs = source p :: srcs' /\ global p = true
                /\ objects_of srcs' ps.
Proof.
  unfold objects_of. destruct srcs as [|r srcs']; simpl; [discriminate|].
  intros H. inversion H as [[Hs Hg Ht]]. exists srcs'. auto.
Qed.

Lemma objects_of_nil srcs : objects_of srcs [] -> srcs = [].
Proof.
  unfold objects_of. destruct srcs; simpl; [reflexivity|discriminate].
Qed.

Lemma replace_each_objects : forall ps srcs s,
  objects_of srcs ps ->
  replace_each ps s = (strip_all srcs s, map fresh srcs).
Proof.
  induction ps as [|p ps IH]; intros srcs s H.
  - apply objects_of_nil in H. subst srcs. reflexivity.
  - apply objects_of_cons in H. destruct H as (srcs' & -> & G & H).
    cbn [replace_each]. unfold replace at 1. rewrite G.
    rewrite (IH srcs' _ H). unfold strip_all, fresh, set_lastIndex.
    rewrite G. reflexivity.
Qed.

Lemma test_each_objects : forall ps srcs q,
  objects_of srcs ps ->
  fst (test_each ps q) = existsb (fun r => found r q) srcs
  /\ objects_of srcs (snd (test_each ps q)).
Proof.
  induction ps as [|p ps IH]; intros srcs q H.
  - apply objects_of_nil in H. subst srcs. split; reflexivity.
  - pose proof H as H0.
    apply objects_of_cons in H. destruct H as (srcs' & -> & G & H).
    cbn [test_each existsb].
    pose proof (test_from_zero p q) as Ht.
    pose proof (test_keeps_pattern (set_lastIndex p 0) q) as Hk.
    destruct (test (set_lastIndex p 0) q) as [hit p'] eqn:E.
    cbn [fst snd] in Ht, Hk. rewrite <- Ht.
    assert (Hp : set_lastIndex p' 0 = fresh (source p)).
    { rewrite Hk. unfold fresh, set_lastIndex. simpl. rewrite G. reflexivity. }
    destruct hit.
    + split; [reflexivity|]. unfold objects_of in *. cbn [snd map].
      rewrite Hp. f_equal. exact H.
    + destruct (IH srcs' q H) as (IH1 & IH2).
      destruct (test_each ps q) as [found' rest'] eqn:E2.
      cbn [fst snd] in *. split; [exact IH1|].
      unfold objects_of in *. cbn [map]. rewrite Hp. f_equal. exact IH2.
Qed.

Lemma objects_of_fresh srcs : objects_of srcs (map fresh srcs).
Proof.
  unfold objects_of. rewrite map_map. reflexivity.
Qed.

Lemma loaded_initial : loaded initial_state.
Proof.
  repeat split; apply objects_of_fresh.
Qed.

Lemma fallback_step sdk st :
  fallback sdk st ->
  exists slot, getStripEnvelope sdk st = (None, set_impl st slot)
               /\ fallback sdk (set_impl st slot).
Proof.
  unfold fallback, getStripEnvelope.
  destruct st as [slot ts us js]; simpl.
  destruct slot as [| |f]; simpl.
  - destruct sdk as [| |f]; simpl; intros H; try discriminate;
      exists ImplNull; split; reflexivity.
  - intros _. exists ImplNull; split; reflexivity.
  - discriminate.
Qed.

Lemma fallback_slot sdk st st' :
  stripEnvelopeImpl st' = stripEnvelopeImpl st ->
  fallback sdk st -> fallback sdk st'.
Proof.
  unfold fallback, getStripEnvelope. intros ->.
  destruct (stripEnvelopeImpl st); [destruct sdk| |]; simpl; auto.
Qed.

Lemma sanitized_empty : sanitized [] = [].
Proof. reflexivity. Qed.

(** With the fallback in use, [sanitizeQuery] on a string is [sanitized]. *)
Lemma sanitizeQuery_fallback sdk st q :
  fallback sdk st -> loaded st ->
  exists st', sanitizeQuery sdk st (VString q) = (Returned (sanitized q), st')
              /\ fallback sdk st' /\ loaded st'.
Proof.
  intros Hf Hl. destruct q as [|c q'].
  - exists st. rewrite sanitized_empty. repeat split; assumption || apply Hl.
  - unfold sanitizeQuery. cbn [truthy isString negb orb].
    unfold stripChannelEnvelope.
    destruct (fallback_step sdk st Hf) as (slot & -> & Hf').
    destruct Hl as (H1 & H2 & H3).
    cbn [TIMESTAMP_PATTERNS USER_ID_PATTERNS JSON_ARTIFACT_PATTERNS set_impl
         stripEnvelopeImpl].
    rewrite (replace_each_objects _ _ _ H1).
    rewrite (replace_each_objects _ _ _ H2).
    rewrite (replace_each_objects _ _ _ H3).
    eexists. split; [reflexivity|]. split.
    + apply (fallback_slot sdk (set_impl st slot)); [reflexivity|exact Hf'].
    + repeat split; apply objects_of_fresh.
Qed.

(** [needsSanitization] on a string tells whether some pattern matches. *)
Lemma needsSanitization_pure st q :
  loaded st ->
  fst (needsSanitization st (VString q)) = anyPatternMatches q
  /\ loaded (snd (needsSanitization st (VString q))).
Proof.
  intros Hl. destruct q as [|c q'].
  - split; [reflexivity|exact Hl].
  - destruct Hl as (H1 & H2 & H3).
    unfold needsSanitization, anyPatternMatches.
    cbn [truthy isString negb orb].
    rewrite (test_not_global CHANNEL_METADATA_PATTERN) by reflexivity.
    destruct (found (source CHANNEL_METADATA_PATTERN) (c :: q')).
    { split; [reflexivity|repeat split; assumption]. }
    cbn [orb].
    destruct (test_each_objects (TIMESTAMP_PATTERNS st) _ (c :: q') H1) as (A1 & B1).
    destruct (test_each (TIMESTAMP_PATTERNS st) (c :: q')) as [hit1 ts].
    cbn [fst snd] in A1, B1. rewrite <- A1.
    destruct hit1.
    { split; [reflexivity|repeat split; assumption]. }
    cbn [orb USER_ID_PATTERNS JSON_ARTIFACT_PATTERNS TIMESTAMP_PATTERNS
         stripEnvelopeImpl].
    destruct (test_each_objects (USER_ID_PATTERNS st) _ (c :: q') H2) as (A2 & B2).
    destruct (test_each (USER_ID_PATTERNS st) (c :: q')) as [hit2 us].
    cbn [fst snd] in A2, B2. rewrite <- A2.
    destruct hit2.
    { split; [reflexivity|repeat split; assumption]. }
    cbn [orb].
    destruct (test_each_objects (JSON_ARTIFACT_PATTERNS st) _ (c :: q') H3) as (A3 & B3).
    destruct (test_each (JSON_ARTIFACT_PATTERNS st) (c :: q')) as [hit3 js].
    cbn [fst snd] in A3, B3. rewrite <- A3.
    split; [reflexivity|repeat split; assumption].
Qed.

Lemma strip_all_none : forall srcs s,
  existsb (fun r => found r s) srcs = false -> strip_all srcs s = s.
Proof.
  induction srcs as [|r srcs IH]; intros s H; [reflexivity|].
  cbn [existsb] in H. apply orb_false_iff in H. destruct H as (Hr & Hs).
  unfold strip_all in *. cbn [fold_left].
  rewrite (replace_all_none r SPACE s Hr). apply IH. exact Hs.
Qed.

Lemma strip_all_length : forall srcs s,
  Forall (fun r => 1 < minlen r) srcs ->
  length (strip_all srcs s) <= length s.
Proof.
  induction srcs as [|r srcs IH]; intros s H; [simpl; lia|].
  inversion H as [|? ? Hr Hs]; subst.
  unfold strip_all in *. cbn [fold_left].
  specialize (IH (replace_all r SPACE s) Hs).
  pose proof (replace_all_length r SPACE s). simpl in *. lia.
Qed.

Lemma strip_all_shorter : forall srcs s,
  Forall (fun r => 1 < minlen r) srcs ->
  existsb (fun r => found r s) srcs = true ->
  length (strip_all srcs s) < length s.
Proof.
  induction srcs as [|r srcs IH]; intros s H E; [discriminate|].
  inversion H as [|? ? Hr Hs]; subst.
  cbn [existsb] in E.
  change (strip_all (r :: srcs) s) with (strip_all srcs (replace_all r SPACE s)).
  destruct (found r s) eqn:F.
  - pose proof (replace_all_shorter r SPACE s Hr F).
    pose proof (strip_all_length srcs (replace_all r SPACE s) Hs). lia.
  - rewrite (replace_all_none r SPACE s F). apply IH; assumption.
Qed.

Lemma timestamp_minlen : Forall (fun r => 1 < minlen r) TIMESTAMP_SOURCES.
Proof. repeat constructor; vm_compute; lia. Qed.

Lemma user_id_minlen : Forall (fun r => 1 < minlen r) USER_ID_SOURCES.
Proof. repeat constructor; vm_compute; lia. Qed.

Lemma json_minlen : Forall (fun r => 1 < minlen r) JSON_ARTIFACT_SOURCES.
Proof. repeat constructor; vm_compute; lia. Qed.

Lemma channel_minlen : 0 < minlen (source CHANNEL_METADATA_PATTERN).
Proof. vm_compute. lia. Qed.

(** Without a match the pipeline only normalizes white space. *)
Lemma sanitized_clean q :
  anyPatternMatches q = false -> sanitized q = normalize q.
Proof.
  unfold anyPatternMatches, sanitized. intros H.
  apply orb_false_iff in H. destruct H as (H & H4).
  apply orb_false_iff in H. destruct H as (H & H3).
  apply orb_false_iff in H. destruct H as (H1 & H2).
  rewrite (replace_first_none _ [] q H1).
  rewrite (strip_all_none _ q H2).
  rewrite (strip_all_none _ q H3).
  rewrite (strip_all_none _ q H4). reflexivity.
Qed.

(** With a match the pipeline shortens the string. *)
Lemma sanitized_shorter q :
  anyPatternMatches q = true -> length (sanitized q) < length q.
Proof.
  unfold anyPatternMatches, sanitized. intros H.
  pose proof (fun s => strip_all_length _ s timestamp_minlen) as L2.
  pose proof (fun s => strip_all_length _ s user_id_minlen) as L3.
  pose proof (fun s => strip_all_length _ s json_minlen) as L4.
  pose proof normalize_length as L5.
  destruct (found (source CHANNEL_METADATA_PATTERN) q) eqn:F1.
  { pose proof (replace_first_shorter _ [] q channel_minlen F1) as S1.
    eapply Nat.le_lt_trans; [|exact S1].
    etransitivity; [apply L5|]. etransitivity; [apply L4|].
    etransitivity; [apply L3|]. apply L2. }
  rewrite (replace_first_none _ [] q F1).
  destruct (existsb (fun r => found r q) TIMESTAMP_SOURCES) eqn:F2.
  { pose proof (strip_all_shorter _ q timestamp_minlen F2) as S2.
    eapply Nat.le_lt_trans; [|exact S2].
    etransitivity; [apply L5|]. etransitivity; [apply L4|]. apply L3. }
  rewrite (strip_all_none _ q F2).
  destruct (existsb (fun r => found r q) USER_ID_SOURCES) eqn:F3.
  { pose proof (strip_all_shorter _ q user_id_minlen F3) as S3.
    eapply Nat.le_lt_trans; [|exact S3].
    etransitivity; [apply L5|]. apply L4. }
  rewrite (strip_all_none _ q F3).
  cbn [orb] in H.
  pose proof (strip_all_shorter _ q json_minlen H) as S4.
  eapply Nat.le_lt_trans; [|exact S4]. apply L5.
Qed.

End Pipeline.

(** ** The sanitizer *)

Section SanitizerProperties.

(** The examples of the specification. *)
Example sanitize_envelope_example :
  fst (sanitizeQuery RequireThrows initial_state
         (VString (js "[Telegram Name (@h) id:123 +2m 2026-01-27 04:03 UTC] hello")))
  = Returned (js "hello").
Proof. vm_compute. reflexivity. Qed.

Example sanitize_id_example :
  fst (sanitizeQuery RequireThrows initial_state
         (VString (js "id: 123456 find my preferences")))
  = Returned (js "find my preferences").
Proof. vm_compute. reflexivity. Qed.

(** A global pattern object is stateful: a second [test] without the reset
    of [lastIndex] misses the match the first one found. *)
Example test_without_reset :
  let R := fresh ID_KEY in
  fst (test R (js "id: 5")) = true
  /\ fst (test (snd (test R (js "id: 5"))) (js "id: 5")) = false.
Proof. split; vm_compute; reflexivity. Qed.

Lemma anyPatternMatches_alters st q :
  loaded st -> (anyPatternMatches q = true <-> family_alters st q).
Proof.
  intros (H1 & H2 & H3). unfold family_alters.
  rewrite (replace_each_objects _ _ q H1), (replace_each_objects _ _ q H2),
    (replace_each_objects _ _ q H3).
  cbn [fst]. unfold replace. cbn [global CHANNEL_METADATA_PATTERN fst].
  fold CHANNEL_METADATA_PATTERN.
  unfold anyPatternMatches. split.
  - intros H.
    destruct (found (source CHANNEL_METADATA_PATTERN) q) eqn:F1.
    { left. intros E.
      pose proof (replace_first_shorter _ [] q channel_minlen F1) as L.
      change (replace_first (source CHANNEL_METADATA_PATTERN) [] q = q) in E.
      rewrite E in L. lia. }
    destruct (existsb (fun r => found r q) TIMESTAMP_SOURCES) eqn:F2.
    { right; left. intros E.
      pose proof (strip_all_shorter _ q timestamp_minlen F2) as L.
      rewrite E in L. lia. }
    destruct (existsb (fun r => found r q) USER_ID_SOURCES) eqn:F3.
    { right; right; left. intros E.
      pose proof (strip_all_shorter _ q user_id_minlen F3) as L.
      rewrite E in L. lia. }
    cbn [orb] in H. right; right; right. intros E.
    pose proof (strip_all_shorter _ q json_minlen H) as L.
    rewrite E in L. lia.
  - intros H.
    destruct (found (source CHANNEL_METADATA_PATTERN) q) eqn:F1; [reflexivity|].
    destruct (existsb (fun r => found r q) TIMESTAMP_SOURCES) eqn:F2; [reflexivity|].
    destruct (existsb (fun r => found r q) USER_ID_SOURCES) eqn:F3; [reflexivity|].
    destruct (existsb (fun r => found r q) JSON_ARTIFACT_SOURCES) eqn:F4; [reflexivity|].
    exfalso. destruct H as [H|[H|[H|H]]]; apply H.
    + apply (replace_first_none _ [] q F1).
    + apply strip_all_none; assumption.
    + apply strip_all_none; assumption.
    + apply strip_all_none; assumption.
Qed.

(** C7. For every input that is null, undefined, the empty string or not a
    string, [sanitizeQuery] returns the empty string: the call returns
    (it does not throw, whatever the host's [stripEnvelope] would do) and
    leaves the module state as it was. *)
Theorem sanitizeQuery_non_string sdk st (query : jsvalue) :
  isString query = false \/ query = VString [] ->
  sanitizeQuery sdk st query = (Returned [], st).
Proof.
  intros [H| ->]; [|reflexivity].
  unfold sanitizeQuery. rewrite H. cbn [negb]. rewrite orb_true_r. reflexivity.
Qed.

Lemma sanitizeQuery_non_string_witness :
  sanitizeQuery (SdkWithStripEnvelope (fun _ => Threw (js "boom")))
                initial_state VNull
  = (Returned [], initial_state)
  /\ sanitizeQuery RequireThrows initial_state (VString [])
     = (Returned [], initial_state).
Proof.
  split; apply sanitizeQuery_non_string; [left|right]; reflexivity.
Defined.

(** C3, as the code has it.  [sanitizeQuery("  hello   world  ")] is
    ["hello world"], and a second pass returns the output of the first
    unchanged whenever no pattern of the four families matches that output
    ([needsSanitization] answers false on it); stated with the fallback
    envelope pattern in use. *)
Theorem sanitizeQuery_idempotent_on_clean_output sdk st q s1 st1 :
  fallback sdk st -> loaded st ->
  sanitizeQuery sdk st (VString q) = (Returned s1, st1) ->
  fst (needsSanitization st1 (VString s1)) = false ->
  sanitizeTwice sdk st q = Returned s1
  /\ fst (sanitizeQuery sdk st (VString (js "  hello   world  ")))
     = Returned (js "hello world").
Proof.
  intros Hf Hl E Hn. split.
  - unfold sanitizeTwice. rewrite E.
    destruct (sanitizeQuery_fallback sdk st q Hf Hl) as (st' & E' & Hf' & Hl').
    rewrite E in E'. inversion E'; subst st' s1. clear E'.
    destruct (sanitizeQuery_fallback sdk st1 (sanitized q) Hf' Hl')
      as (st2 & E2 & _ & _).
    rewrite E2. cbn [fst]. f_equal.
    destruct (needsSanitization_pure st1 (sanitized q) Hl') as (Hp & _).
    rewrite Hp in Hn. rewrite (sanitized_clean _ Hn).
    unfold sanitized at 2. apply normalize_idempotent.
  - destruct (sanitizeQuery_fallback sdk st (js "  hello   world  ") Hf Hl)
      as (st' & E' & _ & _).
    rewrite E'. reflexivity.
Qed.

Lemma sanitizeQuery_idempotent_on_clean_output_witness :
  sanitizeTwice RequireThrows initial_state (js "  hello   world  ")
  = Returned (js "hello world")
  /\ fst (sanitizeQuery RequireThrows initial_state
            (VString (js "  hello   world  ")))
     = Returned (js "hello world").
Proof.
  apply (sanitizeQuery_idempotent_on_clean_output RequireThrows initial_state
           (js "  hello   world  ") (js "hello world")
           (snd (sanitizeQuery RequireThrows initial_state
                   (VString (js "  hello   world  "))))).
  - reflexivity.
  - exact loaded_initial.
  - vm_compute. reflexivity.
  - vm_compute. reflexivity.
Defined.

(** C3 fails as stated: the replacement of a match by a space can bring
    ["id:"] and a number together, which the second pass removes. *)
Lemma sanitizeQuery_not_idempotent :
  fst (sanitizeQuery RequireThrows initial_state (VString (js "id: id:5 7")))
  = Returned (js "id: 7")
  /\ sanitizeTwice RequireThrows initial_state (js "id: id:5 7") = Returned []
  /\ sanitizeTwice RequireThrows initial_state (js "id: id:5 7")
     <> fst (sanitizeQuery RequireThrows initial_state
               (VString (js "id: id:5 7"))).
Proof.
  split; [vm_compute; reflexivity|].
  split; [vm_compute; reflexivity|].
  intros H. vm_compute in H. discriminate H.
Qed.




(** C6. On every string [needsSanitization] answers true exactly when
    applying one of the four pattern families would alter the string, and
    the answer does not depend on the [lastIndex] the pattern objects were
    left with: any two states give the same answer, in particular the state
    a first call leaves. *)
Theorem needsSanitization_exact st st' q :
  loaded st -> loaded st' ->
  (fst (needsSanitization st (VString q)) = true <-> family_alters st q)
  /\ fst (needsSanitization st' (VString q))
     = fst (needsSanitization st (VString q))
  /\ fst (needsSanitization (snd (needsSanitization st (VString q)))
                            (VString q))
     = fst (needsSanitization st (VString q))
  /\ loaded (snd (needsSanitization st (VString q))).
Proof.
  intros Hl Hl'.
  destruct (needsSanitization_pure st q Hl) as (P & L).
  destruct (needsSanitization_pure st' q Hl') as (P' & _).
  destruct (needsSanitization_pure _ q L) as (P2 & _).
  repeat split.
  - rewrite P. apply anyPatternMatches_alters; assumption.
  - rewrite P. apply anyPatternMatches_alters; assumption.
  - congruence.
  - congruence.
  - apply L.
  - apply L.
  - apply L.
Qed.

Lemma needsSanitization_exact_witness :
  (fst (needsSanitization initial_state (VString (js "id: 5"))) = true
   <-> family_alters initial_state (js "id: 5"))
  /\ fst (needsSanitization
            (snd (needsSanitization initial_state (VString (js "id: 5 id: 6"))))
            (VString (js "id: 5")))
     = fst (needsSanitization initial_state (VString (js "id: 5")))
  /\ fst (needsSanitization
            (snd (needsSanitization initial_state (VString (js "id: 5"))))
            (VString (js "id: 5")))
     = fst (needsSanitization initial_state (VString (js "id: 5")))
  /\ loaded (snd (needsSanitization initial_state (VString (js "id: 5")))).
Proof.
  apply (needsSanitization_exact initial_state
           (snd (needsSanitization initial_state (VString (js "id: 5 id: 6"))))
           (js "id: 5")).
  - exact loaded_initial.
  - apply needsSanitization_pure. exact loaded_initial.
Defined.

End SanitizerProperties.

(** ** The container tag *)

Section ContainerTag.

Lemma jsstring_eqb_eq a b : jsstring_eqb a b = true <-> a = b.
Proof.
  unfold jsstring_eqb. destruct (list_eq_dec N.eq_dec a b); split; congruence.
Qed.

Lemma isSessionScope_true config :
  isSessionScope config = true <-> containerScope config = Some (js "session").
Proof.
  unfold isSessionScope. destruct (containerScope config) as [s|].
  - rewrite jsstring_eqb_eq. split; congruence.
  - split; discriminate.
Qed.

Lemma prefix_spec config : prefix config = spec_prefix (containerTag config).
Proof.
  unfold prefix, spec_prefix, present, text, orElse.
  destruct (containerTag config) as [[|c t]|]; reflexivity.
Qed.

Lemma agent_branch config agentId :
  (if present agentId then Some (prefix config ++ text agentId)
   else containerTag config)
  = spec_agent_tag (containerTag config) agentId.
Proof.
  rewrite prefix_spec. unfold spec_agent_tag, present, text, orElse.
  destruct agentId as [[|c a]|]; reflexivity.
Qed.

Lemma spec_prefix_present tag :
  present tag = true -> spec_prefix tag = text tag ++ js ":".
Proof.
  destruct tag as [[|c t]|]; simpl; try discriminate. reflexivity.
Qed.

Lemma spec_prefix_absent tag : present tag = false -> spec_prefix tag = [].
Proof.
  destruct tag as [[|c t]|]; simpl; try discriminate; reflexivity.
Qed.

Lemma no_colon_in (label : jsstring) a b :
  ~ In 58%N label -> a ++ js ":" ++ b <> label.
Proof.
  intros Hn E. apply Hn. rewrite <- E. apply in_or_app. right. left. reflexivity.
Qed.

Lemma prefixed_not_label (label : jsstring) tag ident :
  ~ In 58%N label -> present tag = true ->
  Some (spec_prefix tag ++ ident) <> Some label.
Proof.
  intros Hn P H. injection H as H.
  rewrite (spec_prefix_present _ P), <- app_assoc in H.
  revert H. apply no_colon_in, Hn.
Qed.

Lemma resolve_session_eq config agentId sessionKey :
  containerScope config = Some (js "session") ->
  resolveContainerTag config agentId sessionKey
  = spec_session_tag (containerTag config) agentId sessionKey.
Proof.
  intros Hs. unfold resolveContainerTag.
  rewrite (proj2 (isSessionScope_true config) Hs).
  rewrite agent_branch, prefix_spec.
  unfold spec_session_tag, present, text, orElse.
  destruct sessionKey as [[|c k]|]; reflexivity.
Qed.

Lemma resolve_default_eq config agentId sessionKey :
  containerScope config <> Some (js "session") ->
  resolveContainerTag config agentId sessionKey
  = spec_agent_tag (containerTag config) agentId.
Proof.
  intros Hs.
  assert (F : isSessionScope config = false).
  { destruct (isSessionScope config) eqn:E; [|reflexivity].
    apply isSessionScope_true in E. contradiction. }
  unfold resolveContainerTag. rewrite F. apply agent_branch.
Qed.

(** C1. Under [containerScope = "session"] the tag is [prefix + sessionKey]
    when the session key is present and not empty, else [prefix + agentId]
    when the agent id is present and not empty, else the bare
    [containerTag]; the prefix is [containerTag + ":"] when the tag is
    present and not empty, and it occurs once, not twice, before the
    identifier. *)
Theorem resolveContainerTag_session config agentId sessionKey :
  containerScope config = Some (js "session") ->
  resolveContainerTag config agentId sessionKey
  = spec_session_tag (containerTag config) agentId sessionKey
  /\ forall ident,
       present (containerTag config) = true ->
       present sessionKey = true /\ sessionKey = Some ident
       \/ present sessionKey = false /\ present agentId = true
          /\ agentId = Some ident ->
       resolveContainerTag config agentId sessionKey
       = Some (text (containerTag config) ++ js ":" ++ ident)
       /\ resolveContainerTag config agentId sessionKey
          <> Some (text (containerTag config) ++ js ":"
                     ++ text (containerTag config) ++ js ":" ++ ident).
Proof.
  intros Hs.
  pose proof (resolve_session_eq config agentId sessionKey Hs) as E.
  split; [exact E|].
  intros ident Ht Hid. rewrite E.
  assert (R : spec_session_tag (containerTag config) agentId sessionKey
              = Some (text (containerTag config) ++ js ":" ++ ident)).
  { destruct Hid as [(Hp & ->)|(Hp & Ha & ->)].
    - unfold spec_session_tag. destruct ident as [|c k]; [discriminate|].
      rewrite (spec_prefix_present _ Ht), <- app_assoc. reflexivity.
    - unfold spec_session_tag, spec_agent_tag.
      destruct ident as [|c k]; [discriminate|].
      rewrite (spec_prefix_present _ Ht), <- app_assoc.
      destruct sessionKey as [[|d l]|]; try discriminate; reflexivity. }
  split; [exact R|].
  rewrite R. intros H. injection H as H. apply (f_equal (@length _)) in H.
  rewrite !length_app in H.
  destruct (containerTag config) as [[|c t]|]; try discriminate.
  cbn [text orElse length] in H. rewrite length_app in H.
  cbn [length] in H. lia.
Qed.

Lemma resolveContainerTag_session_witness :
  resolveContainerTag
    (parseConfig (mkRaw None None (Some (js "myns")) (Some (js "session"))
                        None None None))
    (Some (js "main")) (Some (js "agent:main:telegram:group:123"))
  = Some (js "myns:agent:main:telegram:group:123").
Proof.
  apply (proj2 (resolveContainerTag_session
                  (parseConfig (mkRaw None None (Some (js "myns"))
                                      (Some (js "session")) None None None))
                  (Some (js "main"))
                  (Some (js "agent:main:telegram:group:123")) eq_refl)
               (js "agent:main:telegram:group:123") eq_refl).
  left. split; reflexivity.
Defined.

(** C8. With any [containerScope] other than ["session"], absent and
    unrecognized values included, the tag is the one of the agent scope:
    [prefix + agentId] when the agent id is present and not empty, else the
    bare [containerTag]. *)
Theorem resolveContainerTag_default_scope config agentId sessionKey :
  containerScope config <> Some (js "session") ->
  resolveContainerTag config agentId sessionKey
  = spec_agent_tag (containerTag config) agentId
  /\ resolveContainerTag config agentId sessionKey
     = resolveContainerTag (withScope config (Some (js "agent"))) agentId
                           sessionKey.
Proof.
  intros Hs.
  rewrite (resolve_default_eq config agentId sessionKey Hs).
  rewrite (resolve_default_eq (withScope config (Some (js "agent"))) agentId
             sessionKey) by discriminate.
  split; reflexivity.
Qed.

Lemma resolveContainerTag_default_scope_witness :
  resolveContainerTag
    (mkConfig [] None (Some (js "myns")) (Some (js "workspace")) None None None)
    (Some (js "main")) (Some (js "agent:main:telegram:group:123"))
  = Some (js "myns:main")
  /\ resolveContainerTag
       (mkConfig [] None None None None None None) None
       (Some (js "agent:main:telegram:group:123"))
     = None.
Proof.
  split.
  - apply (proj1 (resolveContainerTag_default_scope
                    (mkConfig [] None (Some (js "myns")) (Some (js "workspace"))
                              None None None)
                    (Some (js "main"))
                    (Some (js "agent:main:telegram:group:123"))
                    ltac:(discriminate))).
  - apply (proj1 (resolveContainerTag_default_scope
                    (mkConfig [] None None None None None None) None
                    (Some (js "agent:main:telegram:group:123"))
                    ltac:(discriminate))).
Defined.

(** C2, as the code has it.  The tag is composed from the identifiers and
    the container tag only, so under the agent scope it is ["agent"]
    exactly when the agent id is ["agent"] and there is no prefix, or there
    is no agent id and the container tag is ["agent"]; under the session
    scope it is ["session"] exactly when the identifier in use (the session
    key, else the agent id) is ["session"] and there is no prefix, or there
    is no identifier and the container tag is ["session"]. *)
Theorem resolveContainerTag_scope_label config agentId sessionKey :
  (containerScope config = Some (js "agent") ->
   (resolveContainerTag config agentId sessionKey = Some (js "agent")
    <-> present (containerTag config) = false /\ agentId = Some (js "agent")
        \/ present agentId = false /\ containerTag config = Some (js "agent")))
  /\ (containerScope config = Some (js "session") ->
      (resolveContainerTag config agentId sessionKey = Some (js "session")
       <-> present (containerTag config) = false
           /\ sessionKey = Some (js "session")
           \/ present (containerTag config) = false
              /\ present sessionKey = false /\ agentId = Some (js "session")
           \/ present sessionKey = false /\ present agentId = false
              /\ containerTag config = Some (js "session"))).
Proof.
  assert (NA : ~ In 58%N (js "agent")) by (simpl; intuition discriminate).
  assert (NS : ~ In 58%N (js "session")) by (simpl; intuition discriminate).
  split; intros Hs.
  - assert (Hn : containerScope config <> Some (js "session"))
      by (rewrite Hs; discriminate).
    rewrite (resolve_default_eq config agentId sessionKey Hn).
    destruct (present (containerTag config)) eqn:P;
      destruct agentId as [[|c a]|]; cbn [present spec_agent_tag];
      try (pose proof (prefixed_not_label (js "agent") _ (c :: a) NA P));
      try rewrite (spec_prefix_absent _ P); cbn [app];
      intuition (try discriminate; try congruence).
  - rewrite (resolve_session_eq config agentId sessionKey Hs).
    destruct (present (containerTag config)) eqn:P;
      destruct sessionKey as [[|c k]|];
      destruct agentId as [[|d a]|];
      cbn [present spec_session_tag spec_agent_tag];
      try (pose proof (prefixed_not_label (js "session") _ (c :: k) NS P));
      try (pose proof (prefixed_not_label (js "session") _ (d :: a) NS P));
      try rewrite (spec_prefix_absent _ P); cbn [app];
      intuition (try discriminate; try congruence).
Qed.

Lemma resolveContainerTag_scope_label_witness :
  resolveContainerTag
    (parseConfig (mkRaw None None (Some (js "agent")) (Some (js "agent"))
                        None None None))
    None None
  = Some (js "agent").
Proof.
  apply (proj1 (resolveContainerTag_scope_label
                  (parseConfig (mkRaw None None (Some (js "agent"))
                                      (Some (js "agent")) None None None))
                  None None)).
  - reflexivity.
  - right. split; reflexivity.
Defined.

(** C2 fails as stated: an identifier that is itself the scope label is
    returned as the tag. *)
Lemma resolveContainerTag_returns_label :
  resolveContainerTag
    (parseConfig (mkRaw None None None (Some (js "agent")) None None None))
    (Some (js "agent")) None
  = Some (js "agent")
  /\ resolveContainerTag
       (parseConfig (mkRaw None None None (Some (js "session")) None None None))
       (Some (js "main")) (Some (js "session"))
     = Some (js "session").
Proof. split; reflexivity. Qed.

(** The cases of types.test.ts. *)
Example resolve_agent_main :
  resolveContainerTag
    (parseConfig (mkRaw None None None (Some (js "agent")) None None None))
    (Some (js "main")) None
  = Some (js "main").
Proof. reflexivity. Qed.

Example resolve_agent_prefixed :
  resolveContainerTag
    (parseConfig (mkRaw None None (Some (js "myns")) (Some (js "agent"))
                        None None None))
    (Some (js "main")) None
  = Some (js "myns:main").
Proof. reflexivity. Qed.

Example resolve_nothing :
  resolveContainerTag
    (parseConfig (mkRaw None None None (Some (js "session")) None None None))
    None None
  = None.
Proof. reflexivity. Qed.

End ContainerTag.

(** ** The flattened search results *)

Section Flattening.

Lemma push_chunks doc : forall cs acc,
  fold_left
    (fun results chunk =>
       results ++ [ {| id := documentId doc;
                       content := chunk_content chunk;
                       score := chunk_score chunk;
                       metadata := doc_metadata doc |} ])
    cs acc
  = acc ++ map (entry doc) cs.
Proof.
  induction cs as [|ch cs IH]; intros acc; simpl.
  - rewrite app_nil_r. reflexivity.
  - rewrite IH, <- app_assoc. reflexivity.
Qed.

Lemma push_documents : forall docs acc,
  fold_left
    (fun results doc =>
       fold_left
         (fun results chunk =>
            results ++ [ {| id := documentId doc;
                            content := chunk_content chunk;
                            score := chunk_score chunk;
                            metadata := doc_metadata doc |} ])
         (orElse (chunks doc) []) results)
    docs acc
  = acc ++ spec_flatten docs.
Proof.
  induction docs as [|doc docs IH]; intros acc; simpl.
  - rewrite app_nil_r. reflexivity.
  - rewrite IH, push_chunks, <- app_assoc. reflexivity.
Qed.

Lemma flattenChunks_spec data :
  flattenChunks data = spec_flatten (orElse (results data) []).
Proof.
  unfold flattenChunks. rewrite push_documents. reflexivity.
Qed.

(** C9. When the remote service answers with success, [search] returns
    the chunks of the response's documents as one flat list: documents in
    response order and, within a document, chunks in their order, each
    entry carrying the document's [documentId] and [metadata] and the
    chunk's [content] and [score]; a document between two others keeps its
    place, and so does a chunk between two others. *)
Theorem search_keeps_remote_order fetch params response :
  fetch (searchBody params) = Returned response ->
  ok response = true ->
  let docs := orElse (results (response_json response)) [] in
  SupermemoryClient_search fetch params = Returned (spec_flatten docs)
  /\ (forall before doc after cs1 chunk cs2,
        docs = before ++ doc :: after ->
        orElse (chunks doc) [] = cs1 ++ chunk :: cs2 ->
        spec_flatten docs
        = (spec_flatten before ++ map (entry doc) cs1)
            ++ mkResult (documentId doc) (chunk_content chunk)
                        (chunk_score chunk) (doc_metadata doc)
            :: (map (entry doc) cs2 ++ spec_flatten after)).
Proof.
  intros Hf Hok docs. split.
  - unfold SupermemoryClient_search. rewrite Hf, Hok. cbn [negb].
    rewrite flattenChunks_spec. reflexivity.
  - intros before doc after cs1 chunk cs2 -> Hc.
    unfold spec_flatten. rewrite flat_map_app. cbn [flat_map].
    rewrite Hc, map_app. cbn [map]. rewrite <- !app_assoc. reflexivity.
Qed.

Lemma search_keeps_remote_order_witness :
  let d1 := mkDocument (js "d1")
              (Some [mkChunk (js "b") 0.25%float; mkChunk (js "a") 0.75%float])
              None in
  let d2 := mkDocument (js "d2") (Some [mkChunk (js "c") 0.5%float]) None in
  SupermemoryClient_search
    (fun _ => Returned (mkHttp true 200 [] (mkResponse (Some [d1; d2]))))
    (mkSearchParams (js "query") None None None None)
  = Returned [ mkResult (js "d1") (js "b") 0.25%float None;
               mkResult (js "d1") (js "a") 0.75%float None;
               mkResult (js "d2") (js "c") 0.5%float None ].
Proof.
  intros d1 d2.
  apply (proj1 (search_keeps_remote_order
                  (fun _ => Returned (mkHttp true 200 []
                                        (mkResponse (Some [d1; d2]))))
                  (mkSearchParams (js "query") None None None None)
                  (mkHttp true 200 [] (mkResponse (Some [d1; d2])))
                  eq_refl eq_refl)).
Defined.

End Flattening.

(** ** The handlers *)

Section HandlerProperties.

Variable toFixed0 : float -> jsstring.

Lemma short_check s n :
  0 < n ->
  negb (truthy (VString s)) || (length s <? n) = negb (n <=? length s).
Proof.
  intros Hn. destruct s as [|c t]; simpl.
  - destruct n; [lia|reflexivity].
  - destruct (Nat.leb_spec n (S (length t))), (Nat.ltb_spec (S (length t)) n);
      simpl; try reflexivity; lia.
Qed.

Lemma supermemory_search_dispatch ctx sdk st params :
  dispatched (fst (createSupermemorySearchTool toFixed0 ctx sdk st params))
  = match fst (sanitizeQuery sdk st (VString (query params))) with
    | Returned s => tool_request ctx params s
    | Threw _ => None
    end.
Proof.
  unfold createSupermemorySearchTool, tool_request.
  destruct (sanitizeQuery sdk st (VString (query params))) as [[s|err] st'];
    [|reflexivity].
  rewrite short_check by lia. cbn [fst].
  destruct (2 <=? length s); reflexivity.
Qed.

Lemma memory_search_dispatch ctx sdk st params :
  dispatched (fst (createMemorySearchTool toFixed0 ctx sdk st params))
  = match fst (sanitizeQuery sdk st (VString (query params))) with
    | Returned s => tool_request ctx params s
    | Threw _ => None
    end.
Proof.
  unfold createMemorySearchTool, tool_request.
  destruct (sanitizeQuery sdk st (VString (query params))) as [[s|err] st'];
    [|reflexivity].
  rewrite short_check by lia. cbn [fst].
  destruct (2 <=? length s); reflexivity.
Qed.

Lemma hook_dispatch ctx sdk st event hookCtx :
  dispatched (fst (Hooks.createBeforeAgentStartHandler ctx sdk st event hookCtx))
  = if Hooks.client_configured ctx
       && orElse (autoRecall (Hooks.config ctx)) false
       && negb (modeIsOff (Hooks.config ctx))
       && (5 <=? length (Hooks.prompt event))
    then
      match fst (sanitizeQuery sdk st (VString (Hooks.prompt event))) with
      | Returned s =>
          if 3 <=? length s then Some (hook_request ctx hookCtx s) else None
      | Threw _ => None
      end
    else None.
Proof.
  unfold Hooks.createBeforeAgentStartHandler.
  destruct (Hooks.client_configured ctx); [|reflexivity].
  destruct (orElse (autoRecall (Hooks.config ctx)) false); [|reflexivity].
  destruct (modeIsOff (Hooks.config ctx)); [reflexivity|].
  rewrite short_check by lia.
  destruct (5 <=? length (Hooks.prompt event)); [|reflexivity].
  cbn [negb orb andb].
  destruct (sanitizeQuery sdk st (VString (Hooks.prompt event)))
    as [[s|err] st']; [|reflexivity].
  rewrite short_check by lia. cbn [fst].
  destruct (3 <=? length s); reflexivity.
Qed.

(** C5, as the code has it.  Whenever a handler sends a query to the
    remote search, the query is what [sanitizeQuery] returned for the
    inbound text.  The tools of the current tools.ts sanitize first and
    check only the sanitized query (at least 2 code units); the
    before_agent_start handler first rejects a raw prompt that is empty or
    shorter than 5 code units, then sanitizes, then rejects a sanitized
    query shorter than 3. *)
Theorem handlers_dispatch_sanitized_query sdk st
    (hctx : Hooks.HookContext) event hookCtx (tctx : ToolContext) params p :
  (dispatched
     (fst (Hooks.createBeforeAgentStartHandler hctx sdk st event hookCtx))
   = Some p
   <-> Hooks.client_configured hctx = true
       /\ orElse (autoRecall (Hooks.config hctx)) false = true
       /\ modeIsOff (Hooks.config hctx) = false
       /\ 5 <= length (Hooks.prompt event)
       /\ fst (sanitizeQuery sdk st (VString (Hooks.prompt event)))
          = Returned (q p)
       /\ 3 <= length (q p)
       /\ p = hook_request hctx hookCtx (q p))
  /\ (dispatched (fst (createSupermemorySearchTool toFixed0 tctx sdk st params))
      = Some p
      <-> fst (sanitizeQuery sdk st (VString (query params))) = Returned (q p)
          /\ tool_request tctx params (q p) = Some p)
  /\ (dispatched (fst (createMemorySearchTool toFixed0 tctx sdk st params))
      = Some p
      <-> fst (sanitizeQuery sdk st (VString (query params))) = Returned (q p)
          /\ tool_request tctx params (q p) = Some p).
Proof.
  assert (T : forall s, tool_request tctx params s = Some p -> s = q p).
  { intros s. unfold tool_request. destruct (2 <=? length s); [|discriminate].
    intros H. injection H as <-. reflexivity. }
  split.
  - rewrite hook_dispatch. split.
    + destruct (Hooks.client_configured hctx); [|discriminate].
      destruct (orElse (autoRecall (Hooks.config hctx)) false); [|discriminate].
      destruct (modeIsOff (Hooks.config hctx)); [discriminate|].
      cbn [andb negb].
      destruct (Nat.leb_spec 5 (length (Hooks.prompt event))) as [H5|H5];
        [|discriminate].
      destruct (fst (sanitizeQuery sdk st (VString (Hooks.prompt event))))
        as [s|err]; [|discriminate].
      destruct (Nat.leb_spec 3 (length s)) as [H3|H3]; [|discriminate].
      intros H. injection H as <-. cbn [q hook_request]. repeat split; auto.
    + intros (-> & -> & -> & H5 & -> & H3 & Hp).
      apply Nat.leb_le in H5, H3. cbn [andb negb]. rewrite H5, H3.
      congruence.
  - rewrite supermemory_search_dispatch, memory_search_dispatch.
    destruct (fst (sanitizeQuery sdk st (VString (query params)))) as [s|err].
    + split; (split; [intros H; pose proof (T s H); subst s; auto
                     |intros (H1 & H2); injection H1 as ->; exact H2]).
    + split; (split; [discriminate|intros (H1 & _); discriminate]).
Qed.

End HandlerProperties.

Section ToolTag.

Variable toFixed0 : float -> jsstring.

Lemma tool_request_tag ctx params s p :
  tool_request ctx params s = Some p ->
  search_containerTag p
  = resolveContainerTag (tool_config ctx) (Some (tool_agentId ctx)) None.
Proof.
  unfold tool_request. destruct (2 <=? length s); [|discriminate].
  intros H. injection H as <-. reflexivity.
Qed.

Lemma resolve_without_sessionKey config agentId :
  resolveContainerTag config agentId None
  = spec_agent_tag (containerTag config) agentId.
Proof.
  destruct (isSessionScope config) eqn:E.
  - apply isSessionScope_true in E.
    rewrite (resolve_session_eq config agentId None E). reflexivity.
  - apply resolve_default_eq. intros H.
    apply isSessionScope_true in H. congruence.
Qed.

(** C10, as the code has it.  The search tools resolve the container tag
    from the agent id captured at registration and no session key.
    Whatever the scope of the configuration, ["session"] included, the tag
    a tool sends is the one the agent scope gives for that agent id,
    whatever session key a caller of the agent scope would pass:
    [prefix + agentId] when the agent id is not empty, else the bare
    [containerTag]. *)
Theorem tools_search_agent_level_tag ctx sdk st params p sessionKey :
  dispatched (fst (createSupermemorySearchTool toFixed0 ctx sdk st params))
  = Some p
  \/ dispatched (fst (createMemorySearchTool toFixed0 ctx sdk st params))
     = Some p ->
  search_containerTag p
  = resolveContainerTag (withScope (tool_config ctx) (Some (js "agent")))
                        (Some (tool_agentId ctx)) sessionKey
  /\ search_containerTag p
     = spec_agent_tag (containerTag (tool_config ctx))
                      (Some (tool_agentId ctx))
  /\ (tool_agentId ctx <> [] ->
      search_containerTag p
      = Some (spec_prefix (containerTag (tool_config ctx))
                ++ tool_agentId ctx)).
Proof.
  intros H.
  assert (T : search_containerTag p
              = spec_agent_tag (containerTag (tool_config ctx))
                               (Some (tool_agentId ctx))).
  { rewrite <- resolve_without_sessionKey.
    destruct H as [H|H];
      [rewrite supermemory_search_dispatch in H
      |rewrite memory_search_dispatch in H];
      destruct (fst (sanitizeQuery sdk st (VString (query params))))
        as [s|err]; try discriminate;
      apply (tool_request_tag _ _ _ _ H). }
  split; [|split].
  - rewrite T.
    rewrite (resolve_default_eq (withScope (tool_config ctx) (Some (js "agent"))))
      by discriminate.
    reflexivity.
  - exact T.
  - intros Hne. rewrite T. unfold spec_agent_tag.
    destruct (tool_agentId ctx); [contradiction|reflexivity].
Qed.

End ToolTag.

Lemma handlers_dispatch_sanitized_query_witness :
  Hooks.client_configured (Hooks.mkHookContext true sample_config) = true
  /\ orElse (autoRecall sample_config) false = true
  /\ modeIsOff sample_config = false
  /\ 5 <= length (js "[Slack bob] what do I like")
  /\ fst (sanitizeQuery RequireThrows initial_state
            (VString (js "[Slack bob] what do I like")))
     = Returned (js "what do I like")
  /\ 3 <= length (js "what do I like")
  /\ sample_request 5%float (js "myns:agent:main:slack:dm:7")
     = hook_request (Hooks.mkHookContext true sample_config)
                    (Hooks.mkHookCtx (Some (js "main"))
                                     (Some (js "agent:main:slack:dm:7")))
                    (js "what do I like").
Proof.
  apply (proj1 (proj1 (handlers_dispatch_sanitized_query (fun _ => [])
                  RequireThrows initial_state
                  (Hooks.mkHookContext true sample_config)
                  (Hooks.mkEvent (js "[Slack bob] what do I like"))
                  (Hooks.mkHookCtx (Some (js "main"))
                                   (Some (js "agent:main:slack:dm:7")))
                  (mkToolContext sample_config (js "main"))
                  (mkToolParams (js "[Slack bob] what do I like") None)
                  (sample_request 5%float (js "myns:agent:main:slack:dm:7"))))).
  vm_compute. reflexivity.
Defined.

(** C5 fails as stated: the hook checks the size of the raw prompt before
    it calls the sanitizer (a prompt of four code units is dropped with the
    module state untouched, though its sanitized form would pass the later
    check), and the tools of src/tools.ts send the query as they received
    it. *)
Lemma hook_checks_raw_prompt_first :
  let handled :=
    Hooks.createBeforeAgentStartHandler
      (Hooks.mkHookContext true sample_config) RequireThrows initial_state
      (Hooks.mkEvent (js "abcd"))
      (Hooks.mkHookCtx (Some (js "main")) None) in
  (dispatched (fst handled) = None
   /\ snd handled = initial_state
   /\ sanitizeQuery RequireThrows initial_state (VString (js "abcd"))
      = (Returned (js "abcd"), set_impl initial_state ImplNull)
   /\ set_impl initial_state ImplNull <> initial_state
   /\ 3 <= length (js "abcd"))
  /\ option_map q
       (dispatched
          (legacy_createSupermemorySearchTool (fun _ => []) sample_config
             (mkToolParams (js "[Slack bob] what do I like") None)))
     = Some (js "[Slack bob] what do I like").
Proof.
  repeat split; try (vm_compute; reflexivity); try discriminate.
  vm_compute. lia.
Qed.

Lemma tools_search_agent_level_tag_witness :
  Some (js "myns:main")
  = resolveContainerTag (withScope sample_config (Some (js "agent")))
                        (Some (js "main"))
                        (Some (js "agent:main:slack:dm:7"))
  /\ Some (js "myns:main")
     = spec_agent_tag (Some (js "myns")) (Some (js "main"))
  /\ (js "main" <> [] -> Some (js "myns:main") = Some (js "myns:main")).
Proof.
  apply (tools_search_agent_level_tag (fun _ => [])
           (mkToolContext sample_config (js "main"))
           RequireThrows initial_state
           (mkToolParams (js "[Slack bob] what do I like") None)
           (sample_request 5%float (js "myns:main"))
           (Some (js "agent:main:slack:dm:7"))).
  left. vm_compute. reflexivity.
Defined.

(** C10 fails as stated only for an empty agent id: the tag is then the
    bare [containerTag], not [prefix + agentId]. *)
Lemma tool_tag_with_empty_agentId :
  let ctx := mkToolContext sample_config [] in
  option_map search_containerTag
    (dispatched
       (fst (createSupermemorySearchTool (fun _ => []) ctx RequireThrows
               initial_state (mkToolParams (js "what do I like") None))))
  = Some (Some (js "myns"))
  /\ Some (js "myns") <> Some (prefix sample_config ++ tool_agentId ctx).
Proof.
  split; [vm_compute; reflexivity|].
  intros H. vm_compute in H. discriminate H.
Qed.

(** * Further properties *)

(** ** The sanitizer: state, shape of the output, untouched text *)

Section SanitizerFurther.

(** X1. The lookup of the host's [stripEnvelope] happens at most once: after
    a call of [getStripEnvelope] the slot is no longer undefined, and every
    later call gives the same implementation and leaves the state as it is,
    whatever [require] would give by then; a failed lookup stays failed. *)
Theorem getStripEnvelope_cached sdk sdk' st :
  stripEnvelopeImpl (snd (getStripEnvelope sdk st)) <> ImplUndefined
  /\ getStripEnvelope sdk' (snd (getStripEnvelope sdk st))
     = (fst (getStripEnvelope sdk st), snd (getStripEnvelope sdk st)).
Proof.
  unfold getStripEnvelope.
  destruct st as [slot ts us js0]; cbn [stripEnvelopeImpl].
  destruct slot as [| |f]; cbn [stripEnvelopeImpl fst snd].
  - destruct sdk as [| |f]; cbn; split; congruence.
  - split; [discriminate|reflexivity].
  - split; [discriminate|reflexivity].
Qed.

Lemma anchored_later r : forall s c,
  search (Seq Start r) (Some c) s = None.
Proof.
  induction s as [|d t IH]; intros c; simpl.
  - reflexivity.
  - unfold match_at. simpl. rewrite IH. reflexivity.
Qed.

Lemma anchored_offset r s off len :
  search (Seq Start r) None s = Some (off, len) -> off = 0.
Proof.
  destruct s as [|c t]; simpl.
  - destruct (match_at _ _ _); [|discriminate]. congruence.
  - destruct (match_at _ _ _); [congruence|].
    rewrite anchored_later. discriminate.
Qed.

Lemma channel_anchored :
  exists r, source CHANNEL_METADATA_PATTERN = Seq Start r.
Proof. eexists. reflexivity. Qed.

Lemma envelope_strip_suffix text :
  suffix (replace_first (source CHANNEL_METADATA_PATTERN) [] text) text.
Proof.
  destruct channel_anchored as (r & E). rewrite E. unfold replace_first.
  destruct (search (Seq Start r) None text) as [[off len]|] eqn:S.
  - apply anchored_offset in S. subst off.
    exists (firstn len text). cbn [firstn app Nat.add].
    symmetry. apply firstn_skipn.
  - exists []. reflexivity.
Qed.

(** X2. The fallback envelope strip removes a prefix and nothing else: what
    it returns is the text after some leading code units, and the text
    itself when the pattern does not match. *)
Theorem stripChannelEnvelope_removes_prefix sdk st text :
  fallback sdk st ->
  exists out,
    fst (stripChannelEnvelope sdk st text) = Returned out
    /\ suffix out text
    /\ (found (source CHANNEL_METADATA_PATTERN) text = false -> out = text).
Proof.
  intros Hf. unfold stripChannelEnvelope.
  destruct (fallback_step sdk st Hf) as (slot & -> & _).
  exists (replace_first (source CHANNEL_METADATA_PATTERN) [] text).
  split; [reflexivity|]. split.
  - apply envelope_strip_suffix.
  - apply replace_first_none.
Qed.

Lemma stripChannelEnvelope_removes_prefix_witness :
  exists out,
    fst (stripChannelEnvelope RequireThrows initial_state
           (js "[Signal +1234567890] reminder [Signal x] about"))
    = Returned out
    /\ suffix out (js "[Signal +1234567890] reminder [Signal x] about")
    /\ (found (source CHANNEL_METADATA_PATTERN)
              (js "[Signal +1234567890] reminder [Signal x] about") = false
        -> out = js "[Signal +1234567890] reminder [Signal x] about").
Proof.
  apply (stripChannelEnvelope_removes_prefix RequireThrows initial_state).
  reflexivity.
Defined.

Lemma wsrun_app_word a b : a <> [] -> wsrun a = 0 -> wsrun (a ++ b) = 0.
Proof.
  destruct a as [|c t]; [congruence|]. simpl.
  destruct (isSpace c); [discriminate|reflexivity].
Qed.

Lemma trimEnd_no_trailing : forall s, wsrun (rev (trimEnd s)) = 0.
Proof.
  induction s as [|c t IH]; [reflexivity|]. simpl.
  destruct (trimEnd t) as [|d t'] eqn:E.
  - destruct (isSpace c) eqn:Hc; [reflexivity|]. simpl. rewrite Hc. reflexivity.
  - change (rev (c :: d :: t')) with (rev (d :: t') ++ [c]).
    apply wsrun_app_word; [|exact IH].
    simpl. intros H. apply app_eq_nil in H. destruct H; discriminate.
Qed.

Lemma trim_trimmed s : trimmed (trim s).
Proof.
  unfold trimmed, trim. split.
  - apply wsrun_trimEnd, wsrun_trimStart.
  - apply trimEnd_no_trailing.
Qed.

Lemma normalize_single_spaced s : single_spaced false (normalize s).
Proof.
  rewrite normalize_collapse. unfold trim. apply trimEnd_single_spaced.
  apply (trimStart_single_spaced _ false). apply collapse_single_spaced.
Qed.

Lemma normalize_trimmed s : trimmed (normalize s).
Proof. rewrite normalize_collapse. apply trim_trimmed. Qed.

(** X3. Whatever the argument, the state and the envelope stripper in use,
    a string returned by [sanitizeQuery] has no white space at either end,
    and its only white space is single U+0020 spaces. *)
Theorem sanitizeQuery_output_normal sdk st query out st' :
  sanitizeQuery sdk st query = (Returned out, st') ->
  single_spaced false out /\ trimmed out.
Proof.
  unfold sanitizeQuery.
  destruct (negb (truthy query) || negb (isString query)).
  { intros H. injection H as <- _. split; [exact I|split; reflexivity]. }
  destruct query as [| |b|t|s|];
    try (intros H; injection H as <- _; split; [exact I|split; reflexivity]).
  destruct (stripChannelEnvelope sdk st s) as [[s1|err] st1]; [|discriminate].
  destruct (replace_each (TIMESTAMP_PATTERNS st1) s1) as [s2 ts].
  destruct (replace_each (USER_ID_PATTERNS st1) s2) as [s3 us].
  destruct (replace_each (JSON_ARTIFACT_PATTERNS st1) s3) as [s4 js0].
  intros H. injection H as <- _.
  split; [apply normalize_single_spaced|apply normalize_trimmed].
Qed.

Lemma sanitizeQuery_output_normal_witness :
  single_spaced false (js "HELLO world") /\ trimmed (js "HELLO world").
Proof.
  apply (sanitizeQuery_output_normal
           (SdkWithStripEnvelope (fun t => Returned (js "  HELLO " ++ t)))
           initial_state (VString (js "  world   1700000000  "))
           (js "HELLO world")
           (snd (sanitizeQuery
                   (SdkWithStripEnvelope (fun t => Returned (js "  HELLO " ++ t)))
                   initial_state (VString (js "  world   1700000000  "))))).
  vm_compute. reflexivity.
Defined.

(** X4. With the fallback in use [sanitizeQuery] never returns more code
    units than it was given. *)
Theorem sanitizeQuery_never_longer sdk st q :
  fallback sdk st -> loaded st ->
  exists out,
    fst (sanitizeQuery sdk st (VString q)) = Returned out
    /\ length out <= length q.
Proof.
  intros Hf Hl.
  destruct (sanitizeQuery_fallback sdk st q Hf Hl) as (st' & E & _ & _).
  exists (sanitized q). rewrite E. split; [reflexivity|].
  destruct (anyPatternMatches q) eqn:A.
  - pose proof (sanitized_shorter q A). lia.
  - rewrite (sanitized_clean q A). apply normalize_length.
Qed.

Lemma sanitizeQuery_never_longer_witness :
  exists out,
    fst (sanitizeQuery RequireThrows initial_state
           (VString (js "at 1700000000 we met")))
    = Returned out
    /\ length out <= length (js "at 1700000000 we met").
Proof.
  apply (sanitizeQuery_never_longer RequireThrows initial_state).
  - reflexivity.
  - exact loaded_initial.
Defined.

(** X5. [needsSanitization] predicts [sanitizeQuery] (fallback in use):
    when it answers false the query comes back with its runs of white space
    collapsed and its ends trimmed, and nothing else changed, so a query
    that is already in that form comes back as it is; when it answers true
    the result is strictly shorter than the query. *)
Theorem needsSanitization_predicts sdk st q :
  fallback sdk st -> loaded st ->
  (fst (needsSanitization st (VString q)) = false ->
   fst (sanitizeQuery sdk st (VString q)) = Returned (trim (collapse false q))
   /\ (single_spaced false q -> trimmed q ->
       fst (sanitizeQuery sdk st (VString q)) = Returned q))
  /\ (fst (needsSanitization st (VString q)) = true ->
      exists out,
        fst (sanitizeQuery sdk st (VString q)) = Returned out
        /\ length out < length q).
Proof.
  intros Hf Hl.
  destruct (sanitizeQuery_fallback sdk st q Hf Hl) as (st' & E & _ & _).
  destruct (needsSanitization_pure st q Hl) as (P & _).
  rewrite E, P. cbn [fst]. split.
  - intros A. rewrite (sanitized_clean q A), normalize_collapse.
    split; [reflexivity|].
    intros Hs (Ht1 & Ht2).
    rewrite (single_spaced_collapse q false Hs).
    f_equal. unfold trim. rewrite (trimStart_at_word q Ht1).
    clear - Ht2. rewrite <- (rev_involutive q) at 1 2.
    destruct (rev q) as [|c t] eqn:R; [reflexivity|].
    simpl in Ht2. destruct (isSpace c) eqn:Hc; [discriminate|].
    cbn [rev]. clear - Hc. induction (rev t) as [|d l IH]; simpl.
    + rewrite Hc. reflexivity.
    + rewrite IH. destruct l; reflexivity.
  - intros A. exists (sanitized q). split; [reflexivity|].
    apply sanitized_shorter. exact A.
Qed.

Lemma needsSanitization_predicts_witness :
  (fst (needsSanitization initial_state (VString (js "find my user preferences")))
   = false ->
   fst (sanitizeQuery RequireThrows initial_state
          (VString (js "find my user preferences")))
   = Returned (trim (collapse false (js "find my user preferences")))
   /\ (single_spaced false (js "find my user preferences") ->
       trimmed (js "find my user preferences") ->
       fst (sanitizeQuery RequireThrows initial_state
              (VString (js "find my user preferences")))
       = Returned (js "find my user preferences")))
  /\ (fst (needsSanitization initial_state (VString (js "find my user preferences")))
      = true ->
      exists out,
        fst (sanitizeQuery RequireThrows initial_state
               (VString (js "find my user preferences")))
        = Returned out
        /\ length out < length (js "find my user preferences")).
Proof.
  apply (needsSanitization_predicts RequireThrows initial_state).
  - reflexivity.
  - exact loaded_initial.
Defined.

End SanitizerFurther.

Section SanitizerState.

Lemma getStripEnvelope_state sdk st :
  exists slot, snd (getStripEnvelope sdk st) = set_impl st slot
               /\ (stripEnvelopeImpl st <> ImplUndefined ->
                   slot = stripEnvelopeImpl st).
Proof.
  unfold getStripEnvelope. destruct st as [slot ts us js0].
  cbn [stripEnvelopeImpl]. destruct slot as [| |f].
  - destruct sdk as [| |f]; eexists; (split; [reflexivity|congruence]).
  - exists ImplNull. split; [reflexivity|reflexivity].
  - exists (ImplFunction f). split; reflexivity.
Qed.

Lemma sanitizeQuery_state sdk st query :
  loaded st ->
  loaded (snd (sanitizeQuery sdk st query))
  /\ (stripEnvelopeImpl st <> ImplUndefined ->
      stripEnvelopeImpl (snd (sanitizeQuery sdk st query))
      = stripEnvelopeImpl st).
Proof.
  intros Hl. unfold sanitizeQuery.
  destruct (negb (truthy query) || negb (isString query)); [auto|].
  destruct query as [| |b|t|s|]; auto.
  unfold stripChannelEnvelope.
  destruct (getStripEnvelope_state sdk st) as (slot & E & Hs).
  destruct (getStripEnvelope sdk st) as [impl st1]. cbn [snd] in E. subst st1.
  destruct Hl as (H1 & H2 & H3).
  assert (Hl1 : loaded (set_impl st slot)) by (repeat split; assumption).
  destruct impl as [f|].
  - destruct (f s) as [s1|err]; cbn [snd]; [|split; [exact Hl1|exact Hs]].
    cbn [TIMESTAMP_PATTERNS USER_ID_PATTERNS JSON_ARTIFACT_PATTERNS set_impl
         stripEnvelopeImpl].
    rewrite (replace_each_objects _ _ _ H1), (replace_each_objects _ _ _ H2),
      (replace_each_objects _ _ _ H3).
    cbn [snd stripEnvelopeImpl].
    split; [repeat split; apply objects_of_fresh|exact Hs].
  - cbn [TIMESTAMP_PATTERNS USER_ID_PATTERNS JSON_ARTIFACT_PATTERNS set_impl
         stripEnvelopeImpl].
    rewrite (replace_each_objects _ _ _ H1), (replace_each_objects _ _ _ H2),
      (replace_each_objects _ _ _ H3).
    cbn [snd stripEnvelopeImpl].
    split; [repeat split; apply objects_of_fresh|exact Hs].
Qed.

(** X6. [sanitizeQuery] keeps the module's pattern lists and, once the
    lookup of [stripEnvelope] is done, the cached implementation, whatever
    its argument and whether the stripper returns or throws; so a call of
    [sanitizeQuery] between two calls of [needsSanitization] does not change
    what [needsSanitization] answers. *)
Theorem sanitizeQuery_keeps_state sdk st query q :
  loaded st ->
  loaded (snd (sanitizeQuery sdk st query))
  /\ (stripEnvelopeImpl st <> ImplUndefined ->
      stripEnvelopeImpl (snd (sanitizeQuery sdk st query))
      = stripEnvelopeImpl st)
  /\ fst (needsSanitization (snd (sanitizeQuery sdk st query)) (VString q))
     = fst (needsSanitization st (VString q)).
Proof.
  intros Hl. destruct (sanitizeQuery_state sdk st query Hl) as (L & S).
  split; [exact L|]. split; [exact S|].
  rewrite (proj1 (needsSanitization_pure _ q L)).
  rewrite (proj1 (needsSanitization_pure _ q Hl)). reflexivity.
Qed.

Lemma sanitizeQuery_keeps_state_witness :
  let st1 := snd (needsSanitization initial_state (VString (js "id: 5 id: 6"))) in
  let sdk := SdkWithStripEnvelope (fun _ => Threw (js "boom")) in
  loaded (snd (sanitizeQuery sdk st1 (VString (js "[Slack a] id: 7"))))
  /\ (stripEnvelopeImpl st1 <> ImplUndefined ->
      stripEnvelopeImpl (snd (sanitizeQuery sdk st1 (VString (js "[Slack a] id: 7"))))
      = stripEnvelopeImpl st1)
  /\ fst (needsSanitization
            (snd (sanitizeQuery sdk st1 (VString (js "[Slack a] id: 7"))))
            (VString (js "id: 5")))
     = fst (needsSanitization st1 (VString (js "id: 5"))).
Proof.
  intros st1 sdk.
  apply (sanitizeQuery_keeps_state sdk st1 (VString (js "[Slack a] id: 7"))
           (js "id: 5")).
  apply needsSanitization_pure. exact loaded_initial.
Defined.

End SanitizerState.

Section NothingInvented.

Lemma replace_from_drawn r repl : forall s prev skip c,
  In c (replace_from r repl prev s skip) -> In c repl \/ In c s.
Proof.
  induction s as [|d t IH]; intros prev skip c H.
  - destruct skip; simpl in H; [|contradiction].
    destruct (match_at r prev []) as [[|n]|]; simpl in H;
      try rewrite app_nil_r in H; auto.
  - destruct skip as [|n]; simpl in H.
    + destruct (match_at r prev (d :: t)) as [[|n]|].
      * apply in_app_or in H. destruct H as [H|[H|H]]; auto.
        -- right. left. exact H.
        -- apply IH in H. destruct H; auto. right. right. assumption.
      * apply in_app_or in H. destruct H as [H|H]; auto.
        apply IH in H. destruct H; auto. right. right. assumption.
      * destruct H as [H|H]; [right; left; exact H|].
        apply IH in H. destruct H; auto. right. right. assumption.
    + apply IH in H. destruct H; auto. right. right. assumption.
Qed.

Lemma strip_all_drawn : forall srcs s, drawn_from s (strip_all srcs s).
Proof.
  induction srcs as [|r srcs IH]; intros s c H; [right; exact H|].
  change (strip_all (r :: srcs) s)
    with (strip_all srcs (replace_all r SPACE s)) in H.
  apply IH in H. destruct H as [H|H]; [left; exact H|].
  apply replace_from_drawn in H. destruct H as [[H|[]]|H]; auto.
Qed.

Lemma collapse_drawn : forall s b, drawn_from s (collapse b s).
Proof.
  induction s as [|d t IH]; intros b c H; simpl in H; [contradiction|].
  destruct (isSpace d).
  - destruct b.
    + apply IH in H. destruct H; auto. right. right. assumption.
    + destruct H as [H|H]; [left; auto|].
      apply IH in H. destruct H; auto. right. right. assumption.
  - destruct H as [H|H]; [right; left; exact H|].
    apply IH in H. destruct H; auto. right. right. assumption.
Qed.

Lemma trimStart_in s c : In c (trimStart s) -> In c s.
Proof.
  induction s as [|d t IH]; simpl; [auto|].
  destruct (isSpace d); [right; auto|auto].
Qed.

Lemma trimEnd_in : forall s c, In c (trimEnd s) -> In c s.
Proof.
  induction s as [|d t IH]; intros c; simpl; [auto|].
  destruct (trimEnd t) as [|e t'].
  - destruct (isSpace d); simpl; tauto.
  - intros [H|H]; [left; exact H|right; apply IH; exact H].
Qed.

Lemma suffix_in s' s c : suffix s' s -> In c s' -> In c s.
Proof.
  intros (p & ->) H. apply in_or_app. right. exact H.
Qed.

(** X7. With the fallback in use [sanitizeQuery] invents nothing: every
    code unit of its result is a U+0020 space or a code unit of the
    query. *)
Theorem sanitizeQuery_invents_nothing sdk st q :
  fallback sdk st -> loaded st ->
  exists out,
    fst (sanitizeQuery sdk st (VString q)) = Returned out
    /\ drawn_from q out.
Proof.
  intros Hf Hl.
  destruct (sanitizeQuery_fallback sdk st q Hf Hl) as (st' & E & _ & _).
  exists (sanitized q). rewrite E. split; [reflexivity|].
  intros c H. unfold sanitized in H. rewrite normalize_collapse in H.
  unfold trim in H. apply trimEnd_in, trimStart_in in H.
  apply collapse_drawn in H. destruct H as [H|H]; [left; exact H|].
  apply strip_all_drawn in H. destruct H as [H|H]; [left; exact H|].
  apply strip_all_drawn in H. destruct H as [H|H]; [left; exact H|].
  apply strip_all_drawn in H. destruct H as [H|H]; [left; exact H|].
  right. apply (suffix_in _ _ _ (envelope_strip_suffix q) H).
Qed.

Lemma sanitizeQuery_invents_nothing_witness :
  exists out,
    fst (sanitizeQuery RequireThrows initial_state
           (VString (js "[Discord u#1 id:9] search 2026-01-27T04:03:00Z now")))
    = Returned out
    /\ drawn_from (js "[Discord u#1 id:9] search 2026-01-27T04:03:00Z now") out.
Proof.
  apply (sanitizeQuery_invents_nothing RequireThrows initial_state).
  - reflexivity.
  - exact loaded_initial.
Defined.

End NothingInvented.

(** ** Plain text passes *)

Section PlainText.

Lemma suffix_refl s : suffix s s.
Proof. exists []. reflexivity. Qed.

Lemma suffix_cons c t s' : suffix s' t -> suffix s' (c :: t).
Proof. intros (p & ->). exists (c :: p). reflexivity. Qed.

Lemma suffix_trans a b c : suffix a b -> suffix b c -> suffix a c.
Proof.
  intros (p & ->) (q & ->). exists (q ++ p). rewrite app_assoc. reflexivity.
Qed.

Lemma suffix_Forall (P : codeunit -> Prop) s' s :
  suffix s' s -> Forall P s -> Forall P s'.
Proof.
  intros (p & ->) H. apply Forall_app in H. apply H.
Qed.

(** A matcher consults its continuation only on what is left of its
    input. *)
Lemma star_iter_on_suffixes
    (m : option codeunit -> jsstring -> cont -> option jsstring) :
  (forall prev s k1 k2,
     (forall prev' s', suffix s' s -> k1 prev' s' = k2 prev' s') ->
     m prev s k1 = m prev s k2) ->
  forall fuel prev s k1 k2,
    (forall prev' s', suffix s' s -> k1 prev' s' = k2 prev' s') ->
    star_iter m k1 fuel prev s = star_iter m k2 fuel prev s.
Proof.
  intros Hm. induction fuel as [|fuel IH]; intros prev s k1 k2 Hk; simpl.
  - apply Hk, suffix_refl.
  - rewrite (Hk prev s (suffix_refl s)).
    match goal with
    | |- match ?a with _ => _ end = match ?b with _ => _ end =>
        assert (E : a = b); [|rewrite E; reflexivity]
    end.
    apply Hm. intros p' s' Hs.
    destruct (length s' <? length s); [|reflexivity].
    apply IH. intros p2 s2 H2. apply Hk. exact (suffix_trans _ _ _ H2 Hs).
Qed.

Lemma matcher_on_suffixes r : forall prev s k1 k2,
  (forall prev' s', suffix s' s -> k1 prev' s' = k2 prev' s') ->
  matcher r prev s k1 = matcher r prev s k2.
Proof.
  induction r as [|p|a IHa b IHb|a IHa b IHb|a IHa| |];
    intros prev s k1 k2 Hk; simpl.
  - apply Hk, suffix_refl.
  - destruct s as [|c t]; [reflexivity|].
    destruct (p c); [|reflexivity]. apply Hk, suffix_cons, suffix_refl.
  - apply IHa. intros p' s' Hs. apply IHb.
    intros p2 s2 H2. apply Hk. exact (suffix_trans _ _ _ H2 Hs).
  - rewrite (IHa prev s k1 k2 Hk), (IHb prev s k1 k2 Hk). reflexivity.
  - apply star_iter_on_suffixes; assumption.
  - destruct prev; [reflexivity|]. apply Hk, suffix_refl.
  - destruct (xorb _ _); [|reflexivity]. apply Hk, suffix_refl.
Qed.

Lemma dead_matcher ok r :
  dead ok r ->
  forall prev s k, Forall (fun c => ok c = true) s -> matcher r prev s k = None.
Proof.
  induction 1 as [p Hp|a b Ha IHa|a b Hb IHb|a b Ha IHa Hb IHb];
    intros prev s k Hs; simpl.
  - destruct s as [|c t]; [reflexivity|].
    inversion Hs as [|? ? Hc Ht]; subst. rewrite (Hp c Hc). reflexivity.
  - apply IHa. exact Hs.
  - rewrite (matcher_on_suffixes a prev s _ (fun _ _ => None)).
    + apply matcher_none. reflexivity.
    + intros p' s' Hsuf. apply IHb. exact (suffix_Forall _ _ _ Hsuf Hs).
  - rewrite (IHa prev s k Hs). apply IHb. exact Hs.
Qed.

Lemma dead_search ok r :
  dead ok r ->
  forall s prev, Forall (fun c => ok c = true) s -> search r prev s = None.
Proof.
  intros Hd. induction s as [|c t IH]; intros prev Hs; simpl;
    unfold match_at; rewrite (dead_matcher ok r Hd prev _ _ Hs).
  - reflexivity.
  - inversion Hs; subst. rewrite IH by assumption. reflexivity.
Qed.

Lemma plain_facts c :
  plain c = true ->
  isDigit c = false /\ c <> 91%N /\ c <> 123%N /\ c <> 58%N.
Proof.
  unfold plain. intros H. apply negb_true_iff in H.
  apply orb_false_iff in H. destruct H as (H & H4).
  apply orb_false_iff in H. destruct H as (H & H3).
  apply orb_false_iff in H. destruct H as (H1 & H2).
  repeat split; try assumption; apply N.eqb_neq; assumption.
Qed.

Lemma dead_digit : dead plain digit.
Proof. apply dead_class. intros c H. apply (plain_facts c H). Qed.

Lemma dead_chr n :
  n = 91%N \/ n = 123%N \/ n = 58%N -> dead plain (chr n).
Proof.
  intros Hn. apply dead_class. intros c H. apply N.eqb_neq.
  destruct (plain_facts c H) as (_ & A & B & C).
  destruct Hn as [ -> | [ -> | -> ] ]; congruence.
Qed.

Lemma dead_chr_i n :
  n = 91%N \/ n = 58%N -> dead plain (chr_i n).
Proof.
  intros Hn. apply dead_class. intros c H. apply N.eqb_neq.
  destruct (plain_facts c H) as (_ & A & _ & C).
  assert (Hc : canonicalize n = n)
    by (destruct Hn as [ -> | -> ]; reflexivity).
  rewrite Hc. unfold canonicalize, isLower.
  destruct (N.leb_spec 97 c), (N.leb_spec c 122); cbn [andb];
    destruct Hn as [ -> | -> ]; lia.
Qed.

Ltac kill :=
  first [ exact dead_digit
        | apply dead_chr; auto; fail
        | apply dead_chr_i; auto; fail
        | apply dead_seq_l; kill
        | apply dead_seq_r; kill
        | apply dead_alt; kill ].

Lemma dead_patterns :
  dead plain (source CHANNEL_METADATA_PATTERN)
  /\ Forall (dead plain) TIMESTAMP_SOURCES
  /\ Forall (dead plain) USER_ID_SOURCES
  /\ Forall (dead plain) JSON_ARTIFACT_SOURCES.
Proof.
  split; [cbn; kill|].
  split; [|split];
    repeat (apply Forall_cons; [cbn; kill|]); apply Forall_nil.
Qed.

Lemma dead_not_found r s :
  dead plain r -> Forall (fun c => plain c = true) s -> found r s = false.
Proof.
  intros Hd Hs. unfold found. rewrite (dead_search plain r Hd s None Hs).
  reflexivity.
Qed.

Lemma plain_no_match q :
  Forall (fun c => plain c = true) q -> anyPatternMatches q = false.
Proof.
  intros Hq. destruct dead_patterns as (D1 & D2 & D3 & D4).
  unfold anyPatternMatches.
  rewrite (dead_not_found _ q D1 Hq). cbn [orb].
  assert (E : forall srcs, Forall (dead plain) srcs ->
                existsb (fun r => found r q) srcs = false).
  { induction 1 as [|r srcs Hr Hs IH]; [reflexivity|].
    cbn [existsb]. rewrite (dead_not_found r q Hr Hq). exact IH. }
  rewrite (E _ D2), (E _ D3), (E _ D4). reflexivity.
Qed.

(** X8. A query without a digit, an opening bracket, an opening brace or a
    colon matches none of the patterns: [needsSanitization] answers false
    and (fallback in use) [sanitizeQuery] returns it with its white space
    normalized and nothing removed. *)
Theorem plain_text_passes sdk st q :
  fallback sdk st -> loaded st ->
  Forall (fun c => plain c = true) q ->
  fst (needsSanitization st (VString q)) = false
  /\ fst (sanitizeQuery sdk st (VString q)) = Returned (trim (collapse false q)).
Proof.
  intros Hf Hl Hq.
  destruct (sanitizeQuery_fallback sdk st q Hf Hl) as (st' & E & _ & _).
  destruct (needsSanitization_pure st q Hl) as (P & _).
  pose proof (plain_no_match q Hq) as A.
  rewrite P, E. split; [exact A|].
  cbn [fst]. rewrite (sanitized_clean q A), normalize_collapse. reflexivity.
Qed.

Lemma plain_text_passes_witness :
  fst (needsSanitization initial_state
         (VString (js "  what did we   discuss? (user@email.com) ")))
  = false
  /\ fst (sanitizeQuery RequireThrows initial_state
            (VString (js "  what did we   discuss? (user@email.com) ")))
     = Returned (trim (collapse false
                         (js "  what did we   discuss? (user@email.com) "))).
Proof.
  apply (plain_text_passes RequireThrows initial_state).
  - reflexivity.
  - exact loaded_initial.
  - repeat constructor.
Defined.

End PlainText.

(** ** The envelope of a known platform *)

Section Envelope.

Lemma star_greedy (p : codeunit -> bool) (k : cont) x rest :
  match rest with c :: _ => p c = false | [] => True end ->
  (forall prev, k prev rest = Some x) ->
  forall taken fuel prev,
    Forall (fun c => p c = true) taken ->
    length (taken ++ rest) <= fuel ->
    star_iter (matcher (Class p)) k fuel prev (taken ++ rest) = Some x.
Proof.
  intros Hrest Hk. induction taken as [|c taken IH]; intros fuel prev Htaken Hlen.
  - cbn [app]. destruct fuel as [|fuel]; [apply Hk|].
    cbn [star_iter matcher]. destruct rest as [|d t]; [apply Hk|].
    rewrite Hrest. apply Hk.
  - destruct fuel as [|fuel]; [simpl in Hlen; lia|].
    inversion Htaken as [|? ? Hc Hr]; subst.
    cbn [app star_iter matcher]. rewrite Hc.
    replace (length (taken ++ rest) <? length (c :: taken ++ rest)) with true
      by (symmetry; apply Nat.ltb_lt; simpl; lia).
    rewrite IH; [reflexivity|assumption|simpl in Hlen; lia].
Qed.

Lemma skip_spaces ws body :
  Forall (fun c => isSpace c = true) ws -> wsrun body = 0 ->
  skipn (wsrun (ws ++ body)) (ws ++ body) = body.
Proof.
  intros Hws Hb. induction Hws as [|c ws Hc Hws IH]; cbn [app].
  - rewrite Hb. reflexivity.
  - cbn [wsrun]. rewrite Hc. exact IH.
Qed.

(** After the platform name: the rest of the bracket, the bracket and the
    white space behind it. *)
Lemma envelope_tail taken ws2 body prev :
  Forall (fun c => c <> 93%N) taken ->
  Forall (fun c => isSpace c = true) ws2 -> wsrun body = 0 ->
  matcher (Seq (Star (noneOf [93%N])) (Seq (chr_i 93%N) (Star space)))
          prev (taken ++ 93%N :: ws2 ++ body) (fun _ s' => Some s')
  = Some body.
Proof.
  intros Htaken Hws Hb. cbn [matcher]. unfold noneOf.
  apply star_greedy.
  - reflexivity.
  - intros prev'. unfold chr_i. cbn [matcher].
    replace (canonicalize 93 =? canonicalize 93)%N with true by reflexivity.
    unfold space. rewrite star_space by lia.
    rewrite (skip_spaces ws2 body Hws Hb). reflexivity.
  - apply Forall_forall. intros c Hc.
    rewrite Forall_forall in Htaken. specialize (Htaken c Hc).
    cbn [existsb]. rewrite orb_false_r. apply negb_true_iff.
    apply N.eqb_neq. exact Htaken.
  - apply Nat.le_refl.
Qed.

Lemma channel_shape :
  exists names,
    source CHANNEL_METADATA_PATTERN
    = Seq Start
        (Seq (Star space)
           (Seq (chr_i 91%N)
              (Seq names
                 (Seq (Star (noneOf [93%N]))
                    (Seq (chr_i 93%N) (Star space))))))
    /\ forall name rest (K : cont) prev x,
         In name PLATFORM_NAMES ->
         (forall p taken, Forall (fun c => c <> 93%N) taken ->
                        K p (taken ++ rest) = Some x) ->
         matcher names prev (name ++ rest) K = Some x.
Proof.
  eexists. split; [reflexivity|].
  intros name rest K prev x Hin HK.
  assert (H0 : forall p, K p rest = Some x)
    by (intros p; apply (HK p []); constructor).
  assert (H1 : forall p, K p (js "Chat" ++ rest) = Some x)
    by (intros p; apply (HK p (js "Chat")); repeat constructor; discriminate).
  assert (H2 : forall p, K p (js " Personal" ++ rest) = Some x)
    by (intros p; apply (HK p (js " Personal")); repeat constructor;
        discriminate).
  cbn in H1, H2. clear HK.
  unfold PLATFORM_NAMES in Hin. cbn in Hin.
  repeat (destruct Hin as [<-|Hin]; [cbn; rewrite ?H0, ?H1, ?H2; reflexivity|]).
  contradiction.
Qed.

Lemma envelope_match ws name content ws2 body :
  Forall (fun c => isSpace c = true) ws ->
  In name PLATFORM_NAMES ->
  Forall (fun c => c <> 93%N) content ->
  Forall (fun c => isSpace c = true) ws2 ->
  wsrun body = 0 ->
  replace_first (source CHANNEL_METADATA_PATTERN) []
    (ws ++ 91%N :: name ++ content ++ 93%N :: ws2 ++ body)
  = body.
Proof.
  intros Hws Hin Hc Hws2 Hb.
  destruct channel_shape as (names & E & Hnames). rewrite E. clear E.
  set (text := ws ++ 91%N :: name ++ content ++ 93%N :: ws2 ++ body).
  assert (M : matcher
                (Seq Start
                   (Seq (Star space)
                      (Seq (chr_i 91%N)
                         (Seq names
                            (Seq (Star (noneOf [93%N]))
                               (Seq (chr_i 93%N) (Star space)))))))
                None text (fun _ s' => Some s')
              = Some body).
  { cbn [matcher]. unfold text, space.
    apply star_greedy; [reflexivity| |exact Hws|apply Nat.le_refl].
    intros prev. unfold chr_i at 1. cbn [matcher].
    replace (canonicalize 91 =? canonicalize 91)%N with true by reflexivity.
    apply Hnames; [exact Hin|].
    intros p taken Htaken. rewrite app_assoc.
    apply (envelope_tail (taken ++ content) ws2 body p);
      [apply Forall_app; split; assumption|assumption|assumption]. }
  unfold replace_first.
  replace (search _ None text) with (Some (0, length text - length body)).
  - cbn [firstn app Nat.add].
    assert (Ht : text = (ws ++ 91%N :: name ++ content ++ 93%N :: ws2) ++ body).
    { unfold text. rewrite <- !app_assoc. cbn [app].
      rewrite <- !app_assoc. reflexivity. }
    rewrite Ht at 2. rewrite Ht at 1.
    rewrite length_app, Nat.add_sub.
    rewrite skipn_app, skipn_all, Nat.sub_diag. reflexivity.
  - symmetry. destruct text as [|c t] eqn:T; cbn [search];
      unfold match_at; rewrite M; reflexivity.
Qed.

(** X9. The fallback strips the whole envelope of every platform it knows:
    optional white space, an opening bracket, a platform name as the
    pattern spells it, any content without a closing bracket, the closing
    bracket and the white space behind it are removed, and the message body
    is returned untouched. *)
Theorem stripChannelEnvelope_known_platform
    sdk st ws name content ws2 body :
  fallback sdk st ->
  Forall (fun c => isSpace c = true) ws ->
  In name PLATFORM_NAMES ->
  Forall (fun c => c <> 93%N) content ->
  Forall (fun c => isSpace c = true) ws2 ->
  wsrun body = 0 ->
  fst (stripChannelEnvelope sdk st
         (ws ++ js "[" ++ name ++ content ++ js "]" ++ ws2 ++ body))
  = Returned body.
Proof.
  intros Hf Hws Hin Hc Hws2 Hb. unfold stripChannelEnvelope.
  destruct (fallback_step sdk st Hf) as (slot & -> & _).
  cbn [fst replace global CHANNEL_METADATA_PATTERN].
  fold CHANNEL_METADATA_PATTERN. f_equal.
  apply (envelope_match ws name content ws2 body); assumption.
Qed.

Lemma stripChannelEnvelope_known_platform_witness :
  fst (stripChannelEnvelope RequireThrows initial_state
         (js " " ++ js "[" ++ js "Zalo Personal"
            ++ js " user id:5 2026-01-27 04:03 UTC" ++ js "]" ++ js "  "
            ++ js "check [my] tasks"))
  = Returned (js "check [my] tasks").
Proof.
  apply (stripChannelEnvelope_known_platform RequireThrows initial_state).
  - reflexivity.
  - repeat constructor.
  - unfold PLATFORM_NAMES. cbn. tauto.
  - repeat constructor; discriminate.
  - repeat constructor.
  - reflexivity.
Defined.

(** X10. An envelope of a known platform in front of a message does not
    influence the sanitized query (fallback in use): [sanitizeQuery] of the
    enveloped message is [sanitizeQuery] of the body, when the body does
    not itself begin with an envelope or white space. *)
Theorem sanitizeQuery_ignores_envelope
    sdk st ws name content ws2 body :
  fallback sdk st -> loaded st ->
  Forall (fun c => isSpace c = true) ws ->
  In name PLATFORM_NAMES ->
  Forall (fun c => c <> 93%N) content ->
  Forall (fun c => isSpace c = true) ws2 ->
  wsrun body = 0 ->
  found (source CHANNEL_METADATA_PATTERN) body = false ->
  fst (sanitizeQuery sdk st
         (VString (ws ++ js "[" ++ name ++ content ++ js "]" ++ ws2 ++ body)))
  = fst (sanitizeQuery sdk st (VString body)).
Proof.
  intros Hf Hl Hws Hin Hc Hws2 Hb Hn.
  change (ws ++ js "[" ++ name ++ content ++ js "]" ++ ws2 ++ body)
    with (ws ++ 91%N :: name ++ content ++ 93%N :: ws2 ++ body).
  destruct (sanitizeQuery_fallback sdk st body Hf Hl) as (st1 & E1 & _ & _).
  destruct (sanitizeQuery_fallback sdk st
              (ws ++ 91%N :: name ++ content ++ 93%N :: ws2 ++ body) Hf Hl)
    as (st2 & E2 & _ & _).
  rewrite E1, E2. cbn [fst]. f_equal. unfold sanitized.
  rewrite (replace_first_none _ [] body Hn).
  rewrite (envelope_match ws name content ws2 body); auto.
Qed.

Lemma sanitizeQuery_ignores_envelope_witness :
  fst (sanitizeQuery RequireThrows initial_state
         (VString ([] ++ js "[" ++ js "WebChat" ++ js " user +2m" ++ js "]"
                      ++ js " " ++ js "find   id: 7 old conversation")))
  = fst (sanitizeQuery RequireThrows initial_state
           (VString (js "find   id: 7 old conversation"))).
Proof.
  apply (sanitizeQuery_ignores_envelope RequireThrows initial_state).
  - reflexivity.
  - exact loaded_initial.
  - constructor.
  - unfold PLATFORM_NAMES. cbn. tauto.
  - repeat constructor; discriminate.
  - repeat constructor.
  - reflexivity.
  - vm_compute. reflexivity.
Defined.

End Envelope.

(** ** Configuration and container tags *)

Section TagsFurther.

(** X11. [parseConfig] fills every field but [containerTag] and keeps what
    it is given: parsing a parsed configuration again changes nothing, and
    a raw configuration with every defaulted field present is read back
    from the parsed one. *)
Theorem parseConfig_round_trip raw :
  parseConfig (asRaw (parseConfig raw)) = parseConfig raw
  /\ (raw_apiKey raw <> None -> raw_mode raw <> None ->
      raw_containerScope raw <> None -> raw_autoRecall raw <> None ->
      raw_threshold raw <> None -> raw_baseUrl raw <> None ->
      asRaw (parseConfig raw) = raw).
Proof.
  split; [reflexivity|].
  destruct raw as [k m t s a th b]; cbn.
  intros H1 H2 H3 H4 H5 H6.
  destruct k, m, s, a, th, b; try contradiction; reflexivity.
Qed.

Lemma parseConfig_round_trip_witness :
  let raw := mkRaw (Some (js "key")) (Some (js "bogus")) None
                   (Some (js "session")) (Some false) (Some 0.75%float)
                   (Some (js "https://custom.api.com")) in
  asRaw (parseConfig raw) = raw.
Proof.
  intros raw.
  apply (proj2 (parseConfig_round_trip raw)); discriminate.
Defined.

Lemma present_text s : present s = true -> s = Some (text s) /\ text s <> [].
Proof.
  destruct s as [[|c t]|]; simpl; try discriminate.
  intros _. split; [reflexivity|discriminate].
Qed.

Lemma resolve_cases config agentId sessionKey :
  resolveContainerTag config agentId sessionKey
  = if isSessionScope config && present sessionKey
    then Some (spec_prefix (containerTag config) ++ text sessionKey)
    else if present agentId
         then Some (spec_prefix (containerTag config) ++ text agentId)
         else containerTag config.
Proof.
  unfold resolveContainerTag. rewrite prefix_spec.
  destruct (isSessionScope config), (present sessionKey); reflexivity.
Qed.

(** X12. The resolver returns [undefined] exactly when no container tag is
    configured and no identifier is usable: the agent id is absent or
    empty, and so is the session key when the scope is ["session"]. *)
Theorem resolveContainerTag_undefined config agentId sessionKey :
  resolveContainerTag config agentId sessionKey = None
  <-> containerTag config = None
      /\ present agentId = false
      /\ (containerScope config = Some (js "session") ->
          present sessionKey = false).
Proof.
  rewrite resolve_cases. rewrite <- isSessionScope_true.
  destruct (isSessionScope config), (present sessionKey), (present agentId);
    cbn [andb]; split; try discriminate; intuition (try discriminate).
Qed.

Lemma resolveContainerTag_undefined_witness :
  resolveContainerTag
    (mkConfig [] None None (Some (js "session")) None None None)
    (Some []) None
  = None.
Proof.
  apply (proj2 (resolveContainerTag_undefined
                  (mkConfig [] None None (Some (js "session")) None None None)
                  (Some []) None)).
  repeat split.
Defined.

(** X13. Under the session scope conversations are kept apart: with the
    same configuration, two usable session keys give the same tag only
    when they are the same key, whatever the agent ids.  Under every
    other scope the session key has no influence on the tag. *)
Theorem resolveContainerTag_isolation config a1 a2 s1 s2 :
  (containerScope config = Some (js "session") ->
   present s1 = true -> present s2 = true ->
   resolveContainerTag config a1 s1 = resolveContainerTag config a2 s2 ->
   s1 = s2)
  /\ (containerScope config <> Some (js "session") ->
      resolveContainerTag config a1 s1 = resolveContainerTag config a1 s2).
Proof.
  split.
  - intros Hs P1 P2. rewrite !resolve_cases.
    rewrite (proj2 (isSessionScope_true config) Hs), P1, P2. cbn [andb].
    intros H. injection H as H. apply app_inv_head in H.
    destruct (present_text s1 P1) as (E1 & _).
    destruct (present_text s2 P2) as (E2 & _). congruence.
  - intros Hs. rewrite !resolve_cases.
    destruct (isSessionScope config) eqn:E; [|reflexivity].
    apply isSessionScope_true in E. contradiction.
Qed.

Lemma resolveContainerTag_isolation_witness :
  (resolveContainerTag sample_config (Some (js "main"))
     (Some (js "agent:main:telegram:group:123"))
   = resolveContainerTag sample_config (Some (js "other"))
       (Some (js "agent:main:telegram:group:123")) ->
   Some (js "agent:main:telegram:group:123")
   = Some (js "agent:main:telegram:group:123"))
  /\ resolveContainerTag (withScope sample_config (Some (js "agent")))
       (Some (js "main")) (Some (js "agent:main:telegram:group:123"))
     = resolveContainerTag (withScope sample_config (Some (js "agent")))
         (Some (js "main")) (Some (js "agent:main:slack:dm:7")).
Proof.
  split.
  - apply (proj1 (resolveContainerTag_isolation sample_config
                    (Some (js "main")) (Some (js "other"))
                    (Some (js "agent:main:telegram:group:123"))
                    (Some (js "agent:main:telegram:group:123"))));
      reflexivity.
  - apply (proj2 (resolveContainerTag_isolation
                    (withScope sample_config (Some (js "agent")))
                    (Some (js "main")) (Some (js "main"))
                    (Some (js "agent:main:telegram:group:123"))
                    (Some (js "agent:main:slack:dm:7")))).
    discriminate.
Defined.

(** X14. With a container tag configured, every resolved tag lies in that
    namespace: it is the tag itself, or the tag, a colon and a non-empty
    identifier; it is never [undefined]. *)
Theorem resolveContainerTag_in_namespace config agentId sessionKey :
  present (containerTag config) = true ->
  exists rest,
    resolveContainerTag config agentId sessionKey
    = Some (text (containerTag config) ++ rest)
    /\ (rest = [] \/ exists ident, rest = js ":" ++ ident /\ ident <> []).
Proof.
  intros P. rewrite resolve_cases, (spec_prefix_present _ P).
  destruct (present_text _ P) as (E & _).
  destruct (isSessionScope config && present sessionKey) eqn:B.
  - apply andb_true_iff in B. destruct B as (_ & B).
    exists (js ":" ++ text sessionKey). rewrite <- app_assoc.
    split; [reflexivity|]. right. exists (text sessionKey).
    split; [reflexivity|apply (present_text _ B)].
  - destruct (present agentId) eqn:A.
    + exists (js ":" ++ text agentId). rewrite <- app_assoc.
      split; [reflexivity|]. right. exists (text agentId).
      split; [reflexivity|apply (present_text _ A)].
    + exists []. rewrite app_nil_r. split; [exact E|left; reflexivity].
Qed.

Lemma resolveContainerTag_in_namespace_witness :
  exists rest,
    resolveContainerTag sample_config None (Some (js "agent:main:slack:dm:7"))
    = Some (text (containerTag sample_config) ++ rest)
    /\ (rest = [] \/ exists ident, rest = js ":" ++ ident /\ ident <> []).
Proof.
  apply (resolveContainerTag_in_namespace sample_config None
           (Some (js "agent:main:slack:dm:7"))).
  reflexivity.
Defined.

(** X15. A request to the remote service never carries an empty list of
    container tags or an empty tag: [containerTags] is left out or holds
    exactly one non-empty tag, and [add] and [search] send the same
    [containerTags] for the same tag. *)
Theorem request_containerTags search_params add_params :
  (forall tags, body_containerTags (searchBody search_params) = Some tags ->
                exists t, tags = [t] /\ t <> []
                          /\ search_containerTag search_params = Some t)
  /\ (forall tags, addbody_containerTags (addBody add_params) = Some tags ->
                   exists t, tags = [t] /\ t <> []
                             /\ add_containerTag add_params = Some t)
  /\ (search_containerTag search_params = add_containerTag add_params ->
      body_containerTags (searchBody search_params)
      = addbody_containerTags (addBody add_params)).
Proof.
  unfold searchBody, addBody.
  cbn [body_containerTags addbody_containerTags].
  split; [|split].
  - intros tags. destruct (present (search_containerTag search_params)) eqn:P;
      [|discriminate].
    intros H. injection H as <-. destruct (present_text _ P) as (E & N).
    exists (text (search_containerTag search_params)). auto.
  - intros tags. destruct (present (add_containerTag add_params)) eqn:P;
      [|discriminate].
    intros H. injection H as <-. destruct (present_text _ P) as (E & N).
    exists (text (add_containerTag add_params)). auto.
  - intros ->. reflexivity.
Qed.

Lemma request_containerTags_witness :
  body_containerTags
    (searchBody (mkSearchParams (js "q") (Some (js "myns:main")) None None None))
  = addbody_containerTags
      (addBody (mkAddParams (js "summary") (Some (js "myns:main")) None None)).
Proof.
  apply (proj2 (proj2 (request_containerTags
           (mkSearchParams (js "q") (Some (js "myns:main")) None None None)
           (mkAddParams (js "summary") (Some (js "myns:main")) None None)))).
  reflexivity.
Defined.

End TagsFurther.

(** ** Auto-recall against a remote service *)

Section RecallFurther.

Lemma hook_cases ctx sdk st event hookCtx :
  let h := fst (Hooks.createBeforeAgentStartHandler ctx sdk st event hookCtx) in
  h = Return None
  \/ (exists err,
        h = Throw err
        /\ fst (sanitizeQuery sdk st (VString (Hooks.prompt event))) = Threw err)
  \/ (exists s k,
        fst (sanitizeQuery sdk st (VString (Hooks.prompt event))) = Returned s
        /\ h = ClientSearch (hook_request ctx hookCtx s) k
        /\ (forall err,
              k (Threw err)
              = Log LevelWarn (js "supermemory: auto-recall failed: " ++ err)
                    (Return None))
        /\ k (Returned []) = Return None
        /\ (forall r rs,
              k (Returned (r :: rs))
              = Log LevelInfo
                    (js "supermemory: injecting "
                       ++ decimal (length (r :: rs))
                       ++ js " memories into context")
                    (Return (Some (recallContext (r :: rs)))))).
Proof.
  unfold Hooks.createBeforeAgentStartHandler.
  destruct (negb (Hooks.client_configured ctx)); [left; reflexivity|].
  destruct (negb (orElse (autoRecall (Hooks.config ctx)) false)
            || modeIsOff (Hooks.config ctx)); [left; reflexivity|].
  destruct (negb (truthy (VString (Hooks.prompt event)))
            || (length (Hooks.prompt event) <? 5)); [left; reflexivity|].
  destruct (sanitizeQuery sdk st (VString (Hooks.prompt event)))
    as [[s|err] st'].
  - destruct (negb (truthy (VString s)) || (length s <? 3));
      [left; reflexivity|].
    right. right. cbn [fst]. eexists s, _.
    split; [reflexivity|]. split; [reflexivity|].
    split; [reflexivity|]. split; reflexivity.
  - right. left. exists err. split; reflexivity.
Qed.

(** X16. A failure of the remote search never fails the before_agent_start
    handler: when the sanitizer returns, the handler returns whatever the
    remote service does, after at most one request; when that request
    throws or finds nothing, the handler returns nothing to prepend. *)
Theorem recall_survives_remote remote ctx sdk st event hookCtx s st' :
  sanitizeQuery sdk st (VString (Hooks.prompt event)) = (Returned s, st') ->
  let played :=
    run remote
        (fst (Hooks.createBeforeAgentStartHandler ctx sdk st event hookCtx)) in
  (exists v, fst played = Returned v)
  /\ length (requests (snd played)) <= 1
  /\ (forall p, requests (snd played) = [p] ->
                remote p = Returned [] \/ (exists err, remote p = Threw err) ->
                fst played = Returned None).
Proof.
  intros E played. subst played.
  destruct (hook_cases ctx sdk st event hookCtx)
    as [H|[(err & H & Hs)|(s0 & k & Hs & H & K1 & K2 & K3)]];
    cbv zeta in H; rewrite H; clear H.
  - cbn. split; [eexists; reflexivity|]. split; [lia|]. discriminate.
  - rewrite E in Hs. discriminate.
  - cbn [run].
    destruct (remote (hook_request ctx hookCtx s0)) as [[|r rs]|err] eqn:R.
    + rewrite K2. cbn. split; [eexists; reflexivity|]. split; [lia|].
      reflexivity.
    + rewrite K3. cbn. split; [eexists; reflexivity|]. split; [lia|].
      intros p Hp. injection Hp as <-. rewrite R.
      intros [H|(err & H)]; discriminate.
    + rewrite K1. cbn. split; [eexists; reflexivity|]. split; [lia|].
      reflexivity.
Qed.

Lemma recall_survives_remote_witness :
  let played :=
    run (fun _ => Threw (js "TypeError: fetch failed"))
        (fst (Hooks.createBeforeAgentStartHandler
                (Hooks.mkHookContext true sample_config) RequireThrows
                initial_state (Hooks.mkEvent (js "[Slack bob] what do I like"))
                (Hooks.mkHookCtx (Some (js "main")) None))) in
  (exists v, fst played = Returned v)
  /\ length (requests (snd played)) <= 1
  /\ (forall p, requests (snd played) = [p] ->
                (fun _ : SearchParams =>
                   @Threw (list SupermemorySearchResult)
                          (js "TypeError: fetch failed")) p = Returned []
                \/ (exists err,
                      (fun _ : SearchParams =>
                         @Threw (list SupermemorySearchResult)
                                (js "TypeError: fetch failed")) p = Threw err) ->
                fst played = Returned None).
Proof.
  apply (recall_survives_remote
           (fun _ => Threw (js "TypeError: fetch failed"))
           (Hooks.mkHookContext true sample_config) RequireThrows
           initial_state (Hooks.mkEvent (js "[Slack bob] what do I like"))
           (Hooks.mkHookCtx (Some (js "main")) None)
           (js "what do I like")
           (snd (sanitizeQuery RequireThrows initial_state
                   (VString (js "[Slack bob] what do I like"))))).
  vm_compute. reflexivity.
Defined.

(** X17. An HTTP failure during auto-recall ends in a warning and nothing
    else: when the handler sends a request and the service answers it with
    a status that is not ok, the handler, run against
    [SupermemoryClient.search], returns nothing to prepend and logs one
    warning that carries the status and the body of the response. *)
Theorem recall_http_failure fetch ctx sdk st event hookCtx p response :
  dispatched
    (fst (Hooks.createBeforeAgentStartHandler ctx sdk st event hookCtx))
  = Some p ->
  fetch (searchBody p) = Returned response ->
  ok response = false ->
  run (SupermemoryClient_search fetch)
      (fst (Hooks.createBeforeAgentStartHandler ctx sdk st event hookCtx))
  = (Returned None,
     [ Requested p;
       Logged LevelWarn
         (js "supermemory: auto-recall failed: "
            ++ js "Error: Supermemory search failed: "
            ++ decimal (status response) ++ js " "
            ++ response_text response) ]).
Proof.
  intros D F O.
  destruct (hook_cases ctx sdk st event hookCtx)
    as [H|[(err & H & Hs)|(s0 & k & Hs & H & K1 & K2 & K3)]];
    cbv zeta in H; rewrite H in *; clear H; try discriminate.
  cbn [dispatched] in D. injection D as <-.
  assert (S : SupermemoryClient_search fetch (hook_request ctx hookCtx s0)
              = Threw (js "Error: Supermemory search failed: "
                         ++ decimal (status response) ++ js " "
                         ++ response_text response))
    by (unfold SupermemoryClient_search; rewrite F, O; reflexivity).
  cbn [run]. rewrite S, K1. reflexivity.
Qed.

Lemma recall_http_failure_witness :
  let fetch := fun _ : SearchBody =>
    Returned (mkHttp false 503 (js "unavailable") (mkResponse None)) in
  run (SupermemoryClient_search fetch)
      (fst (Hooks.createBeforeAgentStartHandler
              (Hooks.mkHookContext true sample_config) RequireThrows
              initial_state (Hooks.mkEvent (js "[Slack bob] what do I like"))
              (Hooks.mkHookCtx (Some (js "main"))
                               (Some (js "agent:main:slack:dm:7")))))
  = (Returned None,
     [ Requested (sample_request 5%float (js "myns:agent:main:slack:dm:7"));
       Logged LevelWarn
         (js "supermemory: auto-recall failed: Error: Supermemory search failed: 503 unavailable") ]).
Proof.
  intros fetch.
  apply (recall_http_failure fetch
           (Hooks.mkHookContext true sample_config) RequireThrows
           initial_state (Hooks.mkEvent (js "[Slack bob] what do I like"))
           (Hooks.mkHookCtx (Some (js "main"))
                            (Some (js "agent:main:slack:dm:7")))
           (sample_request 5%float (js "myns:agent:main:slack:dm:7"))
           (mkHttp false 503 (js "unavailable") (mkResponse None))).
  - vm_compute. reflexivity.
  - reflexivity.
  - reflexivity.
Defined.

Lemma firstn_nil_inv {A : Type} (l : list A) : firstn 5 l = [] -> l = [].
Proof. destruct l; [reflexivity|discriminate]. Qed.

(** X18. Only the contents of the first five results reach the agent: two
    answers of the remote service whose first five results have the same
    contents make the handler return the same context, whatever their
    ids, scores, metadata and further results. *)
Theorem recall_uses_first_five rs1 rs2 ctx sdk st event hookCtx :
  map content (firstn 5 rs1) = map content (firstn 5 rs2) ->
  fst (run (fun _ => Returned rs1)
           (fst (Hooks.createBeforeAgentStartHandler ctx sdk st event hookCtx)))
  = fst (run (fun _ => Returned rs2)
             (fst (Hooks.createBeforeAgentStartHandler ctx sdk st event hookCtx))).
Proof.
  intros E.
  destruct (hook_cases ctx sdk st event hookCtx)
    as [H|[(err & H & Hs)|(s0 & k & Hs & H & K1 & K2 & K3)]];
    cbv zeta in H; rewrite H; clear H; try reflexivity.
  cbn [run].
  assert (C : recallContext rs1 = recallContext rs2).
  { unfold recallContext. do 4 f_equal.
    rewrite <- (map_map content (fun c => js "- " ++ c)).
    rewrite <- (map_map content (fun c => js "- " ++ c) (firstn 5 rs2)).
    rewrite E. reflexivity. }
  destruct rs1 as [|r1 l1], rs2 as [|r2 l2].
  - reflexivity.
  - discriminate E.
  - discriminate E.
  - rewrite !K3. cbn [run fst]. rewrite C. reflexivity.
Qed.

Lemma recall_uses_first_five_witness :
  let r := fun i c => mkResult i c 0.5%float None in
  let five := [ r (js "d1") (js "a"); r (js "d1") (js "b");
                r (js "d2") (js "c"); r (js "d3") (js "d");
                r (js "d3") (js "e") ] in
  let other := [ mkResult (js "x") (js "a") 0.25%float None;
                 r (js "x") (js "b"); r (js "y") (js "c");
                 r (js "y") (js "d"); r (js "z") (js "e") ] in
  let h := fst (Hooks.createBeforeAgentStartHandler
                  (Hooks.mkHookContext true sample_config) RequireThrows
                  initial_state (Hooks.mkEvent (js "what do I like"))
                  (Hooks.mkHookCtx (Some (js "main")) None)) in
  fst (run (fun _ => Returned (five ++ [r (js "d4") (js "f")])) h)
  = fst (run (fun _ => Returned other) h).
Proof.
  intros r five other h.
  apply (recall_uses_first_five (five ++ [r (js "d4") (js "f")]) other
           (Hooks.mkHookContext true sample_config) RequireThrows
           initial_state (Hooks.mkEvent (js "what do I like"))
           (Hooks.mkHookCtx (Some (js "main")) None)).
  reflexivity.
Defined.

End RecallFurther.

(** ** The search tools against a remote service *)

Section ToolsFurther.

Variable toFixed0 : float -> jsstring.

(** X19. [supermemory_search] and [memory_search] treat the same call
    alike: they leave the sanitizer in the same state, send the same
    request, and report the same error, count and memories; apart from the
    wording of their texts they differ in the [source] they name. *)
Theorem tools_agree remote ctx sdk st params :
  let t1 := createSupermemorySearchTool toFixed0 ctx sdk st params in
  let t2 := createMemorySearchTool toFixed0 ctx sdk st params in
  snd t1 = snd t2
  /\ requests (snd (run remote (fst t1))) = requests (snd (run remote (fst t2)))
  /\ match fst (run remote (fst t1)), fst (run remote (fst t2)) with
     | Returned r1, Returned r2 =>
         report r1 = report r2
         /\ details_source (details r1) = None
         /\ details_source (details r2) = Some (js "supermemory")
     | Threw e1, Threw e2 => e1 = e2
     | _, _ => False
     end.
Proof.
  unfold createSupermemorySearchTool, createMemorySearchTool.
  destruct (sanitizeQuery sdk st (VString (query params))) as [[s|err] st'].
  - destruct (negb (truthy (VString s)) || (length s <? 2)).
    + cbn. auto.
    + cbn [fst snd run].
      destruct (remote _) as [rs|err]; [destruct (length rs =? 0)|]; cbn; auto.
  - cbn. auto.
Qed.

(** X20. A search tool answers every call whose query the sanitizer
    returns: it never throws, sends at most one request, carrying the
    sanitized query, and reports what happened.  A query shorter than two
    code units after sanitization is refused without a request; a remote
    failure is reported as an error with its message; otherwise the count
    is the number of results and the memories are the results in the
    order the client returned them. *)
Theorem tool_reports remote ctx sdk st params s st' :
  sanitizeQuery sdk st (VString (query params)) = (Returned s, st') ->
  let played :=
    run remote (fst (createSupermemorySearchTool toFixed0 ctx sdk st params)) in
  exists res,
    fst played = Returned res
    /\ (length s < 2 ->
        requests (snd played) = []
        /\ details_error (details res) = Some (js "query_too_short")
        /\ details_originalQuery (details res) = Some (query params))
    /\ (2 <= length s ->
        exists p,
          requests (snd played) = [p] /\ q p = s
          /\ match remote p with
             | Threw err =>
                 details_error (details res) = Some err
                 /\ result_text res = js "Supermemory search failed: " ++ err
             | Returned rs =>
                 details_error (details res) = None
                 /\ details_count (details res) = Some (length rs)
                 /\ (rs <> [] ->
                     details_memories (details res) = Some (memories rs))
             end).
Proof.
  intros E played. subst played.
  unfold createSupermemorySearchTool. rewrite E.
  rewrite short_check by lia.
  destruct (Nat.leb_spec 2 (length s)) as [H2|H2]; cbn [negb fst run].
  - match goal with
    | |- context [remote ?p] => set (request := p)
    end.
    destruct (remote request) as [rs|err] eqn:R.
    + destruct rs as [|r rs].
      * cbn. eexists. split; [reflexivity|]. split; [lia|].
        intros _. exists request. split; [reflexivity|].
        split; [reflexivity|]. rewrite R. cbn. repeat split. congruence.
      * cbn. eexists. split; [reflexivity|]. split; [lia|].
        intros _. exists request. split; [reflexivity|].
        split; [reflexivity|]. rewrite R. cbn. repeat split.
    + cbn. eexists. split; [reflexivity|]. split; [lia|].
      intros _. exists request. split; [reflexivity|].
      split; [reflexivity|]. rewrite R. cbn. split; reflexivity.
  - cbn. eexists. split; [reflexivity|]. split; [|lia].
    intros _. repeat split.
Qed.

End ToolsFurther.

Lemma tool_reports_witness :
  let remote := fun _ : SearchParams =>
    Returned [ mkResult (js "d1") (js "likes tea") 0.75%float None;
               mkResult (js "d2") (js "likes jazz") 0.5%float None ] in
  let played :=
    run remote
        (fst (createSupermemorySearchTool (fun _ => js "50")
                (mkToolContext sample_config (js "main")) RequireThrows
                initial_state
                (mkToolParams (js "[Slack bob] what do I like") None))) in
  exists res,
    fst played = Returned res
    /\ (length (js "what do I like") < 2 ->
        requests (snd played) = []
        /\ details_error (details res) = Some (js "query_too_short")
        /\ details_originalQuery (details res)
           = Some (js "[Slack bob] what do I like"))
    /\ (2 <= length (js "what do I like") ->
        exists p,
          requests (snd played) = [p] /\ q p = js "what do I like"
          /\ match remote p with
             | Threw err =>
                 details_error (details res) = Some err
                 /\ result_text res = js "Supermemory search failed: " ++ err
             | Returned rs =>
                 details_error (details res) = None
                 /\ details_count (details res) = Some (length rs)
                 /\ (rs <> [] ->
                     details_memories (details res) = Some (memories rs))
             end).
Proof.
  intros remote.
  apply (tool_reports (fun _ => js "50") remote
           (mkToolContext sample_config (js "main")) RequireThrows
           initial_state (mkToolParams (js "[Slack bob] what do I like") None)
           (js "what do I like")
           (snd (sanitizeQuery RequireThrows initial_state
                   (VString (js "[Slack bob] what do I like"))))).
  vm_compute. reflexivity.
Defined.

(** ** Storing compaction summaries *)

Section CompactionFurther.

Variable numberText : float -> jsstring.
Variable now : jsstring.

Lemma storable_spec s :
  negb (present s) || (length (trim (text s)) =? 0) = negb (storable s).
Proof.
  unfold storable. destruct (present s), (length (trim (text s)) =? 0);
    reflexivity.
Qed.

Lemma compaction_cases ctx event hookCtx :
  exists line rest,
    createAfterCompactionHandler numberText now ctx event hookCtx
    = StoreLog SevInfo line rest
    /\ if Hooks.client_configured ctx
          && negb (modeIsOff (Hooks.config ctx))
          && storable (summary event)
       then exists params k,
              rest = ClientAdd params k
              /\ add_content params = text (summary event)
              /\ add_containerTag params
                 = resolveContainerTag (Hooks.config ctx)
                     (Hooks.agentId hookCtx)
                     (coalesce (event_sessionKey event)
                               (Hooks.sessionKey hookCtx))
              /\ (forall result,
                    exists line', k (Returned result)
                                  = StoreLog SevInfo line' StoreDone)
              /\ (forall err,
                    k (Threw err)
                    = StoreLog SevError
                        (js "supermemory: failed to store compaction summary: "
                           ++ err)
                        StoreDone)
       else forall remote, stored remote rest = [].
Proof.
  unfold createAfterCompactionHandler. eexists _, _.
  split; [reflexivity|].
  destruct (Hooks.client_configured ctx); cbn [negb andb];
    [|intros remote; reflexivity].
  destruct (modeIsOff (Hooks.config ctx)); cbn [negb andb];
    [intros remote; reflexivity|].
  rewrite storable_spec.
  destruct (storable (summary event)); cbn [negb];
    [|intros remote; reflexivity].
  eexists _, _. split; [reflexivity|].
  split; [reflexivity|]. split; [reflexivity|].
  split; [intros result; eexists; reflexivity|reflexivity].
Qed.

(** X21. The after_compaction handler stores at most one document per
    compaction, and only a real summary: what it stores is the summary as
    it came, it is not blank, a client is configured and the mode is not
    ["off"]; the document goes to the container the resolver gives for the
    agent id and the session key of the event or, when the event has none,
    of the hook context. *)
Theorem compaction_stores_summary remote ctx event hookCtx params :
  In params
     (stored remote
        (createAfterCompactionHandler numberText now ctx event hookCtx)) ->
  stored remote (createAfterCompactionHandler numberText now ctx event hookCtx)
  = [params]
  /\ summary event = Some (add_content params)
  /\ trim (add_content params) <> []
  /\ Hooks.client_configured ctx = true
  /\ modeIsOff (Hooks.config ctx) = false
  /\ add_containerTag params
     = resolveContainerTag (Hooks.config ctx) (Hooks.agentId hookCtx)
         (coalesce (event_sessionKey event) (Hooks.sessionKey hookCtx)).
Proof.
  destruct (compaction_cases ctx event hookCtx) as (line & rest & -> & H).
  cbn [stored].
  destruct (Hooks.client_configured ctx); cbn [andb] in H;
    [|rewrite H; contradiction].
  destruct (modeIsOff (Hooks.config ctx)); cbn [negb andb] in H;
    [rewrite H; contradiction|].
  destruct (storable (summary event)) eqn:S; [|rewrite H; contradiction].
  destruct H as (p & k & -> & Hc & Ht & Hok & Herr).
  cbn [stored].
  assert (Hk : stored remote (k (remote p)) = []).
  { destruct (remote p) as [result|err].
    - destruct (Hok result) as (l & ->). reflexivity.
    - rewrite Herr. reflexivity. }
  rewrite Hk. intros [<-|[]].
  unfold storable in S. apply andb_true_iff in S. destruct S as (S1 & S2).
  destruct (present_text _ S1) as (E & _).
  split; [reflexivity|]. split; [congruence|].
  split; [|auto].
  rewrite Hc. intros Hn. rewrite Hn in S2. discriminate.
Qed.

(** X22. What compaction stores, auto-recall searches: when the compaction
    event carries no session key, or the one of the hook context, the
    document stored by the after_compaction handler and the request sent
    by the before_agent_start handler for the same agent and session name
    the same container, down to the [containerTags] of the two request
    bodies. *)
Theorem store_and_recall_share_container
    remote ctx sdk st recallEvent event hookCtx params request :
  event_sessionKey event = None
  \/ event_sessionKey event = Hooks.sessionKey hookCtx ->
  In params
     (stored remote
        (createAfterCompactionHandler numberText now ctx event hookCtx)) ->
  dispatched
    (fst (Hooks.createBeforeAgentStartHandler ctx sdk st recallEvent hookCtx))
  = Some request ->
  add_containerTag params = search_containerTag request
  /\ addbody_containerTags (addBody params)
     = body_containerTags (searchBody request).
Proof.
  intros Hk Hin Hd.
  assert (T : add_containerTag params
              = resolveContainerTag (Hooks.config ctx) (Hooks.agentId hookCtx)
                  (coalesce (event_sessionKey event)
                            (Hooks.sessionKey hookCtx))).
  { destruct (compaction_cases ctx event hookCtx) as (line & rest & E & H).
    rewrite E in Hin. cbn [stored] in Hin.
    destruct (Hooks.client_configured ctx && negb (modeIsOff (Hooks.config ctx))
              && storable (summary event)); [|rewrite H in Hin; contradiction].
    destruct H as (p & k & -> & _ & Ht & Hok & Herr).
    cbn [stored] in Hin. destruct Hin as [<-|Hin]; [exact Ht|].
    exfalso. destruct (remote p) as [result|err].
    - destruct (Hok result) as (l & El). rewrite El in Hin. exact Hin.
    - rewrite Herr in Hin. exact Hin. }
  assert (C : coalesce (event_sessionKey event) (Hooks.sessionKey hookCtx)
              = Hooks.sessionKey hookCtx).
  { destruct Hk as [->| ->]; [reflexivity|].
    destruct (Hooks.sessionKey hookCtx); reflexivity. }
  rewrite C in T.
  assert (R : search_containerTag request
              = resolveContainerTag (Hooks.config ctx) (Hooks.agentId hookCtx)
                  (Hooks.sessionKey hookCtx)).
  { rewrite hook_dispatch in Hd.
    destruct (_ && _); [|discriminate].
    destruct (fst (sanitizeQuery _ _ _)) as [s|err]; [|discriminate].
    destruct (3 <=? length s); [|discriminate].
    injection Hd as <-. reflexivity. }
  split; [congruence|].
  unfold addBody, searchBody; cbn [addbody_containerTags body_containerTags].
  rewrite T, R. reflexivity.
Qed.

(** X23. The session key of the compaction event wins over the one of the
    hook context even when it is the empty string: the summary is then
    stored under the agent-level tag, whatever the scope and the session
    key of the hook context. *)
Theorem empty_event_sessionKey_masks remote ctx event hookCtx params :
  event_sessionKey event = Some [] ->
  In params
     (stored remote
        (createAfterCompactionHandler numberText now ctx event hookCtx)) ->
  add_containerTag params
  = spec_agent_tag (containerTag (Hooks.config ctx)) (Hooks.agentId hookCtx).
Proof.
  intros He Hin.
  destruct (compaction_cases ctx event hookCtx) as (line & rest & E & H).
  rewrite E in Hin. cbn [stored] in Hin.
  destruct (Hooks.client_configured ctx && negb (modeIsOff (Hooks.config ctx))
            && storable (summary event)); [|rewrite H in Hin; contradiction].
  destruct H as (p & k & -> & _ & Ht & Hok & Herr).
  cbn [stored] in Hin. destruct Hin as [<-|Hin].
  - rewrite Ht, He. cbn [coalesce]. rewrite resolve_cases.
    cbn [present]. rewrite andb_false_r. unfold spec_agent_tag, present, text, orElse.
    destruct (Hooks.agentId hookCtx) as [[|c a]|]; reflexivity.
  - exfalso. destruct (remote p) as [result|err].
    + destruct (Hok result) as (l & El). rewrite El in Hin. exact Hin.
    + rewrite Herr in Hin. exact Hin.
Qed.

(** X24. A failure of the remote [add] ends in one error line and nothing
    else: whatever [add] throws, the handler logs the exception after its
    opening line and stops. *)
Theorem compaction_failure_is_logged ctx event hookCtx params err :
  In params
     (stored (fun _ => Threw err)
        (createAfterCompactionHandler numberText now ctx event hookCtx)) ->
  exists line,
    storeLog (fun _ => Threw err)
      (createAfterCompactionHandler numberText now ctx event hookCtx)
    = [ (SevInfo, line);
        (SevError,
         js "supermemory: failed to store compaction summary: " ++ err) ].
Proof.
  intros Hin.
  destruct (compaction_cases ctx event hookCtx) as (line & rest & E & H).
  rewrite E in *. cbn [stored storeLog] in *.
  destruct (Hooks.client_configured ctx && negb (modeIsOff (Hooks.config ctx))
            && storable (summary event)); [|rewrite H in Hin; contradiction].
  destruct H as (p & k & -> & _ & _ & _ & Herr).
  exists line. cbn [storeLog]. rewrite Herr. reflexivity.
Qed.

End CompactionFurther.

Lemma compaction_stores_summary_witness :
  let h := createAfterCompactionHandler (fun _ => js "12")
             (js "2026-01-27T04:03:00.000Z")
             (Hooks.mkHookContext true sample_config)
             (sample_compaction None)
             (Hooks.mkHookCtx (Some (js "main"))
                              (Some (js "agent:main:slack:dm:7"))) in
  let params := sample_stored (js "myns:agent:main:slack:dm:7") None in
  stored sample_added h = [params]
  /\ summary (sample_compaction None) = Some (add_content params)
  /\ trim (add_content params) <> []
  /\ Hooks.client_configured (Hooks.mkHookContext true sample_config) = true
  /\ modeIsOff sample_config = false
  /\ add_containerTag params
     = resolveContainerTag sample_config (Some (js "main"))
         (coalesce None (Some (js "agent:main:slack:dm:7"))).
Proof.
  intros h params.
  apply (compaction_stores_summary (fun _ => js "12")
           (js "2026-01-27T04:03:00.000Z") sample_added
           (Hooks.mkHookContext true sample_config)
           (sample_compaction None)
           (Hooks.mkHookCtx (Some (js "main"))
                            (Some (js "agent:main:slack:dm:7")))
           params).
  left. vm_compute. reflexivity.
Defined.

Lemma store_and_recall_share_container_witness :
  let params := sample_stored (js "myns:agent:main:slack:dm:7") None in
  let request := sample_request 5%float (js "myns:agent:main:slack:dm:7") in
  add_containerTag params = search_containerTag request
  /\ addbody_containerTags (addBody params)
     = body_containerTags (searchBody request).
Proof.
  intros params request.
  apply (store_and_recall_share_container (fun _ => js "12")
           (js "2026-01-27T04:03:00.000Z") sample_added
           (Hooks.mkHookContext true sample_config) RequireThrows
           initial_state (Hooks.mkEvent (js "[Slack bob] what do I like"))
           (sample_compaction None)
           (Hooks.mkHookCtx (Some (js "main"))
                            (Some (js "agent:main:slack:dm:7")))
           params request).
  - left. reflexivity.
  - left. vm_compute. reflexivity.
  - vm_compute. reflexivity.
Defined.

Lemma empty_event_sessionKey_masks_witness :
  add_containerTag (sample_stored (js "myns:main") (Some []))
  = spec_agent_tag (containerTag sample_config) (Some (js "main")).
Proof.
  apply (empty_event_sessionKey_masks (fun _ => js "12")
           (js "2026-01-27T04:03:00.000Z") sample_added
           (Hooks.mkHookContext true sample_config)
           (sample_compaction (Some []))
           (Hooks.mkHookCtx (Some (js "main"))
                            (Some (js "agent:main:slack:dm:7")))
           (sample_stored (js "myns:main") (Some []))).
  - reflexivity.
  - left. vm_compute. reflexivity.
Defined.

Lemma compaction_failure_is_logged_witness :
  exists line,
    storeLog (fun _ => Threw (js "Error: Supermemory add failed: 500 oops"))
      (createAfterCompactionHandler (fun _ => js "12")
         (js "2026-01-27T04:03:00.000Z")
         (Hooks.mkHookContext true sample_config) (sample_compaction None)
         (Hooks.mkHookCtx (Some (js "main")) None))
    = [ (SevInfo, line);
        (SevError,
         js "supermemory: failed to store compaction summary: "
            ++ js "Error: Supermemory add failed: 500 oops") ].
Proof.
  apply (compaction_failure_is_logged (fun _ => js "12")
           (js "2026-01-27T04:03:00.000Z")
           (Hooks.mkHookContext true sample_config) (sample_compaction None)
           (Hooks.mkHookCtx (Some (js "main")) None)
           (sample_stored (js "myns:main") None)).
  left. vm_compute. reflexivity.
Defined.

(** ** Registration *)

Section Registration.

Lemma registered_tools_eq raw :
  registeredTools (register raw)
  = if jsstring_eqb (parsedMode raw) (js "off") then []
    else if present (Some (orElse (raw_apiKey raw) [])) then
      if jsstring_eqb (parsedMode raw) (js "tandem")
      then [ (SupermemorySearchTool, js "supermemory_search") ]
      else if jsstring_eqb (parsedMode raw) (js "primary")
           then [ (MemorySearchTool, js "memory_search") ]
           else []
    else [].
Proof.
  unfold register, modeIs, parsedMode. cbn [parseConfig mode apiKey autoRecall].
  destruct (jsstring_eqb (orElse (raw_mode raw) (js "tandem")) (js "off"));
    [reflexivity|].
  destruct (present (Some (orElse (raw_apiKey raw) [])));
    [destruct (jsstring_eqb (orElse (raw_mode raw) (js "tandem")) (js "tandem"));
     [|destruct (jsstring_eqb (orElse (raw_mode raw) (js "tandem"))
                              (js "primary"))]|];
    destruct (orElse (raw_autoRecall raw) true); reflexivity.
Qed.

Lemma registered_hooks_eq raw :
  registeredHooks (register raw)
  = (if jsstring_eqb (parsedMode raw) (js "off") then []
     else (if orElse (raw_autoRecall raw) true then [BeforeAgentStart] else [])
            ++ [AfterCompaction])
  /\ registeredServices (register raw)
     = if jsstring_eqb (parsedMode raw) (js "off") then []
       else [js "supermemory"].
Proof.
  unfold register, modeIs, parsedMode. cbn [parseConfig mode apiKey autoRecall].
  destruct (jsstring_eqb (orElse (raw_mode raw) (js "tandem")) (js "off"));
    [split; reflexivity|].
  destruct (present (Some (orElse (raw_apiKey raw) [])));
    [destruct (jsstring_eqb (orElse (raw_mode raw) (js "tandem")) (js "tandem"));
     [|destruct (jsstring_eqb (orElse (raw_mode raw) (js "tandem"))
                              (js "primary"))]|];
    destruct (orElse (raw_autoRecall raw) true); split; reflexivity.
Qed.

(** X25. [register] registers at most one search tool, and only with an
    API key: [supermemory_search] exactly when the mode is ["tandem"] (the
    default), [memory_search] exactly when it is ["primary"]; with any
    other mode, or without a key, it registers no tool. *)
Theorem register_tools raw tool name :
  length (registeredTools (register raw)) <= 1
  /\ (In (tool, name) (registeredTools (register raw))
      <-> orElse (raw_apiKey raw) [] <> []
          /\ ((tool, name) = (SupermemorySearchTool, js "supermemory_search")
              /\ parsedMode raw = js "tandem"
              \/ (tool, name) = (MemorySearchTool, js "memory_search")
                 /\ parsedMode raw = js "primary")).
Proof.
  rewrite registered_tools_eq.
  destruct (jsstring_eqb (parsedMode raw) (js "off")) eqn:O.
  { apply jsstring_eqb_eq in O. rewrite O. split; [cbn; lia|].
    split; [contradiction|].
    intros (_ & [(_ & H)|(_ & H)]); discriminate H. }
  destruct (orElse (raw_apiKey raw) []) as [|c k]; cbn [present].
  { split; [cbn; lia|]. split; [contradiction|].
    intros (H & _). congruence. }
  assert (P : c :: k <> []) by discriminate.
  destruct (jsstring_eqb (parsedMode raw) (js "tandem")) eqn:T.
  - apply jsstring_eqb_eq in T. rewrite T. split; [cbn; lia|]. split.
    + intros [H|[]]. injection H as <- <-. split; [exact P|]. left. auto.
    + intros (_ & [(H & _)|(_ & H)]); [left; congruence|discriminate H].
  - destruct (jsstring_eqb (parsedMode raw) (js "primary")) eqn:R.
    + apply jsstring_eqb_eq in R. rewrite R. split; [cbn; lia|]. split.
      * intros [H|[]]. injection H as <- <-. split; [exact P|]. right. auto.
      * intros (_ & [(_ & H)|(H & _)]); [discriminate H|left; congruence].
    + split; [cbn; lia|]. split; [contradiction|].
      intros (_ & [(_ & H)|(_ & H)]); apply jsstring_eqb_eq in H; congruence.
Qed.

Lemma register_tools_witness :
  In (MemorySearchTool, js "memory_search")
     (registeredTools
        (register (mkRaw (Some (js "key")) (Some (js "primary")) None None
                         None None None))).
Proof.
  apply (proj2 (proj2 (register_tools
                  (mkRaw (Some (js "key")) (Some (js "primary")) None None
                         None None None)
                  MemorySearchTool (js "memory_search")))).
  split; [discriminate|]. right. split; reflexivity.
Defined.

(** X26. With the mode ["off"] [register] registers nothing: no tool, no
    hook, no service.  With any other mode it registers the
    after_compaction hook and the service once, and the before_agent_start
    hook before them exactly when [autoRecall] is not false, whether or
    not an API key is configured. *)
Theorem register_hooks raw :
  (parsedMode raw = js "off" ->
   registeredTools (register raw) = []
   /\ registeredHooks (register raw) = []
   /\ registeredServices (register raw) = [])
  /\ (parsedMode raw <> js "off" ->
      registeredHooks (register raw)
      = (if orElse (raw_autoRecall raw) true then [BeforeAgentStart] else [])
          ++ [AfterCompaction]
      /\ registeredServices (register raw) = [js "supermemory"]).
Proof.
  destruct (registered_hooks_eq raw) as (H & S).
  rewrite registered_tools_eq, H, S. split.
  - intros ->. repeat split.
  - intros Hn.
    destruct (jsstring_eqb (parsedMode raw) (js "off")) eqn:O;
      [apply jsstring_eqb_eq in O; contradiction|].
    split; reflexivity.
Qed.

Lemma register_hooks_witness :
  registeredHooks (register (mkRaw None (Some (js "bogus")) None None
                                   (Some false) None None))
  = [AfterCompaction]
  /\ registeredServices (register (mkRaw None (Some (js "bogus")) None None
                                         (Some false) None None))
     = [js "supermemory"].
Proof.
  apply (proj2 (register_hooks (mkRaw None (Some (js "bogus")) None None
                                      (Some false) None None))).
  discriminate.
Defined.

End Registration.
